(** * SynapseX: the dataset registry, purchase ledger and cross-chain bridge

    A shallow embedding of the three Solidity contracts of the repository,
    [DataCoin] (imported as ./DataCoin.sol; its text follows the bridge in
    contracts/CrossChainBridge.sol), [DataMarketplace]
    (contracts/DataMarketplace.sol) and [CrossChainBridge]
    (contracts/CrossChainBridge.sol), and the properties of the purchase,
    fee and intent life cycle proved about them.

    Conventions of the embedding:
    - [uint256] and [address] values are binary naturals [N]; Solidity 0.8
      checked arithmetic is written out: an operation whose result leaves
      [0 .. 2^256-1] fails with [Panic_arithmetic].
    - a Solidity [mapping] is a [gmap] read through a default value, the
      zero value of the Solidity type.
    - an external function is a function from the call environment
      ([msg.sender], [block.timestamp], [block.number]) and the state to a
      [result]: [Err] is a revert, which discards every write of the call,
      [Ok] carries the return value, the new state and the events emitted.
    - [keccak256(abi.encodePacked(...))] over fixed-width fields is an ideal
      hash: an identifier is the tuple of the hashed fields, so two
      identifiers are equal exactly when all hashed fields are. Likewise the
      comparison of the hashes of two strings is the comparison of the
      strings.
    - OpenZeppelin v5 base contracts ([Ownable], [Pausable], [ERC721]) are
      modelled as far as the three contracts use them. The reentrancy guard
      is not modelled: the flag is clear at every transaction boundary and
      the only callees are the contracts modelled here.
    - the currency (USDC) is a collaborator outside the sources; its ledger
      is modelled from the specification of its interface. *)

From Stdlib Require Import NArith Lia String List Bool.
From stdpp Require Import base option gmap strings list fin_maps.

Local Open Scope N_scope.

(** ** Machine values *)

Definition uint256 : Type := N.
Definition address : Type := N.
Definition bytes32 : Type := N.

Definition MAX_UINT256 : N := 2 ^ 256 - 1.

(** [purchaseId = keccak256(abi.encodePacked(tokenId, msg.sender, amount,
    block.timestamp, block.number))] *)
Definition PurchaseId : Type := (uint256 * address * uint256 * uint256 * uint256)%type.

(** [intentId = keccak256(abi.encodePacked(msg.sender, tokenId, amount,
    sourceChainId, destinationChainId, block.timestamp, block.number))] *)
Definition IntentId : Type :=
  (address * uint256 * uint256 * uint256 * uint256 * uint256 * uint256)%type.

(** ** Reverts *)

Inductive Error : Type :=
| Require (reason : string)            (* require(cond, "reason") *)
| Panic_arithmetic                     (* Panic(0x11): checked arithmetic *)
| OwnableUnauthorizedAccount (account : address)
| OwnableInvalidOwner (account : address)
| EnforcedPause
| ExpectedPause
| ERC721NonexistentToken (tokenId : uint256)
| ERC721InvalidReceiver (receiver : address)
| ERC721InvalidSender (sender : address)
| CurrencyInsufficientAllowance
| CurrencyInsufficientBalance
| InsufficientPayment
| DatasetNotActive
| PurchaseNotFound
| IntentNotFound
| IntentAlreadyExecuted
| IntentNotExecuted.

Inductive result (A : Type) : Type :=
| Ok (a : A)
| Err (e : Error).
Arguments Ok {A} a.
Arguments Err {A} e.

Definition bind {A B : Type} (m : result A) (k : A -> result B) : result B :=
  match m with
  | Ok a => k a
  | Err e => Err e
  end.

Notation "x <-- m ;; k" := (bind m (fun x => k))
  (at level 100, m at next level, right associativity).
Notation "m ;;; k" := (bind m (fun _ => k))
  (at level 100, right associativity).

Definition require (cond : bool) (reason : string) : result unit :=
  if cond then Ok tt else Err (Require reason).

(** [if (cond) revert E();] *)
Definition revert_if (cond : bool) (e : Error) : result unit :=
  if cond then Err e else Ok tt.

(** The call reverted, with whatever error. *)
Definition reverts {A : Type} (r : result A) : Prop :=
  exists err, r = Err err.

Definition checked_add (a b : uint256) : result uint256 :=
  if a + b <=? MAX_UINT256 then Ok (a + b) else Err Panic_arithmetic.

Definition checked_sub (a b : uint256) : result uint256 :=
  if b <=? a then Ok (a - b) else Err Panic_arithmetic.

Definition checked_mul (a b : uint256) : result uint256 :=
  if a * b <=? MAX_UINT256 then Ok (a * b) else Err Panic_arithmetic.

(** ** Call environment and events *)

Record Env : Type := {
  msg_sender : address;
  block_timestamp : uint256;
  block_number : uint256
}.

Definition with_sender (a : address) (e : Env) : Env :=
  {| msg_sender := a;
     block_timestamp := block_timestamp e;
     block_number := block_number e |}.

Inductive Event : Type :=
| DatasetMinted (tokenId : uint256) (creator : address) (cid : string)
    (price : uint256) (accessPolicy : string)
| DatasetUpdated (tokenId newPrice : uint256) (newAccessPolicy : string)
| AccessGranted (tokenId : uint256) (buyer : address) (amount timestamp : uint256)
| PurchaseExecuted (purchaseId : PurchaseId) (tokenId : uint256) (buyer : address)
    (amount price platformFee creatorRevenue : uint256)
| AccessTokenGenerated (purchaseId : PurchaseId) (accessToken : string)
    (expiryTime : uint256)
| PlatformFeeUpdated (oldFee newFee : uint256)
| Withdrawal (to : address) (amount : uint256)
| IntentCreated (intentId : IntentId) (buyer : address) (tokenId : uint256)
    (sourceChainId destinationChainId usdcAmount : uint256)
| IntentExecuted (intentId : IntentId) (buyer : address) (tokenId : uint256)
    (accessToken : string)
| IntentSettled (intentId : IntentId) (buyer : address) (usdcAmount : uint256)
| ChainSupportUpdated (chainId : uint256) (supported : bool)
| ProofVerified (proofHash : bytes32) (verified : bool).

(** ** The currency holder (USDC) *)

Module Currency.

Record State : Type := {
  balances : gmap address uint256;
  allowances : gmap (address * address) uint256
}.

Definition balanceOf (t : State) (account : address) : uint256 :=
  default 0 (balances t !! account).

Definition allowance (t : State) (holder spender : address) : uint256 :=
  default 0 (allowances t !! (holder, spender)).

Definition move (t : State) (from to : address) (amount : uint256) : State :=
  let debited := <[from := balanceOf t from - amount]> (balances t) in
  let credited := <[to := default 0 (debited !! to) + amount]> debited in
  {| balances := credited; allowances := allowances t |}.

(** Modelled from the spec: the currency-holder collaborator (MockUSDC /
    the ERC-20 behind [IERC20]) is not among the sources. Spec section 6:
    [transfer(to, amount)] moves [amount] from the caller to [to]; it fails
    when the caller's balance is short. *)
Definition transfer (t : State) (caller to : address) (amount : uint256)
  : result State :=
  revert_if (balanceOf t caller <? amount) CurrencyInsufficientBalance;;;
  Ok (move t caller to amount).

(** Modelled from the spec: [transferFrom(from, to, amount)] "fails if
    allowance/balance insufficient"; the allowance the holder gave the
    caller is spent. *)
Definition transferFrom (t : State) (caller from to : address) (amount : uint256)
  : result State :=
  revert_if (allowance t from caller <? amount) CurrencyInsufficientAllowance;;;
  revert_if (balanceOf t from <? amount) CurrencyInsufficientBalance;;;
  let spent :=
    {| balances := balances t;
       allowances :=
         <[(from, caller) := allowance t from caller - amount]> (allowances t) |} in
  Ok (move spent from to amount).

(** Modelled from the spec: the holder's own [approve], the standard way an
    allowance comes to exist. *)
Definition approve (t : State) (caller spender : address) (amount : uint256)
  : State :=
  {| balances := balances t;
     allowances := <[(caller, spender) := amount]> (allowances t) |}.

(** Modelled from the spec: the test token's issuance, [mint(to, amount)]
    of MockUSDC as the tests call it ("Give buyer some USDC"). *)
Definition mint (t : State) (to : address) (amount : uint256) : State :=
  {| balances := <[to := balanceOf t to + amount]> (balances t);
     allowances := allowances t |}.

End Currency.

(** ** DataCoin: the dataset registry *)

Module DataCoin.

Record DatasetInfo : Type := {
  cid : string;
  name : string;
  description : string;
  price : uint256;
  creator : address;
  isActive : bool;
  createdAt : uint256;
  accessPolicy : string;
  totalSupply : uint256;
  soldSupply : uint256
}.

Definition zeroDataset : DatasetInfo :=
  {| cid := EmptyString; name := EmptyString; description := EmptyString;
     price := 0; creator := 0; isActive := false; createdAt := 0;
     accessPolicy := EmptyString; totalSupply := 0; soldSupply := 0 |}.

Record State : Type := {
  owner : address;                      (* Ownable._owner *)
  _tokenIds : uint256;
  datasets : gmap uint256 DatasetInfo;
  cidToTokenId : gmap string uint256;
  _owners : gmap uint256 address        (* ERC721._owners *)
}.

(** [constructor() ERC721("DataCoin", "DATA") Ownable(msg.sender)] *)
Definition constructor (deployer : address) : State :=
  {| owner := deployer; _tokenIds := 0; datasets := ∅; cidToTokenId := ∅;
     _owners := ∅ |}.

Definition dataset_at (s : State) (tokenId : uint256) : DatasetInfo :=
  default zeroDataset (datasets s !! tokenId).

Definition cidToTokenId_at (s : State) (c : string) : uint256 :=
  default 0 (cidToTokenId s !! c).

Definition _ownerOf (s : State) (tokenId : uint256) : address :=
  default 0 (_owners s !! tokenId).

Definition set_datasets (s : State) (d : gmap uint256 DatasetInfo) : State :=
  {| owner := owner s; _tokenIds := _tokenIds s; datasets := d;
     cidToTokenId := cidToTokenId s; _owners := _owners s |}.

(** Ownable: [modifier onlyOwner] *)
Definition onlyOwner (e : Env) (s : State) : result unit :=
  revert_if (negb (owner s =? msg_sender e))
            (OwnableUnauthorizedAccount (msg_sender e)).

(** Ownable: [transferOwnership(newOwner)] *)
Definition transferOwnership (e : Env) (s : State) (newOwner : address)
  : result State :=
  onlyOwner e s;;;
  revert_if (newOwner =? 0) (OwnableInvalidOwner 0);;;
  Ok {| owner := newOwner; _tokenIds := _tokenIds s; datasets := datasets s;
        cidToTokenId := cidToTokenId s; _owners := _owners s |}.

(** Ownable: [renounceOwnership()], public on every Ownable contract: the
    owner leaves the contract without an owner. *)
Definition renounceOwnership (e : Env) (s : State) : result State :=
  onlyOwner e s;;;
  Ok {| owner := 0; _tokenIds := _tokenIds s; datasets := datasets s;
        cidToTokenId := cidToTokenId s; _owners := _owners s |}.

(** ERC721: [ownerOf(tokenId)] reverts for a token that was never minted. *)
Definition ownerOf (s : State) (tokenId : uint256) : result address :=
  revert_if (_ownerOf s tokenId =? 0) (ERC721NonexistentToken tokenId);;;
  Ok (_ownerOf s tokenId).

(** [require(ownerOf(tokenId) != address(0), "Token does not exist")] *)
Definition requireExists (s : State) (tokenId : uint256) : result unit :=
  o <-- ownerOf s tokenId;;
  require (negb (o =? 0)) "Token does not exist".

(** ERC721: [_safeMint(to, tokenId)]. [receiverAccepts] is the outcome of
    the [onERC721Received] acceptance check on [to] ([true] for an
    externally owned account). *)
Definition _safeMint (s : State) (to : address) (tokenId : uint256)
    (receiverAccepts : bool) : result State :=
  revert_if (to =? 0) (ERC721InvalidReceiver 0);;;
  revert_if (negb (_ownerOf s tokenId =? 0)) (ERC721InvalidSender 0);;;
  revert_if (negb receiverAccepts) (ERC721InvalidReceiver to);;;
  Ok {| owner := owner s; _tokenIds := _tokenIds s; datasets := datasets s;
        cidToTokenId := cidToTokenId s;
        _owners := <[tokenId := to]> (_owners s) |}.

Definition mintDataset (e : Env) (s : State) (to : address)
    (cid name description : string) (price : uint256)
    (accessPolicy : string) (maxSupply : uint256) (receiverAccepts : bool)
  : result (uint256 * State * list Event) :=
  onlyOwner e s;;;
  require (negb (String.length cid =? 0)%nat) "CID cannot be empty";;;
  require (negb (String.length name =? 0)%nat) "Name cannot be empty";;;
  require (0 <? price) "Price must be greater than 0";;;
  require (cidToTokenId_at s cid =? 0) "Dataset with this CID already exists";;;
  newTokenId <-- checked_add (_tokenIds s) 1;;
  let info :=
    {| cid := cid; name := name; description := description; price := price;
       creator := to; isActive := true; createdAt := block_timestamp e;
       accessPolicy := accessPolicy; totalSupply := maxSupply;
       soldSupply := 0 |} in
  let s1 :=
    {| owner := owner s; _tokenIds := newTokenId;
       datasets := <[newTokenId := info]> (datasets s);
       cidToTokenId := <[cid := newTokenId]> (cidToTokenId s);
       _owners := _owners s |} in
  s2 <-- _safeMint s1 to newTokenId receiverAccepts;;
  Ok (newTokenId, s2, [DatasetMinted newTokenId to cid price accessPolicy]).

Definition updateDataset (e : Env) (s : State) (tokenId newPrice : uint256)
    (newAccessPolicy : string) : result (State * list Event) :=
  requireExists s tokenId;;;
  require (creator (dataset_at s tokenId) =? msg_sender e)
          "Only creator can update";;;
  require (0 <? newPrice) "Price must be greater than 0";;;
  let d := dataset_at s tokenId in
  let d' :=
    {| cid := cid d; name := name d; description := description d;
       price := newPrice; creator := creator d; isActive := isActive d;
       createdAt := createdAt d; accessPolicy := newAccessPolicy;
       totalSupply := totalSupply d; soldSupply := soldSupply d |} in
  Ok (set_datasets s (<[tokenId := d']> (datasets s)),
      [DatasetUpdated tokenId newPrice newAccessPolicy]).

Definition grantAccess (e : Env) (s : State) (tokenId : uint256)
    (buyer : address) (amount : uint256) : result (State * list Event) :=
  onlyOwner e s;;;
  requireExists s tokenId;;;
  require (isActive (dataset_at s tokenId)) "Dataset is not active";;;
  let d := dataset_at s tokenId in
  sold <-- checked_add (soldSupply d) amount;;
  let d' :=
    {| cid := cid d; name := name d; description := description d;
       price := price d; creator := creator d; isActive := isActive d;
       createdAt := createdAt d; accessPolicy := accessPolicy d;
       totalSupply := totalSupply d; soldSupply := sold |} in
  Ok (set_datasets s (<[tokenId := d']> (datasets s)),
      [AccessGranted tokenId buyer amount (block_timestamp e)]).

Definition deactivateDataset (e : Env) (s : State) (tokenId : uint256)
  : result State :=
  requireExists s tokenId;;;
  require (creator (dataset_at s tokenId) =? msg_sender e)
          "Only creator can deactivate";;;
  let d := dataset_at s tokenId in
  let d' :=
    {| cid := cid d; name := name d; description := description d;
       price := price d; creator := creator d; isActive := false;
       createdAt := createdAt d; accessPolicy := accessPolicy d;
       totalSupply := totalSupply d; soldSupply := soldSupply d |} in
  Ok (set_datasets s (<[tokenId := d']> (datasets s))).

Definition getDatasetInfo (s : State) (tokenId : uint256) : result DatasetInfo :=
  requireExists s tokenId;;;
  Ok (dataset_at s tokenId).

Definition cidExists (s : State) (c : string) : bool :=
  negb (cidToTokenId_at s c =? 0).

End DataCoin.

(** ** DataMarketplace: the purchase ledger *)

Module DataMarketplace.

Record PurchaseRecord : Type := {
  tokenId : uint256;
  buyer : address;
  amount : uint256;
  price : uint256;
  timestamp : uint256;
  isActive : bool;
  accessToken : string
}.

Definition zeroPurchase : PurchaseRecord :=
  {| tokenId := 0; buyer := 0; amount := 0; price := 0; timestamp := 0;
     isActive := false; accessToken := EmptyString |}.

Definition MAX_PLATFORM_FEE_BPS : uint256 := 1000.

Record State : Type := {
  self : address;                       (* address(this) *)
  owner : address;                      (* Ownable._owner *)
  paused : bool;                        (* Pausable._paused *)
  platformFeeBps : uint256;
  purchases : gmap PurchaseId PurchaseRecord;
  buyerPurchases : gmap address (list PurchaseId);
  tokenSales : gmap uint256 uint256
}.

(** [constructor(_usdcToken, _dataCoin) Ownable(msg.sender)], deployed at
    address [this]; [platformFeeBps = 250]. *)
Definition constructor (this deployer : address) : State :=
  {| self := this; owner := deployer; paused := false; platformFeeBps := 250;
     purchases := ∅; buyerPurchases := ∅; tokenSales := ∅ |}.

Definition purchase_at (s : State) (purchaseId : PurchaseId) : PurchaseRecord :=
  default zeroPurchase (purchases s !! purchaseId).

Definition buyerPurchases_at (s : State) (b : address) : list PurchaseId :=
  default [] (buyerPurchases s !! b).

Definition tokenSales_at (s : State) (t : uint256) : uint256 :=
  default 0 (tokenSales s !! t).

Definition onlyOwner (e : Env) (s : State) : result unit :=
  revert_if (negb (owner s =? msg_sender e))
            (OwnableUnauthorizedAccount (msg_sender e)).

Definition whenNotPaused (s : State) : result unit :=
  revert_if (paused s) EnforcedPause.

Definition whenPaused (s : State) : result unit :=
  revert_if (negb (paused s)) ExpectedPause.

Definition set_paused (s : State) (b : bool) : State :=
  {| self := self s; owner := owner s; paused := b;
     platformFeeBps := platformFeeBps s; purchases := purchases s;
     buyerPurchases := buyerPurchases s; tokenSales := tokenSales s |}.

Definition set_owner (s : State) (o : address) : State :=
  {| self := self s; owner := o; paused := paused s;
     platformFeeBps := platformFeeBps s; purchases := purchases s;
     buyerPurchases := buyerPurchases s; tokenSales := tokenSales s |}.

(** Ownable: [transferOwnership(newOwner)] *)
Definition transferOwnership (e : Env) (s : State) (newOwner : address)
  : result State :=
  onlyOwner e s;;;
  revert_if (newOwner =? 0) (OwnableInvalidOwner 0);;;
  Ok (set_owner s newOwner).

(** Ownable: [renounceOwnership()] *)
Definition renounceOwnership (e : Env) (s : State) : result State :=
  onlyOwner e s;;; Ok (set_owner s 0).

Definition executePurchase (e : Env) (usdc : Currency.State)
    (dataCoin : DataCoin.State) (s : State)
    (tokenId amount : uint256) (accessToken : string)
  : result (Currency.State * DataCoin.State * State * list Event) :=
  whenNotPaused s;;;
  dataset <-- DataCoin.getDatasetInfo dataCoin tokenId;;
  revert_if (negb (DataCoin.isActive dataset)) DatasetNotActive;;;
  totalCost <-- checked_mul (DataCoin.price dataset) amount;;
  revert_if (totalCost =? 0) InsufficientPayment;;;
  revert_if (Currency.balanceOf usdc (msg_sender e) <? totalCost)
            InsufficientPayment;;;
  scaled <-- checked_mul totalCost (platformFeeBps s);;
  let platformFee := scaled / 10000 in
  creatorRevenue <-- checked_sub totalCost platformFee;;
  usdc1 <-- Currency.transferFrom usdc (self s) (msg_sender e) (self s) totalCost;;
  usdc2 <-- Currency.transfer usdc1 (self s) (DataCoin.creator dataset)
                              creatorRevenue;;
  let purchaseId : PurchaseId :=
    (tokenId, msg_sender e, amount, block_timestamp e, block_number e) in
  let record :=
    {| tokenId := tokenId; buyer := msg_sender e; amount := amount;
       price := DataCoin.price dataset; timestamp := block_timestamp e;
       isActive := true; accessToken := accessToken |} in
  sales <-- checked_add (tokenSales_at s tokenId) amount;;
  let s' :=
    {| self := self s; owner := owner s; paused := paused s;
       platformFeeBps := platformFeeBps s;
       purchases := <[purchaseId := record]> (purchases s);
       buyerPurchases :=
         <[msg_sender e := buyerPurchases_at s (msg_sender e) ++ [purchaseId]]>
           (buyerPurchases s);
       tokenSales := <[tokenId := sales]> (tokenSales s) |} in
  granted <-- DataCoin.grantAccess (with_sender (self s) e) dataCoin tokenId
                                   (msg_sender e) amount;;
  let '(dataCoin', grantedEvents) := granted in
  expiryTime <-- checked_add (block_timestamp e) 86400;;
  Ok (usdc2, dataCoin', s',
      grantedEvents ++
      [PurchaseExecuted purchaseId tokenId (msg_sender e) amount
         (DataCoin.price dataset) platformFee creatorRevenue;
       AccessTokenGenerated purchaseId accessToken expiryTime]).

(** A view; [e] supplies [block.timestamp]. *)
Definition verifyAccessToken (e : Env) (s : State) (purchaseId : PurchaseId)
    (token : string) : result bool :=
  let purchase := purchase_at s purchaseId in
  revert_if (negb (isActive purchase)) PurchaseNotFound;;;
  if negb (String.eqb (accessToken purchase) token) then Ok false else
  deadline <-- checked_add (timestamp purchase) 86400;;
  if deadline <? block_timestamp e then Ok false else Ok true.

Definition getPurchase (s : State) (purchaseId : PurchaseId) : PurchaseRecord :=
  purchase_at s purchaseId.

Definition getBuyerPurchases (s : State) (b : address) : list PurchaseId :=
  buyerPurchases_at s b.

Definition getTokenSales (s : State) (t : uint256) : uint256 :=
  tokenSales_at s t.

Definition updatePlatformFee (e : Env) (s : State) (newFeeBps : uint256)
  : result (State * list Event) :=
  onlyOwner e s;;;
  require (newFeeBps <=? MAX_PLATFORM_FEE_BPS) "Fee too high";;;
  Ok ({| self := self s; owner := owner s; paused := paused s;
         platformFeeBps := newFeeBps; purchases := purchases s;
         buyerPurchases := buyerPurchases s; tokenSales := tokenSales s |},
      [PlatformFeeUpdated (platformFeeBps s) newFeeBps]).

Definition withdrawFees (e : Env) (usdc : Currency.State) (s : State)
    (to : address) (amount : uint256)
  : result (Currency.State * list Event) :=
  onlyOwner e s;;;
  require (negb (to =? 0)) "Invalid address";;;
  require (amount <=? Currency.balanceOf usdc (self s)) "Insufficient balance";;;
  usdc' <-- Currency.transfer usdc (self s) to amount;;
  Ok (usdc', [Withdrawal to amount]).

Definition pause (e : Env) (s : State) : result State :=
  onlyOwner e s;;; whenNotPaused s;;; Ok (set_paused s true).

Definition unpause (e : Env) (s : State) : result State :=
  onlyOwner e s;;; whenPaused s;;; Ok (set_paused s false).

Definition calculatePlatformFee (s : State) (amount : uint256) : result uint256 :=
  scaled <-- checked_mul amount (platformFeeBps s);;
  Ok (scaled / 10000).

Definition calculateCreatorRevenue (s : State) (amount : uint256)
  : result uint256 :=
  scaled <-- checked_mul amount (platformFeeBps s);;
  checked_sub amount (scaled / 10000).

(** [emergencyRecover(token, to, amount)] for [token == usdcToken]; the
    recovery of any other token touches no state modelled here. *)
Definition emergencyRecover (e : Env) (usdc : Currency.State) (s : State)
    (to : address) (amount : uint256) : result Currency.State :=
  onlyOwner e s;;;
  require (negb (to =? 0)) "Invalid address";;;
  Currency.transfer usdc (self s) to amount.

End DataMarketplace.

(** ** CrossChainBridge: the intent coordinator and chain policy *)

Module CrossChainBridge.

Record CrossChainIntent : Type := {
  intentId : option IntentId;           (* [None] is bytes32(0) *)
  buyer : address;
  tokenId : uint256;
  amount : uint256;
  sourceChainId : uint256;
  destinationChainId : uint256;
  usdcAmount : uint256;
  isExecuted : bool;
  isSettled : bool;
  createdAt : uint256;
  executedAt : uint256;
  accessToken : string
}.

Definition zeroIntent : CrossChainIntent :=
  {| intentId := None; buyer := 0; tokenId := 0; amount := 0;
     sourceChainId := 0; destinationChainId := 0; usdcAmount := 0;
     isExecuted := false; isSettled := false; createdAt := 0;
     executedAt := 0; accessToken := EmptyString |}.

Record State : Type := {
  self : address;                       (* address(this) *)
  owner : address;                      (* Ownable._owner *)
  paused : bool;                        (* Pausable._paused *)
  supportedChains : gmap uint256 bool;
  intents : gmap IntentId CrossChainIntent;
  buyerIntents : gmap address (list IntentId);
  verifiedProofs : gmap bytes32 bool
}.

(** [constructor(_usdcToken, _marketplace) Ownable(msg.sender)], deployed
    at address [this]. *)
Definition constructor (this deployer : address) : State :=
  {| self := this; owner := deployer; paused := false;
     supportedChains :=
       <[8453 := true]> (<[10 := true]> (<[42161 := true]>
         (<[137 := true]> (<[1 := true]> ∅))));
     intents := ∅; buyerIntents := ∅; verifiedProofs := ∅ |}.

Definition supportedChains_at (s : State) (chainId : uint256) : bool :=
  default false (supportedChains s !! chainId).

Definition intent_at (s : State) (i : IntentId) : CrossChainIntent :=
  default zeroIntent (intents s !! i).

Definition buyerIntents_at (s : State) (b : address) : list IntentId :=
  default [] (buyerIntents s !! b).

Definition verifiedProofs_at (s : State) (proofHash : bytes32) : bool :=
  default false (verifiedProofs s !! proofHash).

Definition onlyOwner (e : Env) (s : State) : result unit :=
  revert_if (negb (owner s =? msg_sender e))
            (OwnableUnauthorizedAccount (msg_sender e)).

Definition whenNotPaused (s : State) : result unit :=
  revert_if (paused s) EnforcedPause.

Definition whenPaused (s : State) : result unit :=
  revert_if (negb (paused s)) ExpectedPause.

Definition set_paused (s : State) (b : bool) : State :=
  {| self := self s; owner := owner s; paused := b;
     supportedChains := supportedChains s; intents := intents s;
     buyerIntents := buyerIntents s; verifiedProofs := verifiedProofs s |}.

Definition set_intents (s : State) (m : gmap IntentId CrossChainIntent) : State :=
  {| self := self s; owner := owner s; paused := paused s;
     supportedChains := supportedChains s; intents := m;
     buyerIntents := buyerIntents s; verifiedProofs := verifiedProofs s |}.

Definition set_owner (s : State) (o : address) : State :=
  {| self := self s; owner := o; paused := paused s;
     supportedChains := supportedChains s; intents := intents s;
     buyerIntents := buyerIntents s; verifiedProofs := verifiedProofs s |}.

(** Ownable: [transferOwnership(newOwner)] *)
Definition transferOwnership (e : Env) (s : State) (newOwner : address)
  : result State :=
  onlyOwner e s;;;
  revert_if (newOwner =? 0) (OwnableInvalidOwner 0);;;
  Ok (set_owner s newOwner).

(** Ownable: [renounceOwnership()] *)
Definition renounceOwnership (e : Env) (s : State) : result State :=
  onlyOwner e s;;; Ok (set_owner s 0).

(** The intent after [executeIntent] has marked it. *)
Definition executed_intent (e : Env) (intent : CrossChainIntent) (tok : string)
  : CrossChainIntent :=
  {| intentId := intentId intent; buyer := buyer intent;
     tokenId := tokenId intent; amount := amount intent;
     sourceChainId := sourceChainId intent;
     destinationChainId := destinationChainId intent;
     usdcAmount := usdcAmount intent;
     isExecuted := true; isSettled := isSettled intent;
     createdAt := createdAt intent; executedAt := block_timestamp e;
     accessToken := tok |}.

(** The intent after [settleIntent] has marked it. *)
Definition settled_intent (intent : CrossChainIntent) : CrossChainIntent :=
  {| intentId := intentId intent; buyer := buyer intent;
     tokenId := tokenId intent; amount := amount intent;
     sourceChainId := sourceChainId intent;
     destinationChainId := destinationChainId intent;
     usdcAmount := usdcAmount intent;
     isExecuted := isExecuted intent; isSettled := true;
     createdAt := createdAt intent; executedAt := executedAt intent;
     accessToken := accessToken intent |}.

(** [dataCoin] is the registry reached through [marketplace.dataCoin()]. *)
Definition createIntent (e : Env) (dataCoin : DataCoin.State) (s : State)
    (tokenId amount sourceChainId destinationChainId : uint256)
  : result (IntentId * State * list Event) :=
  whenNotPaused s;;;
  require (supportedChains_at s sourceChainId) "Unsupported source chain";;;
  require (supportedChains_at s destinationChainId)
          "Unsupported destination chain";;;
  require (0 <? amount) "Invalid amount";;;
  dataset <-- DataCoin.getDatasetInfo dataCoin tokenId;;
  require (DataCoin.isActive dataset) "Dataset not active";;;
  usdcAmount <-- checked_mul (DataCoin.price dataset) amount;;
  require (0 <? usdcAmount) "Invalid USDC amount";;;
  let id : IntentId :=
    (msg_sender e, tokenId, amount, sourceChainId, destinationChainId,
     block_timestamp e, block_number e) in
  let intent :=
    {| intentId := Some id; buyer := msg_sender e; tokenId := tokenId;
       amount := amount; sourceChainId := sourceChainId;
       destinationChainId := destinationChainId; usdcAmount := usdcAmount;
       isExecuted := false; isSettled := false;
       createdAt := block_timestamp e; executedAt := 0;
       accessToken := EmptyString |} in
  Ok (id,
      {| self := self s; owner := owner s; paused := paused s;
         supportedChains := supportedChains s;
         intents := <[id := intent]> (intents s);
         buyerIntents :=
           <[msg_sender e := buyerIntents_at s (msg_sender e) ++ [id]]>
             (buyerIntents s);
         verifiedProofs := verifiedProofs s |},
      [IntentCreated id (msg_sender e) tokenId sourceChainId
         destinationChainId usdcAmount]).

Definition executeIntent (e : Env) (usdc : Currency.State)
    (dataCoin : DataCoin.State) (marketplace : DataMarketplace.State)
    (s : State) (id : IntentId) (proofHash : bytes32) (accessToken : string)
  : result (Currency.State * DataCoin.State * DataMarketplace.State * State
            * list Event) :=
  onlyOwner e s;;;
  let intent := intent_at s id in
  revert_if (buyer intent =? 0) IntentNotFound;;;
  revert_if (isExecuted intent) IntentAlreadyExecuted;;;
  require (verifiedProofs_at s proofHash) "Invalid proof";;;
  let intent' := executed_intent e intent accessToken in
  let s' := set_intents s (<[id := intent']> (intents s)) in
  purchased <-- DataMarketplace.executePurchase (with_sender (self s) e)
                  usdc dataCoin marketplace (tokenId intent') (amount intent')
                  accessToken;;
  let '(usdc', dataCoin', marketplace', purchaseEvents) := purchased in
  Ok (usdc', dataCoin', marketplace', s',
      purchaseEvents ++
      [IntentExecuted id (buyer intent') (tokenId intent') accessToken]).

Definition settleIntent (e : Env) (s : State) (id : IntentId)
    (proofHash : bytes32) : result (State * list Event) :=
  onlyOwner e s;;;
  let intent := intent_at s id in
  revert_if (buyer intent =? 0) IntentNotFound;;;
  revert_if (negb (isExecuted intent)) IntentNotExecuted;;;
  revert_if (isSettled intent) IntentAlreadyExecuted;;;
  require (verifiedProofs_at s proofHash) "Invalid settlement proof";;;
  let intent' := settled_intent intent in
  Ok (set_intents s (<[id := intent']> (intents s)),
      [IntentSettled id (buyer intent) (usdcAmount intent)]).

Definition verifyProof (e : Env) (s : State) (proofHash : bytes32)
    (isValid : bool) : result (State * list Event) :=
  onlyOwner e s;;;
  Ok ({| self := self s; owner := owner s; paused := paused s;
         supportedChains := supportedChains s; intents := intents s;
         buyerIntents := buyerIntents s;
         verifiedProofs := <[proofHash := isValid]> (verifiedProofs s) |},
      [ProofVerified proofHash isValid]).

Definition updateChainSupport (e : Env) (s : State) (chainId : uint256)
    (supported : bool) : result (State * list Event) :=
  onlyOwner e s;;;
  Ok ({| self := self s; owner := owner s; paused := paused s;
         supportedChains := <[chainId := supported]> (supportedChains s);
         intents := intents s; buyerIntents := buyerIntents s;
         verifiedProofs := verifiedProofs s |},
      [ChainSupportUpdated chainId supported]).

Definition pause (e : Env) (s : State) : result State :=
  onlyOwner e s;;; whenNotPaused s;;; Ok (set_paused s true).

Definition unpause (e : Env) (s : State) : result State :=
  onlyOwner e s;;; whenPaused s;;; Ok (set_paused s false).

(** [emergencyRecover(token, to, amount)] for [token == usdcToken]. *)
Definition emergencyRecover (e : Env) (usdc : Currency.State) (s : State)
    (to : address) (amount : uint256) : result Currency.State :=
  onlyOwner e s;;;
  require (negb (to =? 0)) "Invalid address";;;
  Currency.transfer usdc (self s) to amount.

Definition getIntent (s : State) (i : IntentId) : CrossChainIntent :=
  intent_at s i.

Definition getBuyerIntents (s : State) (b : address) : list IntentId :=
  buyerIntents_at s b.

Definition isChainSupported (s : State) (chainId : uint256) : bool :=
  supportedChains_at s chainId.

Definition getIntentStatus (s : State) (i : IntentId) : bool * bool :=
  (isExecuted (intent_at s i), isSettled (intent_at s i)).

End CrossChainBridge.

(** ** The deployed system and its transactions *)

Record World : Type := {
  usdc : Currency.State;
  dataCoin : DataCoin.State;
  marketplace : DataMarketplace.State;
  bridge : CrossChainBridge.State
}.

(** The state-changing entry points of the three contracts, their ownership
    hand-over and renouncement, and the holder-side operations of the
    currency ledger. The
    ERC-721 transfer and approval entry points that [DataCoin] inherits are
    left out: they move a minted token between non-zero owners, and the
    contracts only ever ask whether a token has an owner. *)
Inductive Call : Type :=
| MintDataset (to : address) (cid name description : string) (price : uint256)
    (accessPolicy : string) (maxSupply : uint256) (receiverAccepts : bool)
| UpdateDataset (tokenId newPrice : uint256) (newAccessPolicy : string)
| GrantAccess (tokenId : uint256) (buyer : address) (amount : uint256)
| DeactivateDataset (tokenId : uint256)
| DataCoinTransferOwnership (newOwner : address)
| DataCoinRenounceOwnership
| ExecutePurchase (tokenId amount : uint256) (accessToken : string)
| UpdatePlatformFee (newFeeBps : uint256)
| WithdrawFees (to : address) (amount : uint256)
| MarketplacePause
| MarketplaceUnpause
| MarketplaceEmergencyRecover (to : address) (amount : uint256)
| MarketplaceTransferOwnership (newOwner : address)
| MarketplaceRenounceOwnership
| CreateIntent (tokenId amount sourceChainId destinationChainId : uint256)
| ExecuteIntent (id : IntentId) (proofHash : bytes32) (accessToken : string)
| SettleIntent (id : IntentId) (proofHash : bytes32)
| VerifyProof (proofHash : bytes32) (isValid : bool)
| UpdateChainSupport (chainId : uint256) (supported : bool)
| BridgePause
| BridgeUnpause
| BridgeEmergencyRecover (to : address) (amount : uint256)
| BridgeTransferOwnership (newOwner : address)
| BridgeRenounceOwnership
| CurrencyTransfer (to : address) (amount : uint256)
| CurrencyApprove (spender : address) (amount : uint256)
| CurrencyMint (to : address) (amount : uint256).

Definition with_usdc (w : World) (t : Currency.State) : World :=
  {| usdc := t; dataCoin := dataCoin w; marketplace := marketplace w;
     bridge := bridge w |}.

Definition with_dataCoin (w : World) (d : DataCoin.State) : World :=
  {| usdc := usdc w; dataCoin := d; marketplace := marketplace w;
     bridge := bridge w |}.

Definition with_marketplace (w : World) (m : DataMarketplace.State) : World :=
  {| usdc := usdc w; dataCoin := dataCoin w; marketplace := m;
     bridge := bridge w |}.

Definition with_bridge (w : World) (b : CrossChainBridge.State) : World :=
  {| usdc := usdc w; dataCoin := dataCoin w; marketplace := marketplace w;
     bridge := b |}.

(** One transaction: the called entry point run on the current state. *)
Definition exec (e : Env) (c : Call) (w : World) : result (World * list Event) :=
  match c with
  | MintDataset to cid name description price accessPolicy maxSupply ok =>
      r <-- DataCoin.mintDataset e (dataCoin w) to cid name description price
              accessPolicy maxSupply ok;;
      let '(_, d, evs) := r in Ok (with_dataCoin w d, evs)
  | UpdateDataset tokenId newPrice newAccessPolicy =>
      r <-- DataCoin.updateDataset e (dataCoin w) tokenId newPrice newAccessPolicy;;
      let '(d, evs) := r in Ok (with_dataCoin w d, evs)
  | GrantAccess tokenId buyer amount =>
      r <-- DataCoin.grantAccess e (dataCoin w) tokenId buyer amount;;
      let '(d, evs) := r in Ok (with_dataCoin w d, evs)
  | DeactivateDataset tokenId =>
      d <-- DataCoin.deactivateDataset e (dataCoin w) tokenId;;
      Ok (with_dataCoin w d, [])
  | DataCoinTransferOwnership newOwner =>
      d <-- DataCoin.transferOwnership e (dataCoin w) newOwner;;
      Ok (with_dataCoin w d, [])
  | DataCoinRenounceOwnership =>
      d <-- DataCoin.renounceOwnership e (dataCoin w);;
      Ok (with_dataCoin w d, [])
  | ExecutePurchase tokenId amount accessToken =>
      r <-- DataMarketplace.executePurchase e (usdc w) (dataCoin w)
              (marketplace w) tokenId amount accessToken;;
      let '(t, d, m, evs) := r in
      Ok ({| usdc := t; dataCoin := d; marketplace := m; bridge := bridge w |},
          evs)
  | UpdatePlatformFee newFeeBps =>
      r <-- DataMarketplace.updatePlatformFee e (marketplace w) newFeeBps;;
      let '(m, evs) := r in Ok (with_marketplace w m, evs)
  | WithdrawFees to amount =>
      r <-- DataMarketplace.withdrawFees e (usdc w) (marketplace w) to amount;;
      let '(t, evs) := r in Ok (with_usdc w t, evs)
  | MarketplacePause =>
      m <-- DataMarketplace.pause e (marketplace w);;
      Ok (with_marketplace w m, [])
  | MarketplaceUnpause =>
      m <-- DataMarketplace.unpause e (marketplace w);;
      Ok (with_marketplace w m, [])
  | MarketplaceEmergencyRecover to amount =>
      t <-- DataMarketplace.emergencyRecover e (usdc w) (marketplace w) to amount;;
      Ok (with_usdc w t, [])
  | MarketplaceTransferOwnership newOwner =>
      m <-- DataMarketplace.transferOwnership e (marketplace w) newOwner;;
      Ok (with_marketplace w m, [])
  | MarketplaceRenounceOwnership =>
      m <-- DataMarketplace.renounceOwnership e (marketplace w);;
      Ok (with_marketplace w m, [])
  | CreateIntent tokenId amount sourceChainId destinationChainId =>
      r <-- CrossChainBridge.createIntent e (dataCoin w) (bridge w) tokenId
              amount sourceChainId destinationChainId;;
      let '(_, b, evs) := r in Ok (with_bridge w b, evs)
  | ExecuteIntent id proofHash accessToken =>
      r <-- CrossChainBridge.executeIntent e (usdc w) (dataCoin w)
              (marketplace w) (bridge w) id proofHash accessToken;;
      let '(t, d, m, b, evs) := r in
      Ok ({| usdc := t; dataCoin := d; marketplace := m; bridge := b |}, evs)
  | SettleIntent id proofHash =>
      r <-- CrossChainBridge.settleIntent e (bridge w) id proofHash;;
      let '(b, evs) := r in Ok (with_bridge w b, evs)
  | VerifyProof proofHash isValid =>
      r <-- CrossChainBridge.verifyProof e (bridge w) proofHash isValid;;
      let '(b, evs) := r in Ok (with_bridge w b, evs)
  | UpdateChainSupport chainId supported =>
      r <-- CrossChainBridge.updateChainSupport e (bridge w) chainId supported;;
      let '(b, evs) := r in Ok (with_bridge w b, evs)
  | BridgePause =>
      b <-- CrossChainBridge.pause e (bridge w);;
      Ok (with_bridge w b, [])
  | BridgeUnpause =>
      b <-- CrossChainBridge.unpause e (bridge w);;
      Ok (with_bridge w b, [])
  | BridgeEmergencyRecover to amount =>
      t <-- CrossChainBridge.emergencyRecover e (usdc w) (bridge w) to amount;;
      Ok (with_usdc w t, [])
  | BridgeTransferOwnership newOwner =>
      b <-- CrossChainBridge.transferOwnership e (bridge w) newOwner;;
      Ok (with_bridge w b, [])
  | BridgeRenounceOwnership =>
      b <-- CrossChainBridge.renounceOwnership e (bridge w);;
      Ok (with_bridge w b, [])
  | CurrencyTransfer to amount =>
      t <-- Currency.transfer (usdc w) (msg_sender e) to amount;;
      Ok (with_usdc w t, [])
  | CurrencyApprove spender amount =>
      Ok (with_usdc w (Currency.approve (usdc w) (msg_sender e) spender amount), [])
  | CurrencyMint to amount =>
      Ok (with_usdc w (Currency.mint (usdc w) to amount), [])
  end.

(** A transaction that reverts leaves the state as it was. *)
Definition apply_call (w : World) (tx : Env * Call) : World :=
  match exec (fst tx) (snd tx) w with
  | Ok (w', _) => w'
  | Err _ => w
  end.

Definition run (w : World) (txs : list (Env * Call)) : World :=
  fold_left apply_call txs w.

(** The four contracts right after deployment by [deployer], the marketplace
    at address [marketplaceAddress] and the bridge at [bridgeAddress]. *)
Definition deploy (deployer marketplaceAddress bridgeAddress : address) : World :=
  {| usdc := {| Currency.balances := ∅; Currency.allowances := ∅ |};
     dataCoin := DataCoin.constructor deployer;
     marketplace := DataMarketplace.constructor marketplaceAddress deployer;
     bridge := CrossChainBridge.constructor bridgeAddress deployer |}.

(** ** The steps of each contract *)

(** The ways a transaction can change the registry. *)
Inductive registry_step (s : DataCoin.State) : DataCoin.State -> Prop :=
| rs_same : registry_step s s
| rs_mint e to c n d p pol maxSupply accepts id s' evs :
    DataCoin.mintDataset e s to c n d p pol maxSupply accepts
      = Ok (id, s', evs) ->
    registry_step s s'
| rs_update e tokenId newPrice pol s' evs :
    DataCoin.updateDataset e s tokenId newPrice pol = Ok (s', evs) ->
    registry_step s s'
| rs_grant e tokenId b amount s' evs :
    DataCoin.grantAccess e s tokenId b amount = Ok (s', evs) ->
    registry_step s s'
| rs_deactivate e tokenId s' :
    DataCoin.deactivateDataset e s tokenId = Ok s' ->
    registry_step s s'
| rs_transferOwnership e newOwner s' :
    DataCoin.transferOwnership e s newOwner = Ok s' ->
    registry_step s s'
| rs_renounceOwnership e s' :
    DataCoin.renounceOwnership e s = Ok s' ->
    registry_step s s'.

(** The ways a transaction can change the marketplace. *)
Inductive marketplace_step (s : DataMarketplace.State)
  : DataMarketplace.State -> Prop :=
| ms_same : marketplace_step s s
| ms_purchase e usdc dc tokenId amount tok usdc' dc' s' evs :
    DataMarketplace.executePurchase e usdc dc s tokenId amount tok
      = Ok (usdc', dc', s', evs) ->
    marketplace_step s s'
| ms_fee e newFeeBps s' evs :
    DataMarketplace.updatePlatformFee e s newFeeBps = Ok (s', evs) ->
    marketplace_step s s'
| ms_paused b : marketplace_step s (DataMarketplace.set_paused s b)
| ms_owner o : marketplace_step s (DataMarketplace.set_owner s o).

(** The ways a transaction can change the bridge. *)
Inductive bridge_step (s : CrossChainBridge.State)
  : CrossChainBridge.State -> Prop :=
| bs_same : bridge_step s s
| bs_create e dc tokenId amount src dst id s' evs :
    CrossChainBridge.createIntent e dc s tokenId amount src dst
      = Ok (id, s', evs) ->
    bridge_step s s'
| bs_execute e usdc dc mp id proofHash tok usdc' dc' mp' s' evs :
    CrossChainBridge.executeIntent e usdc dc mp s id proofHash tok
      = Ok (usdc', dc', mp', s', evs) ->
    bridge_step s s'
| bs_settle e id proofHash s' evs :
    CrossChainBridge.settleIntent e s id proofHash = Ok (s', evs) ->
    bridge_step s s'
| bs_verifyProof e proofHash isValid s' evs :
    CrossChainBridge.verifyProof e s proofHash isValid = Ok (s', evs) ->
    bridge_step s s'
| bs_chain e chainId supported s' evs :
    CrossChainBridge.updateChainSupport e s chainId supported = Ok (s', evs) ->
    bridge_step s s'
| bs_paused b : bridge_step s (CrossChainBridge.set_paused s b)
| bs_owner o : bridge_step s (CrossChainBridge.set_owner s o).

(** ** Observations on transaction sequences and ledger states *)

(** The identifier returned by transaction [c], when it is a mint that
    succeeds. *)
Definition returned_mint_id (e : Env) (c : Call) (w : World) : list uint256 :=
  match c with
  | MintDataset to cid name description price accessPolicy maxSupply ok =>
      match DataCoin.mintDataset e (dataCoin w) to cid name description price
              accessPolicy maxSupply ok with
      | Ok (newTokenId, _, _) => [newTokenId]
      | Err _ => []
      end
  | _ => []
  end.

(** The identifiers returned, in order, by the successful mints among [txs]. *)
Fixpoint minted_ids (w : World) (txs : list (Env * Call)) : list uint256 :=
  match txs with
  | [] => []
  | tx :: rest =>
      returned_mint_id (fst tx) (snd tx) w ++ minted_ids (apply_call w tx) rest
  end.

(** Every record the ledger holds was written by [executePurchase]: it is
    active and its expiry [timestamp + 86400] fits a uint256. *)
Definition purchases_issued (s : DataMarketplace.State) : Prop :=
  forall id r, DataMarketplace.purchases s !! id = Some r ->
    DataMarketplace.isActive r = true /\
    DataMarketplace.timestamp r + 86400 <= MAX_UINT256.

(** Every minted dataset has a positive price. *)
Definition prices_positive (s : DataCoin.State) : Prop :=
  forall tokenId,
    DataCoin._ownerOf s tokenId <> 0 ->
    0 < DataCoin.price (DataCoin.dataset_at s tokenId).

(** The bound the data model announces for fractional datasets. *)
Definition supply_bounded (s : DataCoin.State) : Prop :=
  forall tokenId,
    0 < DataCoin.totalSupply (DataCoin.dataset_at s tokenId) ->
    DataCoin.soldSupply (DataCoin.dataset_at s tokenId)
      <= DataCoin.totalSupply (DataCoin.dataset_at s tokenId).

(** ** Concrete deployments used by the examples *)

Module Scenario.

Definition deployer : address := 100.
Definition buyer : address := 200.
Definition marketplaceAddress : address := 300.
Definition bridgeAddress : address := 400.

Definition at_block (sender : address) (t n : uint256) : Env :=
  {| msg_sender := sender; block_timestamp := t; block_number := n |}.

(** The marketplace can only grant access once it owns the registry:
    the deployer mints dataset 1 and hands the registry over. *)
Definition setup (maxSupply : uint256) : list (Env * Call) :=
  [ (at_block deployer 1000 1,
     MintDataset deployer "QmTest123" "Test Dataset" "Description" 1000000
                 "{}" maxSupply true);
    (at_block deployer 1001 2, DataCoinTransferOwnership marketplaceAddress);
    (at_block deployer 1002 3, CurrencyMint buyer 10000000);
    (at_block buyer 1003 4, CurrencyApprove marketplaceAddress 10000000) ].

Definition ready (maxSupply : uint256) : World :=
  run (deploy deployer marketplaceAddress bridgeAddress) (setup maxSupply).

(** The creator has withdrawn dataset 1 from sale. *)
Definition deactivated : World :=
  run (ready 0) [ (at_block deployer 1500 5, DeactivateDataset 1) ].

(** An account that holds no currency. *)
Definition pauper : address := 201.

(** The buyer's purchase of one unit of dataset 1, with the access token of
    the tests. *)
Definition purchase : Env * Call :=
  (at_block buyer 2000 5, ExecutePurchase 1 1 "temp_access_token_123").

Definition purchased_txs : list (Env * Call) := setup 0 ++ [purchase].

Definition purchased : World :=
  run (deploy deployer marketplaceAddress bridgeAddress) purchased_txs.

(** The buyer declares an intent for one unit of dataset 1 from chain 1 to
    chain 137 and the bridge owner records proof 77 as valid, all in block 7. *)
Definition intent : IntentId := (buyer, 1, 1, 1, 137, 3000, 7).

Definition proof : bytes32 := 77.

Definition intent_txs : list (Env * Call) :=
  [ (at_block buyer 3000 7, CreateIntent 1 1 1 137);
    (at_block deployer 3000 7, VerifyProof proof true) ].

(** The bridge holds no currency: the purchase behind [executeIntent] fails. *)
Definition unfunded : World := run (ready 0) intent_txs.

(** The bridge holds the bridged funds and the marketplace may draw on them.
    No function of the bridge approves the marketplace; the allowance is
    taken as part of the given currency ledger. *)
Definition funded : World :=
  with_usdc unfunded
    {| Currency.balances :=
         <[bridgeAddress := 5000000]> (Currency.balances (usdc unfunded));
       Currency.allowances :=
         <[(bridgeAddress, marketplaceAddress) := 5000000]>
           (Currency.allowances (usdc unfunded)) |}.

End Scenario.

(** ** Further observations on the ledgers *)

(** [totalSupply()] of DataCoin, the number of tokens minted so far (the name
    is taken by the field of [DatasetInfo]). *)
Definition tokenCount (s : DataCoin.State) : uint256 := DataCoin._tokenIds s.

(** The token has been minted: ERC721 records an owner for it. *)
Definition minted (s : DataCoin.State) (tokenId : uint256) : Prop :=
  DataCoin._ownerOf s tokenId <> 0.

(** The minted identifiers are exactly [1 .. _tokenIds]. *)
Definition ids_dense (s : DataCoin.State) : Prop :=
  forall tokenId, minted s tokenId <-> 1 <= tokenId <= DataCoin._tokenIds s.

(** [cidToTokenId] is the inverse of the [cid] field on minted datasets. *)
Definition cid_index_consistent (s : DataCoin.State) : Prop :=
  (forall tokenId, minted s tokenId ->
     DataCoin.cidToTokenId_at s (DataCoin.cid (DataCoin.dataset_at s tokenId))
       = tokenId) /\
  (forall c, DataCoin.cidToTokenId_at s c <> 0 ->
     minted s (DataCoin.cidToTokenId_at s c) /\
     DataCoin.cid (DataCoin.dataset_at s (DataCoin.cidToTokenId_at s c)) = c).

(** The marketplace's sales counter of a dataset never exceeds the sold supply
    the registry keeps for it, and is zero for a token not minted. *)
Definition sales_within_supply (w : World) : Prop :=
  forall tokenId,
    DataMarketplace.tokenSales_at (marketplace w) tokenId
      <= DataCoin.soldSupply (DataCoin.dataset_at (dataCoin w) tokenId) /\
    (DataCoin._ownerOf (dataCoin w) tokenId = 0 ->
     DataMarketplace.tokenSales_at (marketplace w) tokenId = 0).

(** Every purchase record is stored under the identifier derived from its own
    fields, is active, and is for a positive amount of a minted dataset at a
    positive price; every identifier in a buyer's index has a record of that
    buyer. *)
Definition purchases_wellformed (w : World) : Prop :=
  (forall id r, DataMarketplace.purchases (marketplace w) !! id = Some r ->
     (exists blockNumber,
        id = (DataMarketplace.tokenId r, DataMarketplace.buyer r,
              DataMarketplace.amount r, DataMarketplace.timestamp r,
              blockNumber)) /\
     DataMarketplace.isActive r = true /\
     0 < DataMarketplace.amount r /\ 0 < DataMarketplace.price r /\
     minted (dataCoin w) (DataMarketplace.tokenId r)) /\
  (forall b id, In id (DataMarketplace.buyerPurchases_at (marketplace w) b) ->
     exists r, DataMarketplace.purchases (marketplace w) !! id = Some r /\
               DataMarketplace.buyer r = b).

(** Every stored intent carries its own identifier, derived from its fields,
    a positive amount and cost; a settled intent is executed, and an intent
    not yet executed has no execution time and no access token; every
    identifier in a buyer's index has an intent of that buyer. *)
Definition intents_wellformed (s : CrossChainBridge.State) : Prop :=
  (forall id i, CrossChainBridge.intents s !! id = Some i ->
     CrossChainBridge.intentId i = Some id /\
     (exists blockNumber,
        id = (CrossChainBridge.buyer i, CrossChainBridge.tokenId i,
              CrossChainBridge.amount i, CrossChainBridge.sourceChainId i,
              CrossChainBridge.destinationChainId i,
              CrossChainBridge.createdAt i, blockNumber)) /\
     0 < CrossChainBridge.amount i /\ 0 < CrossChainBridge.usdcAmount i /\
     (CrossChainBridge.isSettled i = true ->
      CrossChainBridge.isExecuted i = true) /\
     (CrossChainBridge.isExecuted i = false ->
      CrossChainBridge.executedAt i = 0 /\
      CrossChainBridge.accessToken i = EmptyString)) /\
  (forall b id, In id (CrossChainBridge.buyerIntents_at s b) ->
     exists i, CrossChainBridge.intents s !! id = Some i /\
               CrossChainBridge.buyer i = b).

(** The account a call must come from when its entry point is [onlyOwner]:
    the owner of the contract it enters. *)
Definition required_owner (w : World) (c : Call) : option address :=
  match c with
  | MintDataset _ _ _ _ _ _ _ _ | GrantAccess _ _ _
  | DataCoinTransferOwnership _ | DataCoinRenounceOwnership =>
      Some (DataCoin.owner (dataCoin w))
  | UpdatePlatformFee _ | WithdrawFees _ _ | MarketplacePause
  | MarketplaceUnpause | MarketplaceEmergencyRecover _ _
  | MarketplaceTransferOwnership _ | MarketplaceRenounceOwnership =>
      Some (DataMarketplace.owner (marketplace w))
  | ExecuteIntent _ _ _ | SettleIntent _ _ | VerifyProof _ _
  | UpdateChainSupport _ _ | BridgePause | BridgeUnpause
  | BridgeEmergencyRecover _ _ | BridgeTransferOwnership _
  | BridgeRenounceOwnership =>
      Some (CrossChainBridge.owner (bridge w))
  | UpdateDataset _ _ _ | DeactivateDataset _ | ExecutePurchase _ _ _
  | CreateIntent _ _ _ _ | CurrencyTransfer _ _ | CurrencyApprove _ _
  | CurrencyMint _ _ => None
  end.

(** The call hands the registry over to another owner. *)
Definition is_registry_handover (c : Call) : bool :=
  match c with
  | DataCoinTransferOwnership _ => true
  | _ => false
  end.

(** The transaction left the marketplace's ledger alone: its address, the
    purchase records, the buyers' indices and the sales counters. *)
Definition ledger_kept (m m' : DataMarketplace.State) : Prop :=
  DataMarketplace.self m' = DataMarketplace.self m /\
  DataMarketplace.purchases m' = DataMarketplace.purchases m /\
  DataMarketplace.buyerPurchases m' = DataMarketplace.buyerPurchases m /\
  DataMarketplace.tokenSales m' = DataMarketplace.tokenSales m.

(** The platform fee is within the cap of 10 %. *)
Definition fee_capped (m : DataMarketplace.State) : Prop :=
  DataMarketplace.platformFeeBps m <= DataMarketplace.MAX_PLATFORM_FEE_BPS.

(** The bridge with its pause flag and chain policy replaced. *)
Definition with_policy (s : CrossChainBridge.State) (p : bool)
    (chains : gmap uint256 bool) : CrossChainBridge.State :=
  {| CrossChainBridge.self := CrossChainBridge.self s;
     CrossChainBridge.owner := CrossChainBridge.owner s;
     CrossChainBridge.paused := p;
     CrossChainBridge.supportedChains := chains;
     CrossChainBridge.intents := CrossChainBridge.intents s;
     CrossChainBridge.buyerIntents := CrossChainBridge.buyerIntents s;
     CrossChainBridge.verifiedProofs := CrossChainBridge.verifiedProofs s |}.

(** ** DataCoin: the string helpers of the token metadata *)

Module DataCoinStrings.

(** The outcome of a pure helper: its value, a [Panic(code)] of the checked
    arithmetic (0x11) or of an index out of bounds (0x32), or the loop budget
    running out. *)
Inductive outcome (A : Type) : Type :=
| Done (a : A)
| Panic (code : N)
| OutOfGas.

Arguments Done {A} a.
Arguments Panic {A} code.
Arguments OutOfGas {A}.

Definition andThen {A B : Type} (m : outcome A) (k : A -> outcome B)
  : outcome B :=
  match m with
  | Done a => k a
  | Panic code => Panic code
  | OutOfGas => OutOfGas
  end.

Definition add256 (a b : uint256) : outcome uint256 :=
  if a + b <=? MAX_UINT256 then Done (a + b) else Panic 17.

Definition sub256 (a b : uint256) : outcome uint256 :=
  if b <=? a then Done (a - b) else Panic 17.

Definition mul256 (a b : uint256) : outcome uint256 :=
  if a * b <=? MAX_UINT256 then Done (a * b) else Panic 17.

(** Checked addition in [uint8]. *)
Definition add8 (a b : N) : outcome N :=
  if a + b <=? 255 then Done (a + b) else Panic 17.

(** [bytes memory] as the list of its byte values; [new bytes(len)]. *)
Definition new_bytes (len : uint256) : list N := repeat 0 (N.to_nat len).

(** [b[k]] read and [b[k] = v] write, with the bounds check. *)
Definition load (b : list N) (k : uint256) : outcome N :=
  match b !! N.to_nat k with
  | Some v => Done v
  | None => Panic 50
  end.

Definition store (b : list N) (k : uint256) (v : N) : outcome (list N) :=
  if k <? N.of_nat (length b) then Done (<[N.to_nat k := v]> b) else Panic 50.

(** [while (j != 0) { len++; j /= 10; }] *)
Fixpoint count_digits (gas : nat) (j len : uint256) : outcome uint256 :=
  if j =? 0 then Done len else
  match gas with
  | O => OutOfGas
  | S gas' =>
      andThen (add256 len 1) (fun len' => count_digits gas' (j / 10) len')
  end.

(** [while (_i != 0) { k = k - 1; uint8 temp = 48 + uint8(_i - _i / 10 * 10);
    bstr[k] = bytes1(temp); _i /= 10; }] *)
Fixpoint write_digits (gas : nat) (_i k : uint256) (bstr : list N)
  : outcome (list N) :=
  if _i =? 0 then Done bstr else
  match gas with
  | O => OutOfGas
  | S gas' =>
      andThen (sub256 k 1) (fun k' =>
      andThen (mul256 (_i / 10) 10) (fun tens =>
      andThen (sub256 _i tens) (fun unit =>
      andThen (add8 48 (unit mod 256)) (fun temp =>
      andThen (store bstr k' temp) (fun bstr' =>
      write_digits gas' (_i / 10) k' bstr')))))
  end.

(** [_uint2str(_i)]; the result is the byte string behind [string(bstr)].
    [gas] bounds the iterations of each loop. *)
Definition _uint2str (gas : nat) (_i : uint256) : outcome (list N) :=
  if _i =? 0 then Done [48] else
  andThen (count_digits gas _i 0) (fun len =>
  write_digits gas _i len (new_bytes len)).

(** [value[k]] of a [bytes32]: byte [k] counted from the most significant. *)
Definition byte_of (value : uint256) (k : uint256) : outcome N :=
  if k <? 32 then Done ((value / 256 ^ (31 - k)) mod 256) else Panic 50.

(** ["0123456789abcdef"] *)
Definition alphabet : list N :=
  [48; 49; 50; 51; 52; 53; 54; 55; 56; 57; 97; 98; 99; 100; 101; 102].

(** [for (uint256 i = 0; i < 20; i++) {
      str[2 + i * 2] = alphabet[uint8(value[i + 12] >> 4)];
      str[3 + i * 2] = alphabet[uint8(value[i + 12] & 0x0f)]; }] *)
Fixpoint write_nibbles (gas : nat) (value i : uint256) (str : list N)
  : outcome (list N) :=
  if negb (i <? 20) then Done str else
  match gas with
  | O => OutOfGas
  | S gas' =>
      andThen (mul256 i 2) (fun twice =>
      andThen (add256 2 twice) (fun at_high =>
      andThen (add256 i 12) (fun position =>
      andThen (byte_of value position) (fun b =>
      andThen (load alphabet (N.shiftr b 4)) (fun high =>
      andThen (store str at_high high) (fun str1 =>
      andThen (add256 3 twice) (fun at_low =>
      andThen (load alphabet (N.land b 15)) (fun low =>
      andThen (store str1 at_low low) (fun str2 =>
      andThen (add256 i 1) (fun i' =>
      write_nibbles gas' value i' str2))))))))))
  end.

(** [_address2str(_addr)]: [value = bytes32(uint256(uint160(_addr)))]. *)
Definition _address2str (gas : nat) (_addr : address) : outcome (list N) :=
  let value := _addr mod 2 ^ 160 in
  let str := new_bytes 42 in
  andThen (store str 0 48) (fun str0 =>
  andThen (store str0 1 120) (fun str1 =>
  write_nibbles gas value 0 str1)).

(** The number a string of decimal digits denotes. *)
Definition parse_decimal (s : list N) : N :=
  fold_left (fun acc c => 10 * acc + (c - 48)) s 0.

Definition is_decimal_digit (c : N) : Prop := 48 <= c <= 57.

(** The value of a lower-case hexadecimal digit, and the number a string of
    them denotes. *)
Definition hex_value (c : N) : N := if c <? 97 then c - 48 else c - 87.

Definition parse_hex (s : list N) : N :=
  fold_left (fun acc c => 16 * acc + hex_value c) s 0.

Definition is_hex_digit (c : N) : Prop := 48 <= c <= 57 \/ 97 <= c <= 102.

End DataCoinStrings.

(** ** Further observations on the bridge's funds *)

(** The bridge has given no spender an allowance on the payment token. *)
Definition bridge_unapproved (w : World) : Prop :=
  forall spender,
    Currency.allowance (usdc w) (CrossChainBridge.self (bridge w)) spender = 0.

(** No intent is marked executed or settled. *)
Definition none_executed (s : CrossChainBridge.State) : Prop :=
  forall id, CrossChainBridge.getIntentStatus s id = (false, false).

(** * Properties *)

(** ** Reasoning about reverts *)

Lemma bind_Ok {A B : Type} (m : result A) (k : A -> result B) (b : B) :
  bind m k = Ok b -> exists a, m = Ok a /\ k a = Ok b.
Proof. destruct m as [a|err]; simpl; [eauto | discriminate]. Qed.

Lemma require_Ok (c : bool) (reason : string) (u : unit) :
  require c reason = Ok u -> c = true.
Proof. destruct c; [reflexivity | discriminate]. Qed.

Lemma revert_if_Ok (c : bool) (err : Error) (u : unit) :
  revert_if c err = Ok u -> c = false.
Proof. destruct c; [discriminate | reflexivity]. Qed.

Lemma checked_add_Ok (a b c : uint256) :
  checked_add a b = Ok c -> c = a + b /\ a + b <= MAX_UINT256.
Proof.
  unfold checked_add. destruct (a + b <=? MAX_UINT256) eqn:E; [|discriminate].
  intros [= <-]. apply N.leb_le in E. auto.
Qed.

Lemma checked_mul_Ok (a b c : uint256) :
  checked_mul a b = Ok c -> c = a * b /\ a * b <= MAX_UINT256.
Proof.
  unfold checked_mul. destruct (a * b <=? MAX_UINT256) eqn:E; [|discriminate].
  intros [= <-]. apply N.leb_le in E. auto.
Qed.

Lemma checked_sub_Ok (a b c : uint256) :
  checked_sub a b = Ok c -> c = a - b /\ b <= a.
Proof.
  unfold checked_sub. destruct (b <=? a) eqn:E; [|discriminate].
  intros [= <-]. apply N.leb_le in E. auto.
Qed.

(** Peel the successful prefix of a chain of checks off hypothesis [H]. *)
Ltac ok_step H :=
  let a := fresh "v" in
  let Ha := fresh "Hv" in
  apply bind_Ok in H; destruct H as (a & Ha & H);
  lazymatch type of Ha with
  | require _ _ = _ => apply require_Ok in Ha
  | revert_if _ _ = _ => apply revert_if_Ok in Ha
  | checked_add _ _ = _ => apply checked_add_Ok in Ha; destruct Ha as [-> Ha]
  | checked_mul _ _ = _ => apply checked_mul_Ok in Ha; destruct Ha as [-> Ha]
  | checked_sub _ _ = _ => apply checked_sub_Ok in Ha; destruct Ha as [-> Ha]
  | _ => idtac
  end.

Ltac ok_steps H := cbv zeta in H; repeat (ok_step H; cbv zeta in H).

(** Turn the boolean outcomes of the checks into propositions. *)
Ltac norm_checks :=
  repeat match goal with
         | Hx : negb _ = true |- _ => apply negb_true_iff in Hx
         | Hx : negb _ = false |- _ => apply negb_false_iff in Hx
         | Hx : (_ =? _)%nat = false |- _ => apply Nat.eqb_neq in Hx
         | Hx : (_ =? _) = false |- _ => apply N.eqb_neq in Hx
         | Hx : (_ =? _) = true |- _ => apply N.eqb_eq in Hx
         | Hx : (_ <? _) = true |- _ => apply N.ltb_lt in Hx
         | Hx : (_ <? _) = false |- _ => apply N.ltb_ge in Hx
         | Hx : (_ <=? _) = true |- _ => apply N.leb_le in Hx
         | Hx : (_ <=? _) = false |- _ => apply N.leb_gt in Hx
         end.

(** ** The currency ledger *)

Section CurrencyFacts.
Import Currency.

Lemma balanceOf_move (t : State) (from to x : address) (a : uint256) :
  from <> to ->
  balanceOf (move t from to a) x =
    if decide (x = to) then balanceOf t to + a
    else if decide (x = from) then balanceOf t from - a
    else balanceOf t x.
Proof.
  intros Hne. unfold move, balanceOf. simpl.
  destruct (decide (x = to)) as [->|Hto].
  - rewrite lookup_insert_eq. simpl. rewrite lookup_insert_ne by done. done.
  - rewrite lookup_insert_ne by done.
    destruct (decide (x = from)) as [->|Hfrom].
    + by rewrite lookup_insert_eq.
    + by rewrite lookup_insert_ne.
Qed.

Lemma transfer_Ok (t t' : State) (caller to : address) (a : uint256) :
  transfer t caller to a = Ok t' ->
  a <= balanceOf t caller /\ t' = move t caller to a.
Proof.
  unfold transfer. intros H. ok_steps H.
  apply N.ltb_ge in Hv. by inversion H.
Qed.

Lemma transferFrom_Ok (t t' : State) (caller from to : address) (a : uint256) :
  transferFrom t caller from to a = Ok t' ->
  a <= allowance t from caller /\ a <= balanceOf t from /\
  forall x, balanceOf t' x =
    balanceOf (move t from to a) x.
Proof.
  unfold transferFrom. intros H. ok_steps H.
  apply N.ltb_ge in Hv, Hv0. inversion H; subst. done.
Qed.

End CurrencyFacts.

(** ** Registry look-ups *)

Lemma reverts_of_not_Ok {A : Type} (r : result A) :
  (forall a, r <> Ok a) -> reverts r.
Proof. destruct r as [a|err]; [intros H; destruct (H a eq_refl) | by exists err]. Qed.

Lemma getDatasetInfo_exists (dc : DataCoin.State) (tokenId : uint256) :
  DataCoin._ownerOf dc tokenId <> 0 ->
  DataCoin.getDatasetInfo dc tokenId = Ok (DataCoin.dataset_at dc tokenId).
Proof.
  intros Hex. apply N.eqb_neq in Hex.
  unfold DataCoin.getDatasetInfo, DataCoin.requireExists, DataCoin.ownerOf.
  rewrite Hex. simpl. rewrite Hex. reflexivity.
Qed.

Lemma getDatasetInfo_absent (dc : DataCoin.State) (tokenId : uint256) :
  DataCoin._ownerOf dc tokenId = 0 ->
  DataCoin.getDatasetInfo dc tokenId = Err (ERC721NonexistentToken tokenId).
Proof.
  intros Hex.
  unfold DataCoin.getDatasetInfo, DataCoin.requireExists, DataCoin.ownerOf.
  rewrite Hex. reflexivity.
Qed.

Lemma getDatasetInfo_Ok (dc : DataCoin.State) (tokenId : uint256)
    (d : DataCoin.DatasetInfo) :
  DataCoin.getDatasetInfo dc tokenId = Ok d ->
  DataCoin._ownerOf dc tokenId <> 0 /\ d = DataCoin.dataset_at dc tokenId.
Proof.
  intros H. destruct (N.eq_dec (DataCoin._ownerOf dc tokenId) 0) as [Hz|Hnz].
  - rewrite getDatasetInfo_absent in H by exact Hz. discriminate.
  - rewrite getDatasetInfo_exists in H by exact Hnz. by injection H as <-.
Qed.

(** ** What each successful registry call did *)

Section RegistrySteps.
Import DataCoin.

Lemma onlyOwner_Ok (e : Env) (s : State) (u : unit) :
  onlyOwner e s = Ok u -> owner s = msg_sender e.
Proof.
  unfold onlyOwner. intros H. apply revert_if_Ok in H.
  apply negb_false_iff in H. by apply N.eqb_eq in H.
Qed.

Lemma requireExists_Ok (s : State) (tokenId : uint256) (u : unit) :
  requireExists s tokenId = Ok u -> _ownerOf s tokenId <> 0.
Proof.
  unfold requireExists, ownerOf. intros H.
  destruct (_ownerOf s tokenId =? 0) eqn:Hz; [discriminate|].
  by apply N.eqb_neq in Hz.
Qed.

Lemma _safeMint_Ok (s s' : State) (to : address) (tokenId : uint256)
    (accepts : bool) :
  _safeMint s to tokenId accepts = Ok s' ->
  to <> 0 /\ _ownerOf s tokenId = 0 /\ accepts = true /\
  s' = {| owner := owner s; _tokenIds := _tokenIds s; datasets := datasets s;
          cidToTokenId := cidToTokenId s;
          _owners := <[tokenId := to]> (_owners s) |}.
Proof.
  unfold _safeMint. intros H. ok_steps H. inversion H; subst; clear H.
  norm_checks. split_and!; done.
Qed.

Lemma mintDataset_Ok (e : Env) (s s' : State) (to : address)
    (c n d : string) (p : uint256) (pol : string) (maxSupply : uint256)
    (accepts : bool) (newTokenId : uint256) (evs : list Event) :
  mintDataset e s to c n d p pol maxSupply accepts = Ok (newTokenId, s', evs) ->
  owner s = msg_sender e /\
  c <> EmptyString /\ n <> EmptyString /\ 0 < p /\ cidToTokenId_at s c = 0 /\
  newTokenId = _tokenIds s + 1 /\ newTokenId <= MAX_UINT256 /\
  to <> 0 /\ _ownerOf s newTokenId = 0 /\
  s' = {| owner := owner s; _tokenIds := newTokenId;
          datasets :=
            <[newTokenId :=
                {| cid := c; name := n; description := d; price := p;
                   creator := to; isActive := true;
                   createdAt := block_timestamp e; accessPolicy := pol;
                   totalSupply := maxSupply; soldSupply := 0 |}]> (datasets s);
          cidToTokenId := <[c := newTokenId]> (cidToTokenId s);
          _owners := <[newTokenId := to]> (_owners s) |}.
Proof.
  unfold mintDataset. intros H. ok_steps H.
  inversion H; subst; clear H.
  match goal with Hx : onlyOwner _ _ = Ok _ |- _ => apply onlyOwner_Ok in Hx end.
  match goal with Hx : _safeMint _ _ _ _ = Ok _ |- _ =>
    apply _safeMint_Ok in Hx as (Hto & Hfresh & _ & ->) end.
  simpl in Hfresh.
  norm_checks.
  split_and!; try done.
  - intros ->. simpl in *. congruence.
  - intros ->. simpl in *. congruence.
Qed.

Lemma updateDataset_Ok (e : Env) (s s' : State) (tokenId newPrice : uint256)
    (pol : string) (evs : list Event) :
  updateDataset e s tokenId newPrice pol = Ok (s', evs) ->
  _ownerOf s tokenId <> 0 /\
  creator (dataset_at s tokenId) = msg_sender e /\ 0 < newPrice /\
  s' = set_datasets s
         (<[tokenId :=
              {| cid := cid (dataset_at s tokenId);
                 name := name (dataset_at s tokenId);
                 description := description (dataset_at s tokenId);
                 price := newPrice;
                 creator := creator (dataset_at s tokenId);
                 isActive := isActive (dataset_at s tokenId);
                 createdAt := createdAt (dataset_at s tokenId);
                 accessPolicy := pol;
                 totalSupply := totalSupply (dataset_at s tokenId);
                 soldSupply := soldSupply (dataset_at s tokenId) |}]>
            (datasets s)).
Proof.
  unfold updateDataset. intros H. ok_steps H. inversion H; subst; clear H.
  match goal with Hx : requireExists _ _ = Ok _ |- _ =>
    apply requireExists_Ok in Hx end.
  norm_checks.
  split_and!; done.
Qed.

Lemma grantAccess_Ok (e : Env) (s s' : State) (tokenId : uint256)
    (b : address) (amount : uint256) (evs : list Event) :
  grantAccess e s tokenId b amount = Ok (s', evs) ->
  owner s = msg_sender e /\ _ownerOf s tokenId <> 0 /\
  isActive (dataset_at s tokenId) = true /\
  soldSupply (dataset_at s tokenId) + amount <= MAX_UINT256 /\
  s' = set_datasets s
         (<[tokenId :=
              {| cid := cid (dataset_at s tokenId);
                 name := name (dataset_at s tokenId);
                 description := description (dataset_at s tokenId);
                 price := price (dataset_at s tokenId);
                 creator := creator (dataset_at s tokenId);
                 isActive := isActive (dataset_at s tokenId);
                 createdAt := createdAt (dataset_at s tokenId);
                 accessPolicy := accessPolicy (dataset_at s tokenId);
                 totalSupply := totalSupply (dataset_at s tokenId);
                 soldSupply := soldSupply (dataset_at s tokenId) + amount |}]>
            (datasets s)) /\
  evs = [AccessGranted tokenId b amount (block_timestamp e)].
Proof.
  unfold grantAccess. intros H. ok_steps H. inversion H; subst; clear H.
  match goal with Hx : onlyOwner _ _ = Ok _ |- _ => apply onlyOwner_Ok in Hx end.
  match goal with Hx : requireExists _ _ = Ok _ |- _ =>
    apply requireExists_Ok in Hx end.
  norm_checks.
  split_and!; done.
Qed.

Lemma deactivateDataset_Ok (e : Env) (s s' : State) (tokenId : uint256) :
  deactivateDataset e s tokenId = Ok s' ->
  _ownerOf s tokenId <> 0 /\
  creator (dataset_at s tokenId) = msg_sender e /\
  s' = set_datasets s
         (<[tokenId :=
              {| cid := cid (dataset_at s tokenId);
                 name := name (dataset_at s tokenId);
                 description := description (dataset_at s tokenId);
                 price := price (dataset_at s tokenId);
                 creator := creator (dataset_at s tokenId);
                 isActive := false;
                 createdAt := createdAt (dataset_at s tokenId);
                 accessPolicy := accessPolicy (dataset_at s tokenId);
                 totalSupply := totalSupply (dataset_at s tokenId);
                 soldSupply := soldSupply (dataset_at s tokenId) |}]>
            (datasets s)).
Proof.
  unfold deactivateDataset. intros H. ok_steps H. inversion H; subst; clear H.
  match goal with Hx : requireExists _ _ = Ok _ |- _ =>
    apply requireExists_Ok in Hx end.
  norm_checks.
  split_and!; done.
Qed.

Lemma transferOwnership_Ok (e : Env) (s s' : State) (newOwner : address) :
  transferOwnership e s newOwner = Ok s' ->
  owner s = msg_sender e /\ newOwner <> 0 /\
  s' = {| owner := newOwner; _tokenIds := _tokenIds s; datasets := datasets s;
          cidToTokenId := cidToTokenId s; _owners := _owners s |}.
Proof.
  unfold transferOwnership. intros H. ok_steps H. inversion H; subst; clear H.
  match goal with Hx : onlyOwner _ _ = Ok _ |- _ => apply onlyOwner_Ok in Hx end.
  norm_checks. split_and!; done.
Qed.

Lemma renounceOwnership_Ok (e : Env) (s s' : State) :
  renounceOwnership e s = Ok s' ->
  owner s = msg_sender e /\
  s' = {| owner := 0; _tokenIds := _tokenIds s; datasets := datasets s;
          cidToTokenId := cidToTokenId s; _owners := _owners s |}.
Proof.
  unfold renounceOwnership. intros H. ok_steps H. inversion H; subst; clear H.
  match goal with Hx : onlyOwner _ _ = Ok _ |- _ => apply onlyOwner_Ok in Hx end.
  split_and!; done.
Qed.

End RegistrySteps.

(** ** What each successful marketplace call did *)

Section MarketplaceSteps.
Import DataMarketplace.

(** What a successful [executePurchase] computed and did, step by step. *)
Lemma executePurchase_Ok (e : Env) (usdc usdc' : Currency.State)
    (dc dc' : DataCoin.State) (s s' : State) (tokenId amount : uint256)
    (tok : string) (evs : list Event) :
  executePurchase e usdc dc s tokenId amount tok = Ok (usdc', dc', s', evs) ->
  exists dataset usdc1 granted,
    let totalCost := DataCoin.price dataset * amount in
    let platformFee := totalCost * platformFeeBps s / 10000 in
    let creatorRevenue := totalCost - platformFee in
    let purchaseId := (tokenId, msg_sender e, amount, block_timestamp e,
                       block_number e) in
    paused s = false /\
    DataCoin.getDatasetInfo dc tokenId = Ok dataset /\
    DataCoin.isActive dataset = true /\
    totalCost <= MAX_UINT256 /\ totalCost <> 0 /\
    totalCost <= Currency.balanceOf usdc (msg_sender e) /\
    totalCost * platformFeeBps s <= MAX_UINT256 /\
    platformFee <= totalCost /\
    Currency.transferFrom usdc (self s) (msg_sender e) (self s) totalCost
      = Ok usdc1 /\
    Currency.transfer usdc1 (self s) (DataCoin.creator dataset) creatorRevenue
      = Ok usdc' /\
    tokenSales_at s tokenId + amount <= MAX_UINT256 /\
    DataCoin.grantAccess (with_sender (self s) e) dc tokenId (msg_sender e)
      amount = Ok (dc', granted) /\
    block_timestamp e + 86400 <= MAX_UINT256 /\
    s' = {| self := self s; owner := owner s; paused := paused s;
            platformFeeBps := platformFeeBps s;
            purchases :=
              <[purchaseId :=
                  {| tokenId := tokenId; buyer := msg_sender e;
                     amount := amount; price := DataCoin.price dataset;
                     timestamp := block_timestamp e; isActive := true;
                     accessToken := tok |}]> (purchases s);
            buyerPurchases :=
              <[msg_sender e :=
                  buyerPurchases_at s (msg_sender e) ++ [purchaseId]]>
                (buyerPurchases s);
            tokenSales :=
              <[tokenId := tokenSales_at s tokenId + amount]> (tokenSales s) |} /\
    evs = granted ++
          [PurchaseExecuted purchaseId tokenId (msg_sender e) amount
             (DataCoin.price dataset) platformFee creatorRevenue;
           AccessTokenGenerated purchaseId tok (block_timestamp e + 86400)].
Proof.
  unfold executePurchase, whenNotPaused. intros H. ok_steps H.
  match type of H with
  | context [match ?p with _ => _ end] => destruct p as [dcg granted]
  end.
  ok_steps H. inversion H; subst; clear H.
  repeat match goal with
         | Hx : negb _ = false |- _ => apply negb_false_iff in Hx
         | Hx : (_ =? _) = false |- _ => apply N.eqb_neq in Hx
         | Hx : (_ <? _) = false |- _ => apply N.ltb_ge in Hx
         end.
  do 3 eexists. cbv zeta. repeat split; eauto.
Qed.



Lemma updatePlatformFee_Ok (e : Env) (s s' : State) (newFeeBps : uint256)
    (evs : list Event) :
  updatePlatformFee e s newFeeBps = Ok (s', evs) ->
  newFeeBps <= MAX_PLATFORM_FEE_BPS /\
  platformFeeBps s' = newFeeBps /\ purchases s' = purchases s.
Proof.
  unfold updatePlatformFee. intros H. ok_steps H. inversion H; subst; clear H.
  norm_checks. split_and!; done.
Qed.

Lemma marketplace_pause_Ok (e : Env) (s s' : State) :
  pause e s = Ok s' -> s' = set_paused s true.
Proof. unfold pause. intros H. ok_steps H. by inversion H. Qed.

Lemma marketplace_unpause_Ok (e : Env) (s s' : State) :
  unpause e s = Ok s' -> s' = set_paused s false.
Proof. unfold unpause. intros H. ok_steps H. by inversion H. Qed.

Lemma marketplace_transferOwnership_Ok (e : Env) (s s' : State)
    (newOwner : address) :
  transferOwnership e s newOwner = Ok s' -> s' = set_owner s newOwner.
Proof. unfold transferOwnership. intros H. ok_steps H. by inversion H. Qed.

Lemma marketplace_renounceOwnership_Ok (e : Env) (s s' : State) :
  renounceOwnership e s = Ok s' -> s' = set_owner s 0.
Proof. unfold renounceOwnership. intros H. ok_steps H. by inversion H. Qed.

End MarketplaceSteps.

(** ** What each successful bridge call did *)

Section BridgeSteps.
Import CrossChainBridge.

Lemma bridge_onlyOwner_Ok (e : Env) (s : State) (u : unit) :
  onlyOwner e s = Ok u -> owner s = msg_sender e.
Proof.
  unfold onlyOwner. intros H. apply revert_if_Ok in H.
  apply negb_false_iff in H. by apply N.eqb_eq in H.
Qed.

Lemma bridge_onlyOwner_Err (e : Env) (s : State) :
  owner s <> msg_sender e ->
  onlyOwner e s = Err (OwnableUnauthorizedAccount (msg_sender e)).
Proof.
  intros Hne. unfold onlyOwner. apply N.eqb_neq in Hne. by rewrite Hne.
Qed.

Lemma bridge_onlyOwner_pass (e : Env) (s : State) :
  owner s = msg_sender e -> onlyOwner e s = Ok tt.
Proof. intros Heq. unfold onlyOwner. by rewrite Heq, N.eqb_refl. Qed.



Lemma createIntent_Ok (e : Env) (dc : DataCoin.State) (s s' : State)
    (tokenId amount src dst : uint256) (id : IntentId) (evs : list Event) :
  createIntent e dc s tokenId amount src dst = Ok (id, s', evs) ->
  paused s = false /\
  supportedChains_at s src = true /\ supportedChains_at s dst = true /\
  0 < amount /\
  DataCoin._ownerOf dc tokenId <> 0 /\
  DataCoin.isActive (DataCoin.dataset_at dc tokenId) = true /\
  id = (msg_sender e, tokenId, amount, src, dst, block_timestamp e,
        block_number e) /\
  s' = {| self := self s; owner := owner s; paused := paused s;
          supportedChains := supportedChains s;
          intents :=
            <[id := {| intentId := Some id; buyer := msg_sender e;
                       tokenId := tokenId; amount := amount;
                       sourceChainId := src; destinationChainId := dst;
                       usdcAmount :=
                         DataCoin.price (DataCoin.dataset_at dc tokenId) * amount;
                       isExecuted := false; isSettled := false;
                       createdAt := block_timestamp e; executedAt := 0;
                       accessToken := EmptyString |}]> (intents s);
          buyerIntents :=
            <[msg_sender e := buyerIntents_at s (msg_sender e) ++ [id]]>
              (buyerIntents s);
          verifiedProofs := verifiedProofs s |}.
Proof.
  unfold createIntent, whenNotPaused. intros H. ok_steps H.
  match goal with
  | Hg : DataCoin.getDatasetInfo _ _ = Ok _ |- _ =>
      apply getDatasetInfo_Ok in Hg as [Hex ->]
  end.
  inversion H; subst; clear H.
  repeat match goal with
         | Hx : (_ <? _) = true |- _ => apply N.ltb_lt in Hx
         end.
  repeat split; auto.
Qed.

Lemma executeIntent_Ok (e : Env) (usdc usdc' : Currency.State)
    (dc dc' : DataCoin.State) (mp mp' : DataMarketplace.State) (s s' : State)
    (id : IntentId) (proofHash : bytes32) (tok : string) (evs : list Event) :
  executeIntent e usdc dc mp s id proofHash tok = Ok (usdc', dc', mp', s', evs) ->
  owner s = msg_sender e /\
  buyer (intent_at s id) <> 0 /\
  isExecuted (intent_at s id) = false /\
  verifiedProofs_at s proofHash = true /\
  (exists purchaseEvents,
     DataMarketplace.executePurchase (with_sender (self s) e) usdc dc mp
       (tokenId (intent_at s id)) (amount (intent_at s id)) tok
       = Ok (usdc', dc', mp', purchaseEvents)) /\
  s' = set_intents s (<[id := executed_intent e (intent_at s id) tok]> (intents s)).
Proof.
  unfold executeIntent. intros H. ok_steps H.
  match type of H with
  | context [match ?p with _ => _ end] => destruct p as [[[u1 d1] m1] pevs]
  end.
  inversion H; subst; clear H.
  match goal with Hx : onlyOwner _ _ = Ok _ |- _ =>
    apply bridge_onlyOwner_Ok in Hx end.
  norm_checks. split_and!; try done. eauto.
Qed.

Lemma settleIntent_Ok (e : Env) (s s' : State) (id : IntentId)
    (proofHash : bytes32) (evs : list Event) :
  settleIntent e s id proofHash = Ok (s', evs) ->
  owner s = msg_sender e /\
  buyer (intent_at s id) <> 0 /\
  isExecuted (intent_at s id) = true /\
  isSettled (intent_at s id) = false /\
  verifiedProofs_at s proofHash = true /\
  s' = set_intents s (<[id := settled_intent (intent_at s id)]> (intents s)).
Proof.
  unfold settleIntent. intros H. ok_steps H. inversion H; subst; clear H.
  match goal with Hx : onlyOwner _ _ = Ok _ |- _ =>
    apply bridge_onlyOwner_Ok in Hx end.
  norm_checks. split_and!; done.
Qed.

Lemma verifyProof_Ok (e : Env) (s s' : State) (proofHash : bytes32)
    (isValid : bool) (evs : list Event) :
  verifyProof e s proofHash isValid = Ok (s', evs) ->
  owner s = msg_sender e /\
  intents s' = intents s /\
  verifiedProofs s' = <[proofHash := isValid]> (verifiedProofs s).
Proof.
  unfold verifyProof. intros H. ok_steps H. inversion H; subst; clear H.
  match goal with Hx : onlyOwner _ _ = Ok _ |- _ =>
    apply bridge_onlyOwner_Ok in Hx end.
  split_and!; done.
Qed.

Lemma updateChainSupport_Ok (e : Env) (s s' : State) (chainId : uint256)
    (supported : bool) (evs : list Event) :
  updateChainSupport e s chainId supported = Ok (s', evs) ->
  intents s' = intents s /\ verifiedProofs s' = verifiedProofs s.
Proof.
  unfold updateChainSupport. intros H. ok_steps H. by inversion H.
Qed.

Lemma bridge_pause_Ok (e : Env) (s s' : State) :
  pause e s = Ok s' -> s' = set_paused s true.
Proof. unfold pause. intros H. ok_steps H. by inversion H. Qed.

Lemma bridge_unpause_Ok (e : Env) (s s' : State) :
  unpause e s = Ok s' -> s' = set_paused s false.
Proof. unfold unpause. intros H. ok_steps H. by inversion H. Qed.

Lemma bridge_transferOwnership_Ok (e : Env) (s s' : State) (newOwner : address) :
  transferOwnership e s newOwner = Ok s' -> s' = set_owner s newOwner.
Proof. unfold transferOwnership. intros H. ok_steps H. by inversion H. Qed.

Lemma bridge_renounceOwnership_Ok (e : Env) (s s' : State) :
  renounceOwnership e s = Ok s' -> s' = set_owner s 0.
Proof. unfold renounceOwnership. intros H. ok_steps H. by inversion H. Qed.

End BridgeSteps.

(** ** Every transaction is one step of each contract *)

Ltac destruct_lets H :=
  repeat match type of H with
         | context [match ?p with _ => _ end] => destruct p
         end.

Ltac exec_inv H :=
  unfold exec in H; ok_steps H; destruct_lets H;
  inversion H; subst; clear H; cbn [usdc dataCoin marketplace bridge
    with_usdc with_dataCoin with_marketplace with_bridge].

Lemma executePurchase_grant (e : Env) (usdc usdc' : Currency.State)
    (dc dc' : DataCoin.State) (s s' : DataMarketplace.State)
    (tokenId amount : uint256) (tok : string) (evs : list Event) :
  DataMarketplace.executePurchase e usdc dc s tokenId amount tok
    = Ok (usdc', dc', s', evs) ->
  exists granted,
    DataCoin.grantAccess (with_sender (DataMarketplace.self s) e) dc tokenId
      (msg_sender e) amount = Ok (dc', granted).
Proof.
  intros H. apply executePurchase_Ok in H. cbv zeta in H.
  destruct H as (dataset & usdc1 & granted & H).
  destruct H as (_ & _ & _ & _ & _ & _ & _ & _ & _ & _ & _ & Hgrant & _).
  by exists granted.
Qed.

Lemma executeIntent_purchase (e : Env) (usdc usdc' : Currency.State)
    (dc dc' : DataCoin.State) (mp mp' : DataMarketplace.State)
    (s s' : CrossChainBridge.State) (id : IntentId) (proofHash : bytes32)
    (tok : string) (evs : list Event) :
  CrossChainBridge.executeIntent e usdc dc mp s id proofHash tok
    = Ok (usdc', dc', mp', s', evs) ->
  exists purchaseEvents,
    DataMarketplace.executePurchase (with_sender (CrossChainBridge.self s) e)
      usdc dc mp (CrossChainBridge.tokenId (CrossChainBridge.intent_at s id))
      (CrossChainBridge.amount (CrossChainBridge.intent_at s id)) tok
      = Ok (usdc', dc', mp', purchaseEvents).
Proof.
  intros H. by apply executeIntent_Ok in H as (_ & _ & _ & _ & Hp & _).
Qed.

Lemma exec_registry_step (e : Env) (c : Call) (w w' : World) (evs : list Event) :
  exec e c w = Ok (w', evs) -> registry_step (dataCoin w) (dataCoin w').
Proof.
  intros H. destruct c; exec_inv H; try apply rs_same.
  - eapply rs_mint; eauto.
  - eapply rs_update; eauto.
  - eapply rs_grant; eauto.
  - eapply rs_deactivate; eauto.
  - eapply rs_transferOwnership; eauto.
  - eapply rs_renounceOwnership; eauto.
  - match goal with
    | Hx : DataMarketplace.executePurchase _ _ _ _ _ _ _ = Ok _ |- _ =>
        apply executePurchase_grant in Hx as [granted Hx]
    end.
    eapply rs_grant; eauto.
  - match goal with
    | Hx : CrossChainBridge.executeIntent _ _ _ _ _ _ _ _ = Ok _ |- _ =>
        apply executeIntent_purchase in Hx as [pevs Hx];
        apply executePurchase_grant in Hx as [granted Hx]
    end.
    eapply rs_grant; eauto.
Qed.

Lemma exec_marketplace_step (e : Env) (c : Call) (w w' : World)
    (evs : list Event) :
  exec e c w = Ok (w', evs) -> marketplace_step (marketplace w) (marketplace w').
Proof.
  intros H. destruct c; exec_inv H; try apply ms_same.
  - eapply ms_purchase; eauto.
  - eapply ms_fee; eauto.
  - match goal with Hx : DataMarketplace.pause _ _ = Ok _ |- _ =>
      apply marketplace_pause_Ok in Hx as -> end. apply ms_paused.
  - match goal with Hx : DataMarketplace.unpause _ _ = Ok _ |- _ =>
      apply marketplace_unpause_Ok in Hx as -> end. apply ms_paused.
  - match goal with Hx : DataMarketplace.transferOwnership _ _ _ = Ok _ |- _ =>
      apply marketplace_transferOwnership_Ok in Hx as -> end. apply ms_owner.
  - match goal with Hx : DataMarketplace.renounceOwnership _ _ = Ok _ |- _ =>
      apply marketplace_renounceOwnership_Ok in Hx as -> end. apply ms_owner.
  - match goal with
    | Hx : CrossChainBridge.executeIntent _ _ _ _ _ _ _ _ = Ok _ |- _ =>
        apply executeIntent_purchase in Hx as [pevs Hx]
    end.
    eapply ms_purchase; eauto.
Qed.

Lemma exec_bridge_step (e : Env) (c : Call) (w w' : World) (evs : list Event) :
  exec e c w = Ok (w', evs) -> bridge_step (bridge w) (bridge w').
Proof.
  intros H. destruct c; exec_inv H; try apply bs_same.
  - eapply bs_create; eauto.
  - eapply bs_execute; eauto.
  - eapply bs_settle; eauto.
  - eapply bs_verifyProof; eauto.
  - eapply bs_chain; eauto.
  - match goal with Hx : CrossChainBridge.pause _ _ = Ok _ |- _ =>
      apply bridge_pause_Ok in Hx as -> end. apply bs_paused.
  - match goal with Hx : CrossChainBridge.unpause _ _ = Ok _ |- _ =>
      apply bridge_unpause_Ok in Hx as -> end. apply bs_paused.
  - match goal with Hx : CrossChainBridge.transferOwnership _ _ _ = Ok _ |- _ =>
      apply bridge_transferOwnership_Ok in Hx as -> end. apply bs_owner.
  - match goal with Hx : CrossChainBridge.renounceOwnership _ _ = Ok _ |- _ =>
      apply bridge_renounceOwnership_Ok in Hx as -> end. apply bs_owner.
Qed.

Lemma apply_call_cases (w : World) (tx : Env * Call) :
  apply_call w tx = w \/
  exists evs, exec (fst tx) (snd tx) w = Ok (apply_call w tx, evs).
Proof.
  unfold apply_call. destruct (exec (fst tx) (snd tx) w) as [[w' evs]|err].
  - right. by exists evs.
  - by left.
Qed.

Lemma apply_call_registry_step (w : World) (tx : Env * Call) :
  registry_step (dataCoin w) (dataCoin (apply_call w tx)).
Proof.
  destruct (apply_call_cases w tx) as [->|[evs H]]; [apply rs_same|].
  by apply exec_registry_step in H.
Qed.

Lemma apply_call_marketplace_step (w : World) (tx : Env * Call) :
  marketplace_step (marketplace w) (marketplace (apply_call w tx)).
Proof.
  destruct (apply_call_cases w tx) as [->|[evs H]]; [apply ms_same|].
  by apply exec_marketplace_step in H.
Qed.

Lemma apply_call_bridge_step (w : World) (tx : Env * Call) :
  bridge_step (bridge w) (bridge (apply_call w tx)).
Proof.
  destruct (apply_call_cases w tx) as [->|[evs H]]; [apply bs_same|].
  by apply exec_bridge_step in H.
Qed.

(** A property kept by every transaction holds after any sequence of them. *)
Lemma run_invariant (P : World -> Prop) :
  (forall w tx, P w -> P (apply_call w tx)) ->
  forall txs w, P w -> P (run w txs).
Proof.
  intros Hstep txs. induction txs as [|tx txs IH]; intros w HP; [exact HP|].
  simpl. apply IH, Hstep, HP.
Qed.

(** ** The bridge's allowance on the payment token *)

Lemma transfer_allowances (t t' : Currency.State) (caller to : address)
    (a : uint256) :
  Currency.transfer t caller to a = Ok t' ->
  Currency.allowances t' = Currency.allowances t.
Proof. intros H. by apply transfer_Ok in H as [_ ->]. Qed.

Lemma transferFrom_allowances (t t' : Currency.State)
    (caller from to : address) (a : uint256) :
  Currency.transferFrom t caller from to a = Ok t' ->
  a <= Currency.allowance t from caller /\
  Currency.allowances t'
    = <[(from, caller) := Currency.allowance t from caller - a]>
        (Currency.allowances t).
Proof.
  intros H. pose proof (transferFrom_Ok _ _ _ _ _ _ H) as (Hle & _).
  unfold Currency.transferFrom in H. ok_steps H. injection H as <-.
  split; [exact Hle | reflexivity].
Qed.

(** The allowances after a sale: only the buyer's allowance to the
    marketplace is spent. *)
Lemma executePurchase_allowances (e : Env) (t t' : Currency.State)
    (dc dc' : DataCoin.State) (s s' : DataMarketplace.State)
    (tokenId amount : uint256) (tok : string) (evs : list Event) :
  DataMarketplace.executePurchase e t dc s tokenId amount tok
    = Ok (t', dc', s', evs) ->
  0 < Currency.allowance t (msg_sender e) (DataMarketplace.self s) /\
  forall holder spender, holder <> msg_sender e ->
    Currency.allowance t' holder spender = Currency.allowance t holder spender.
Proof.
  intros H. apply executePurchase_Ok in H. cbv zeta in H.
  destruct H as (dataset & usdc1 & granted & _ & _ & _ & _ & Hnz & _ & _ & _ &
                 Hfrom & Hto & _).
  apply transferFrom_allowances in Hfrom as [Hle Hfrom].
  apply transfer_allowances in Hto.
  split; [lia|].
  intros holder spender Hne. unfold Currency.allowance.
  rewrite Hto, Hfrom. rewrite lookup_insert_ne by congruence. done.
Qed.

Lemma emergencyRecover_allowances (e : Env) (t t' : Currency.State)
    (s : DataMarketplace.State) (to : address) (a : uint256) :
  DataMarketplace.emergencyRecover e t s to a = Ok t' ->
  Currency.allowances t' = Currency.allowances t.
Proof.
  unfold DataMarketplace.emergencyRecover. intros H.
  apply bind_Ok in H as (u1 & _ & H). apply bind_Ok in H as (u2 & _ & H).
  by apply transfer_allowances in H.
Qed.

Lemma bridge_emergencyRecover_allowances (e : Env) (t t' : Currency.State)
    (s : CrossChainBridge.State) (to : address) (a : uint256) :
  CrossChainBridge.emergencyRecover e t s to a = Ok t' ->
  Currency.allowances t' = Currency.allowances t.
Proof.
  unfold CrossChainBridge.emergencyRecover. intros H.
  apply bind_Ok in H as (u1 & _ & H). apply bind_Ok in H as (u2 & _ & H).
  by apply transfer_allowances in H.
Qed.

Lemma exec_bridge_unapproved (e : Env) (c : Call) (w w' : World)
    (evs : list Event) :
  msg_sender e <> CrossChainBridge.self (bridge w) ->
  bridge_unapproved w -> none_executed (bridge w) ->
  exec e c w = Ok (w', evs) ->
  CrossChainBridge.self (bridge w') = CrossChainBridge.self (bridge w) /\
  bridge_unapproved w' /\ none_executed (bridge w').
Proof.
  intros Hsender Hun Hnone H. unfold bridge_unapproved.
  destruct c; exec_inv H; try done.
  - match goal with
    | Hx : DataMarketplace.executePurchase _ _ _ _ _ _ _ = Ok _ |- _ =>
        apply executePurchase_allowances in Hx as [_ Hkeep]
    end.
    split_and!; try done. intros spender. rewrite Hkeep by congruence.
    apply Hun.
  - match goal with
    | Hx : DataMarketplace.withdrawFees _ _ _ _ _ = Ok _ |- _ =>
        unfold DataMarketplace.withdrawFees in Hx; ok_steps Hx;
        injection Hx as <- _
    end.
    match goal with
    | Hx : Currency.transfer _ _ _ _ = Ok _ |- _ =>
        apply transfer_allowances in Hx
    end.
    split_and!; try done. intros spender. unfold Currency.allowance.
    match goal with Hx : Currency.allowances _ = _ |- _ => rewrite Hx end.
    apply Hun.
  - match goal with
    | Hx : DataMarketplace.emergencyRecover _ _ _ _ _ = Ok _ |- _ =>
        apply emergencyRecover_allowances in Hx
    end.
    split_and!; try done. intros spender. unfold Currency.allowance.
    match goal with Hx : Currency.allowances _ = _ |- _ => rewrite Hx end.
    apply Hun.
  - match goal with
    | Hx : CrossChainBridge.createIntent _ _ _ _ _ _ _ = Ok _ |- _ =>
        apply createIntent_Ok in Hx as (_ & _ & _ & _ & _ & _ & -> & ->)
    end.
    split_and!; try done. intros id.
    unfold CrossChainBridge.getIntentStatus, CrossChainBridge.intent_at. simpl.
    rewrite lookup_insert. case_decide; [done|]. apply Hnone.
  - match goal with
    | Hx : CrossChainBridge.executeIntent _ _ _ _ _ _ _ _ = Ok _ |- _ =>
        apply executeIntent_purchase in Hx as [pevs Hx];
        apply executePurchase_allowances in Hx as [Hpos _]
    end.
    simpl in Hpos. rewrite Hun in Hpos. lia.
  - match goal with
    | Hx : CrossChainBridge.settleIntent _ _ _ _ = Ok _ |- _ =>
        apply settleIntent_Ok in Hx as (_ & _ & Hdone & _)
    end.
    match type of Hdone with
    | CrossChainBridge.isExecuted (CrossChainBridge.intent_at _ ?id) = true =>
        specialize (Hnone id)
    end.
    unfold CrossChainBridge.getIntentStatus in Hnone. congruence.
  - match goal with
    | Hx : CrossChainBridge.verifyProof _ _ _ _ = Ok _ |- _ =>
        unfold CrossChainBridge.verifyProof in Hx; ok_steps Hx;
        injection Hx as <- _
    end.
    done.
  - match goal with
    | Hx : CrossChainBridge.updateChainSupport _ _ _ _ = Ok _ |- _ =>
        unfold CrossChainBridge.updateChainSupport in Hx; ok_steps Hx;
        injection Hx as <- _
    end.
    done.
  - match goal with Hx : CrossChainBridge.pause _ _ = Ok _ |- _ =>
      apply bridge_pause_Ok in Hx as -> end.
    done.
  - match goal with Hx : CrossChainBridge.unpause _ _ = Ok _ |- _ =>
      apply bridge_unpause_Ok in Hx as -> end.
    done.
  - match goal with
    | Hx : CrossChainBridge.emergencyRecover _ _ _ _ _ = Ok _ |- _ =>
        apply bridge_emergencyRecover_allowances in Hx
    end.
    split_and!; try done. intros spender. unfold Currency.allowance.
    match goal with Hx : Currency.allowances _ = _ |- _ => rewrite Hx end.
    apply Hun.
  - match goal with Hx : CrossChainBridge.transferOwnership _ _ _ = Ok _ |- _ =>
      apply bridge_transferOwnership_Ok in Hx as -> end.
    done.
  - match goal with Hx : CrossChainBridge.renounceOwnership _ _ = Ok _ |- _ =>
      apply bridge_renounceOwnership_Ok in Hx as -> end.
    done.
  - match goal with
    | Hx : Currency.transfer _ _ _ _ = Ok _ |- _ =>
        apply transfer_allowances in Hx
    end.
    split_and!; try done. intros spender. unfold Currency.allowance.
    match goal with Hx : Currency.allowances _ = _ |- _ => rewrite Hx end.
    apply Hun.
  - split_and!; try done. intros sp. unfold Currency.allowance. simpl.
    rewrite lookup_insert_ne by congruence. apply Hun.
Qed.


(** ** C1: the fee split of a purchase *)

Section FeeSplitTheorem.
Import DataMarketplace.

Lemma fee_at_most_tenth (totalCost feeBps : uint256) :
  feeBps <= MAX_PLATFORM_FEE_BPS -> 10 * (totalCost * feeBps / 10000) <= totalCost.
Proof.
  unfold MAX_PLATFORM_FEE_BPS. intros Hfee.
  pose proof (N.Div0.mul_div_le (totalCost * feeBps) 10000) as Hq.
  assert (totalCost * feeBps <= totalCost * 1000) as Hm
    by (apply N.mul_le_mono_l; exact Hfee).
  lia.
Qed.

(** The three balances touched by a purchase between distinct parties. *)
Lemma executePurchase_balances (usdc usdc1 usdc' : Currency.State)
    (this buyer creator : address) (totalCost creatorRevenue : uint256) :
  Currency.transferFrom usdc this buyer this totalCost = Ok usdc1 ->
  Currency.transfer usdc1 this creator creatorRevenue = Ok usdc' ->
  creatorRevenue <= totalCost ->
  buyer <> this -> creator <> this -> buyer <> creator ->
  Currency.balanceOf usdc' buyer = Currency.balanceOf usdc buyer - totalCost /\
  Currency.balanceOf usdc' creator
    = Currency.balanceOf usdc creator + creatorRevenue /\
  Currency.balanceOf usdc' this
    = Currency.balanceOf usdc this + (totalCost - creatorRevenue).
Proof.
  intros H1 H2 Hle Hbt Hct Hbc.
  apply transferFrom_Ok in H1 as (_ & _ & Hb1).
  apply transfer_Ok in H2 as (_ & ->).
  rewrite !balanceOf_move by congruence.
  rewrite !Hb1, !balanceOf_move by congruence.
  repeat case_decide; try congruence.
  repeat split; lia.
Qed.

(** C1. Every successful [executePurchase] of [amount] units of a dataset
    priced [p] charges [totalCost = p * amount], keeps
    [platformFee = floor(totalCost * platformFeeBps / 10000)] and forwards
    [creatorRevenue = totalCost - platformFee] to the creator, so that
    [platformFee + creatorRevenue = totalCost]; these are the amounts of
    the [PurchaseExecuted] event and of the currency movements. With a fee
    parameter of at most 1000 basis points the fee is at most a tenth of the
    cost. With the default 250 basis points, price 1_000_000 and amount 1,
    the creator receives 975_000, the marketplace retains 25_000 and a buyer
    holding 10_000_000 is left with 9_000_000. *)
Theorem executePurchase_fee_split (e : Env) (usdc usdc' : Currency.State)
    (dc dc' : DataCoin.State) (s s' : State) (tokenId amount : uint256)
    (tok : string) (evs : list Event) :
  executePurchase e usdc dc s tokenId amount tok = Ok (usdc', dc', s', evs) ->
  exists dataset,
    DataCoin.getDatasetInfo dc tokenId = Ok dataset /\
    let buyer := msg_sender e in
    let creator := DataCoin.creator dataset in
    let totalCost := DataCoin.price dataset * amount in
    let platformFee := totalCost * platformFeeBps s / 10000 in
    let creatorRevenue := totalCost - platformFee in
    platformFee + creatorRevenue = totalCost /\
    (platformFeeBps s <= 1000 -> 10 * platformFee <= totalCost) /\
    In (PurchaseExecuted
          (tokenId, buyer, amount, block_timestamp e, block_number e)
          tokenId buyer amount (DataCoin.price dataset) platformFee
          creatorRevenue) evs /\
    (buyer <> self s -> creator <> self s -> buyer <> creator ->
     Currency.balanceOf usdc' buyer = Currency.balanceOf usdc buyer - totalCost /\
     Currency.balanceOf usdc' creator
       = Currency.balanceOf usdc creator + creatorRevenue /\
     Currency.balanceOf usdc' (self s)
       = Currency.balanceOf usdc (self s) + platformFee) /\
    (platformFeeBps s = 250 -> DataCoin.price dataset = 1000000 ->
     amount = 1 ->
     platformFee = 25000 /\ creatorRevenue = 975000 /\
     (buyer <> self s -> creator <> self s -> buyer <> creator ->
      Currency.balanceOf usdc buyer = 10000000 ->
      Currency.balanceOf usdc' buyer = 9000000 /\
      Currency.balanceOf usdc' creator
        = Currency.balanceOf usdc creator + 975000 /\
      Currency.balanceOf usdc' (self s)
        = Currency.balanceOf usdc (self s) + 25000)).
Proof.
  intros H. apply executePurchase_Ok in H.
  destruct H as (dataset & usdc1 & granted & H). cbv zeta in H.
  destruct H as (_ & Hget & _ & _ & _ & _ & _ & Hfee & Hfrom & Hto & _ & _
                 & _ & _ & ->).
  exists dataset. split; [exact Hget|]. cbv zeta.
  set (totalCost := DataCoin.price dataset * amount) in *.
  set (platformFee := totalCost * platformFeeBps s / 10000) in *.
  assert (forall b c t : address, b <> t -> c <> t -> b <> c ->
          b = msg_sender e -> c = DataCoin.creator dataset -> t = self s ->
          Currency.balanceOf usdc' b = Currency.balanceOf usdc b - totalCost /\
          Currency.balanceOf usdc' c
            = Currency.balanceOf usdc c + (totalCost - platformFee) /\
          Currency.balanceOf usdc' t = Currency.balanceOf usdc t + platformFee)
    as Hbal.
  { intros b c t Hbt Hct Hbc -> -> ->.
    destruct (executePurchase_balances _ _ _ _ _ _ _ _ Hfrom Hto)
      as (Hb & Hc & Ht); try done; [lia|].
    repeat split; try done. rewrite Ht. f_equal. lia. }
  split; [lia|]. split; [apply fee_at_most_tenth|].
  split.
  { apply in_or_app. right. left. reflexivity. }
  split.
  { intros Hbt Hct Hbc. by apply Hbal. }
  intros Hbps Hprice ->.
  assert (totalCost = 1000000) as Htc by (unfold totalCost; lia).
  assert (platformFee = 25000) as Hpf
    by (unfold platformFee; rewrite Htc, Hbps; reflexivity).
  split; [exact Hpf|]. split; [rewrite Htc, Hpf; reflexivity|].
  intros Hbt Hct Hbc Hten.
  destruct (Hbal _ _ _ Hbt Hct Hbc eq_refl eq_refl eq_refl) as (Hb & Hc & Ht).
  rewrite Hb, Hc, Ht, Htc, Hpf, Hten. repeat split; reflexivity.
Qed.

(** The fee views at the default 250 basis points, with the values the
    repository's tests expect. *)
Example calculatePlatformFee_default :
  calculatePlatformFee (constructor 300 100) 1000000 = Ok 25000 /\
  calculateCreatorRevenue (constructor 300 100) 1000000 = Ok 975000.
Proof. split; reflexivity. Qed.

(** A purchase goes through only when the marketplace owns the registry:
    [grantAccess] is restricted to the registry's owner. *)
Lemma executePurchase_needs_registry_ownership (e : Env)
    (usdc usdc' : Currency.State) (dc dc' : DataCoin.State) (s s' : State)
    (tokenId amount : uint256) (tok : string) (evs : list Event) :
  executePurchase e usdc dc s tokenId amount tok = Ok (usdc', dc', s', evs) ->
  DataCoin.owner dc = self s.
Proof.
  intros H. apply executePurchase_grant in H as [granted H].
  by apply grantAccess_Ok in H as (Hown & _).
Qed.

(** The scenario of the tests run on the deployed system: dataset 1 priced
    1_000_000, buyer holding 10_000_000. *)
Lemma executePurchase_fee_split_witness :
  exists usdc' dc' s' evs,
    executePurchase (Scenario.at_block Scenario.buyer 2000 5)
      (usdc (Scenario.ready 0)) (dataCoin (Scenario.ready 0))
      (marketplace (Scenario.ready 0)) 1 1 "temp_access_token_123"
      = Ok (usdc', dc', s', evs) /\
    Currency.balanceOf usdc' Scenario.buyer = 9000000 /\
    Currency.balanceOf usdc' Scenario.deployer = 975000 /\
    Currency.balanceOf usdc' Scenario.marketplaceAddress = 25000.
Proof.
  destruct (executePurchase (Scenario.at_block Scenario.buyer 2000 5)
      (usdc (Scenario.ready 0)) (dataCoin (Scenario.ready 0))
      (marketplace (Scenario.ready 0)) 1 1 "temp_access_token_123")
    as [[[[usdc' dc'] s'] evs]|err] eqn:Hrun; [|vm_compute in Hrun; discriminate].
  exists usdc', dc', s', evs. split; [reflexivity|].
  destruct (executePurchase_fee_split _ _ _ _ _ _ _ _ _ _ _ Hrun)
    as (dataset & Hget & _ & _ & _ & _ & Hscenario).
  vm_compute in Hget. injection Hget as <-.
  destruct Hscenario as (_ & _ & Hbalances);
    [reflexivity | reflexivity | reflexivity |].
  destruct Hbalances as (Hb & Hc & Ht);
    [vm_compute; discriminate | vm_compute; discriminate
    | vm_compute; discriminate | reflexivity |].
  split; [exact Hb|]. split; [exact Hc | exact Ht].
Defined.

End FeeSplitTheorem.

(** ** C2: the life cycle of an intent *)

Section IntentLifecycle.
Import CrossChainBridge.


(** Apart from a [createIntent] that produces the same identifier again, no
    step of the bridge clears [isExecuted] or [isSettled]. *)
Lemma bridge_step_flags (s s' : State) (id : IntentId) :
  bridge_step s s' ->
  (isExecuted (intent_at s id) = true -> isExecuted (intent_at s' id) = true) /\
  (isSettled (intent_at s id) = true -> isSettled (intent_at s' id) = true) \/
  exists e dc tokenId amount src dst evs,
    createIntent e dc s tokenId amount src dst = Ok (id, s', evs).
Proof.
  intros Hstep.
  destruct Hstep as [ | e dc tokenId amount src dst id' s' evs H
    | e usdc dc mp id' p tok usdc' dc' mp' s' evs H | e id' p s' evs H
    | e p v s' evs H | e chainId supported s' evs H | b | o ].
  - by left.
  - destruct (decide (id' = id)) as [->|Hne]; [right; eauto 10|]. left.
    apply createIntent_Ok in H as (_ & _ & _ & _ & _ & _ & _ & ->).
    unfold intent_at. simpl. by rewrite lookup_insert_ne.
  - left. apply executeIntent_Ok in H as (_ & _ & _ & _ & _ & ->).
    unfold intent_at. simpl. rewrite lookup_insert. case_decide; subst; simpl; done.
  - left. apply settleIntent_Ok in H as (_ & _ & Hdone & _ & _ & ->).
    unfold intent_at in *. simpl. rewrite lookup_insert.
    case_decide; subst; simpl; done.
  - left. apply verifyProof_Ok in H as (_ & Hi & _).
    unfold intent_at. by rewrite Hi.
  - left. apply updateChainSupport_Ok in H as (Hi & _).
    unfold intent_at. by rewrite Hi.
  - by left.
  - by left.
Qed.




(** The exception in part (2) is needed. In a ledger where the bridge holds
    funds and an allowance (a state no sequence of transactions from
    deployment produces), the buyer creates an intent, the owner executes it
    (and, in the second run, settles it), and the buyer calls [createIntent]
    again with the same arguments in the same block: the identifier is the
    same, the stored intent is overwritten and [isExecuted] and [isSettled]
    are back to [false]; the intent is then executed a second time.
    [createIntent] does not check that the identifier is free. *)
Lemma createIntent_resets_intent :
  let owner_call := Scenario.at_block Scenario.deployer 3000 7 in
  let buyer_call := Scenario.at_block Scenario.buyer 3000 7 in
  let executed :=
    apply_call Scenario.funded
      (owner_call, ExecuteIntent Scenario.intent Scenario.proof "tokA") in
  let settled :=
    apply_call executed (owner_call, SettleIntent Scenario.intent Scenario.proof) in
  let again (w : World) := apply_call w (buyer_call, CreateIntent 1 1 1 137) in
  getIntentStatus (bridge Scenario.funded) Scenario.intent = (false, false) /\
  getIntentStatus (bridge executed) Scenario.intent = (true, false) /\
  getIntentStatus (bridge (again executed)) Scenario.intent = (false, false) /\
  getIntentStatus (bridge settled) Scenario.intent = (true, true) /\
  getIntentStatus (bridge (again settled)) Scenario.intent = (false, false) /\
  getIntentStatus
    (bridge (apply_call (again executed)
               (owner_call, ExecuteIntent Scenario.intent Scenario.proof "tokB")))
    Scenario.intent = (true, false) /\
  Currency.balanceOf (usdc executed) Scenario.bridgeAddress = 4000000 /\
  Currency.balanceOf
    (usdc (apply_call (again executed)
             (owner_call, ExecuteIntent Scenario.intent Scenario.proof "tokB")))
    Scenario.bridgeAddress = 3000000.
Proof. vm_compute. repeat split; reflexivity. Qed.

End IntentLifecycle.

(** ** C3: an intent is executed together with its purchase or not at all *)

Section IntentAtomicity.
Import CrossChainBridge.

Lemma executeIntent_guards_pass (e : Env) (usdc : Currency.State)
    (dc : DataCoin.State) (mp : DataMarketplace.State) (s : State)
    (id : IntentId) (proofHash : bytes32) (tok : string) :
  owner s = msg_sender e -> buyer (intent_at s id) <> 0 ->
  isExecuted (intent_at s id) = false ->
  verifiedProofs_at s proofHash = true ->
  executeIntent e usdc dc mp s id proofHash tok =
    (purchased <-- DataMarketplace.executePurchase (with_sender (self s) e)
                     usdc dc mp (tokenId (intent_at s id))
                     (amount (intent_at s id)) tok;;
     let '(usdc', dc', mp', purchaseEvents) := purchased in
     Ok (usdc', dc', mp',
         set_intents s (<[id := executed_intent e (intent_at s id) tok]> (intents s)),
         purchaseEvents ++
         [IntentExecuted id (buyer (intent_at s id)) (tokenId (intent_at s id)) tok])).
Proof.
  intros Hown Hex Hnot Hproof. unfold executeIntent.
  rewrite (bridge_onlyOwner_pass _ _ Hown). simpl.
  apply N.eqb_neq in Hex. rewrite Hex, Hnot, Hproof. reflexivity.
Qed.

(** C3. When the purchase that [executeIntent] runs on the marketplace
    reverts, [executeIntent] reverts as a whole: the call returns an error
    (the purchase's own error once the bridge's guards have passed and the
    intent has been marked), the state after the transaction is the state
    before it, and the intent keeps [isExecuted = false], its [executedAt]
    and its [accessToken]. *)
Theorem executeIntent_atomic (e : Env) (w : World) (id : IntentId)
    (proofHash : bytes32) (tok : string) (err : Error) :
  let s := bridge w in
  let intent := intent_at s id in
  let w' := apply_call w (e, ExecuteIntent id proofHash tok) in
  DataMarketplace.executePurchase (with_sender (self s) e) (usdc w)
    (dataCoin w) (marketplace w) (tokenId intent) (amount intent) tok
    = Err err ->
  reverts (exec e (ExecuteIntent id proofHash tok) w) /\
  (owner s = msg_sender e -> buyer intent <> 0 -> isExecuted intent = false ->
   verifiedProofs_at s proofHash = true ->
   exec e (ExecuteIntent id proofHash tok) w = Err err /\
   isExecuted (intent_at (bridge w') id) = false) /\
  w' = w /\
  isExecuted (intent_at (bridge w') id) = isExecuted intent /\
  executedAt (intent_at (bridge w') id) = executedAt intent /\
  accessToken (intent_at (bridge w') id) = accessToken intent.
Proof.
  intros s intent w' Hpurchase.
  assert (reverts (exec e (ExecuteIntent id proofHash tok) w)) as Hrev.
  { apply reverts_of_not_Ok. intros [w1 evs] Hok. exec_inv Hok.
    match goal with
    | Hx : executeIntent _ _ _ _ _ _ _ _ = Ok _ |- _ =>
        apply executeIntent_purchase in Hx as [pevs Hx];
        unfold intent, s in Hpurchase; congruence
    end. }
  assert (w' = w) as Hsame.
  { unfold w', apply_call. cbn [fst snd]. destruct Hrev as [err' ->]. reflexivity. }
  split; [exact Hrev|]. split.
  - intros Hown Hex Hnot Hproof. rewrite Hsame. split; [|exact Hnot].
    simpl. rewrite (executeIntent_guards_pass e _ _ _ _ _ _ _ Hown Hex Hnot Hproof).
    fold s. fold intent. rewrite Hpurchase. reflexivity.
  - rewrite Hsame. done.
Qed.

Lemma executeIntent_atomic_witness :
  let e := Scenario.at_block Scenario.deployer 3000 7 in
  exec e (ExecuteIntent Scenario.intent Scenario.proof "token") Scenario.unfunded
    = Err InsufficientPayment /\
  apply_call Scenario.unfunded
    (e, ExecuteIntent Scenario.intent Scenario.proof "token") = Scenario.unfunded /\
  isExecuted (intent_at (bridge Scenario.unfunded) Scenario.intent) = false.
Proof.
  intros e.
  pose proof (executeIntent_atomic e Scenario.unfunded Scenario.intent
                Scenario.proof "token" InsufficientPayment) as Hatomic.
  cbv zeta in Hatomic.
  destruct Hatomic as (_ & Hguarded & Hsame & _); [reflexivity|].
  destruct Hguarded as [Herr _];
    [reflexivity | vm_compute; discriminate | reflexivity | reflexivity |].
  split; [exact Herr|]. split; [exact Hsame | reflexivity].
Defined.

End IntentAtomicity.

(** ** C4: verifying an access token *)

Section AccessTokens.
Import DataMarketplace.


Lemma marketplace_step_issued (s s' : State) :
  marketplace_step s s' -> purchases_issued s -> purchases_issued s'.
Proof.
  intros Hstep Hinv.
  destruct Hstep as [ | e usdc dc tokenId amount tok usdc' dc' s' evs H
                      | e newFeeBps s' evs H | b | o ].
  - exact Hinv.
  - apply executePurchase_Ok in H. cbv zeta in H.
    destruct H as (dataset & usdc1 & granted & H).
    destruct H as (_ & _ & _ & _ & _ & _ & _ & _ & _ & _ & _ & _ & Hts & -> & _).
    intros id r. simpl. rewrite lookup_insert. case_decide.
    + intros [= <-]. simpl. done.
    + apply Hinv.
  - apply updatePlatformFee_Ok in H as (_ & _ & Hp).
    intros id r. rewrite Hp. apply Hinv.
  - exact Hinv.
  - exact Hinv.
Qed.

Lemma purchases_issued_reachable (deployer marketplaceAddress bridgeAddress : address)
    (txs : list (Env * Call)) :
  purchases_issued
    (marketplace (run (deploy deployer marketplaceAddress bridgeAddress) txs)).
Proof.
  apply (run_invariant (fun w => purchases_issued (marketplace w))).
  - intros w tx. apply marketplace_step_issued, apply_call_marketplace_step.
  - intros id r. simpl. by rewrite lookup_empty.
Qed.

(** The four outcomes of [verifyAccessToken] in any ledger state. *)
Lemma verifyAccessToken_cases (e : Env) (s : State) (purchaseId : PurchaseId)
    (token : string) :
  let purchase := purchase_at s purchaseId in
  (isActive purchase = false ->
   verifyAccessToken e s purchaseId token = Err PurchaseNotFound) /\
  (isActive purchase = true -> token <> accessToken purchase ->
   verifyAccessToken e s purchaseId token = Ok false) /\
  (isActive purchase = true -> timestamp purchase + 86400 <= MAX_UINT256 ->
   timestamp purchase + 86400 < block_timestamp e ->
   verifyAccessToken e s purchaseId token = Ok false) /\
  (isActive purchase = true -> timestamp purchase + 86400 <= MAX_UINT256 ->
   token = accessToken purchase ->
   block_timestamp e <= timestamp purchase + 86400 ->
   verifyAccessToken e s purchaseId token = Ok true).
Proof.
  cbv zeta. unfold verifyAccessToken. split_and!.
  - intros ->. reflexivity.
  - intros -> Hne. simpl.
    destruct (String.eqb _ token) eqn:E; [|reflexivity].
    apply String.eqb_eq in E. congruence.
  - intros -> Hfit Hlate. simpl.
    destruct (negb (String.eqb _ token)); [reflexivity|].
    unfold checked_add. apply N.leb_le in Hfit. rewrite Hfit. simpl.
    apply N.ltb_lt in Hlate. by rewrite Hlate.
  - intros -> Hfit -> Hearly. simpl. rewrite String.eqb_refl. simpl.
    unfold checked_add. apply N.leb_le in Hfit. rewrite Hfit. simpl.
    apply N.ltb_ge in Hearly. by rewrite Hearly.
Qed.

(** C4. In every state the deployed system can reach, [verifyAccessToken]
    reverts with [PurchaseNotFound] when the record is absent or inactive;
    for an active record it returns [false] when the token differs from the
    stored one or when [now > timestamp + 86400], and [true] for the stored
    token at any [now <= timestamp + 86400]. *)
Theorem verifyAccessToken_spec
    (deployer marketplaceAddress bridgeAddress : address)
    (txs : list (Env * Call)) (e : Env) (purchaseId : PurchaseId)
    (token : string) :
  let s :=
    marketplace (run (deploy deployer marketplaceAddress bridgeAddress) txs) in
  let purchase := purchase_at s purchaseId in
  (purchases s !! purchaseId = None \/ isActive purchase = false ->
   verifyAccessToken e s purchaseId token = Err PurchaseNotFound) /\
  (isActive purchase = true -> token <> accessToken purchase ->
   verifyAccessToken e s purchaseId token = Ok false) /\
  (isActive purchase = true ->
   timestamp purchase + 86400 < block_timestamp e ->
   verifyAccessToken e s purchaseId token = Ok false) /\
  (isActive purchase = true -> token = accessToken purchase ->
   block_timestamp e <= timestamp purchase + 86400 ->
   verifyAccessToken e s purchaseId token = Ok true).
Proof.
  intros s purchase.
  pose proof (purchases_issued_reachable deployer marketplaceAddress
                bridgeAddress txs) as Hinv.
  fold s in Hinv.
  pose proof (verifyAccessToken_cases e s purchaseId token)
    as (Hnone & Hwrong & Hlate & Hgood).
  fold purchase in Hnone, Hwrong, Hlate, Hgood.
  assert (isActive purchase = true -> timestamp purchase + 86400 <= MAX_UINT256)
    as Hfit.
  { unfold purchase, purchase_at.
    destruct (purchases s !! purchaseId) as [r|] eqn:Hr; simpl; [|discriminate].
    intros _. by apply (Hinv _ _ Hr). }
  split_and!.
  - intros [Habsent|Hinactive]; [|by apply Hnone].
    apply Hnone. unfold purchase, purchase_at. by rewrite Habsent.
  - exact Hwrong.
  - intros Hact. by apply Hlate, Hfit.
  - intros Hact. by apply Hgood, Hfit.
Qed.

Lemma verifyAccessToken_spec_witness :
  let s := marketplace Scenario.purchased in
  let id : PurchaseId := (1, Scenario.buyer, 1, 2000, 5) in
  verifyAccessToken (Scenario.at_block Scenario.buyer 3000 9) s
    (2, Scenario.buyer, 1, 2000, 5) "temp_access_token_123"
    = Err PurchaseNotFound /\
  verifyAccessToken (Scenario.at_block Scenario.buyer 3000 9) s id "guess"
    = Ok false /\
  verifyAccessToken (Scenario.at_block Scenario.buyer 88401 9) s id
    "temp_access_token_123" = Ok false /\
  verifyAccessToken (Scenario.at_block Scenario.buyer 88400 9) s id
    "temp_access_token_123" = Ok true.
Proof.
  intros s id.
  pose proof (verifyAccessToken_spec Scenario.deployer
                Scenario.marketplaceAddress Scenario.bridgeAddress
                Scenario.purchased_txs) as Hspec.
  pose proof (Hspec (Scenario.at_block Scenario.buyer 3000 9)
                (2, Scenario.buyer, 1, 2000, 5) "temp_access_token_123")
    as (Habsent & _).
  pose proof (Hspec (Scenario.at_block Scenario.buyer 3000 9) id "guess")
    as (_ & Hwrong & _).
  pose proof (Hspec (Scenario.at_block Scenario.buyer 88401 9) id
                "temp_access_token_123") as (_ & _ & Hlate & _).
  pose proof (Hspec (Scenario.at_block Scenario.buyer 88400 9) id
                "temp_access_token_123") as (_ & _ & _ & Hgood).
  split_and!.
  - apply Habsent. left. reflexivity.
  - apply Hwrong; [reflexivity | vm_compute; discriminate].
  - apply Hlate; [reflexivity | reflexivity].
  - apply Hgood; [reflexivity | reflexivity | vm_compute; discriminate].
Defined.

End AccessTokens.

(** ** C5: minting datasets *)


Section Minting.
Import DataCoin.

Lemma registry_step_tokenIds (s s' : State) :
  registry_step s s' ->
  _tokenIds s' = _tokenIds s \/
  exists e to c n d p pol maxSupply accepts evs,
    mintDataset e s to c n d p pol maxSupply accepts
      = Ok (_tokenIds s + 1, s', evs) /\ _tokenIds s' = _tokenIds s + 1.
Proof.
  intros Hstep. destruct Hstep as [ | e to c n d p pol maxSupply accepts id s' evs H
    | e tokenId newPrice pol s' evs H | e tokenId b amount s' evs H
    | e tokenId s' H | e newOwner s' H | e s' H ].
  - by left.
  - right. pose proof (mintDataset_Ok _ _ _ _ _ _ _ _ _ _ _ _ _ H)
      as (_ & _ & _ & _ & _ & -> & _ & _ & _ & ->).
    by exists e, to, c, n, d, p, pol, maxSupply, accepts, evs.
  - left. by apply updateDataset_Ok in H as (_ & _ & _ & ->).
  - left. by apply grantAccess_Ok in H as (_ & _ & _ & _ & -> & _).
  - left. by apply deactivateDataset_Ok in H as (_ & _ & ->).
  - left. by apply transferOwnership_Ok in H as (_ & _ & ->).
  - left. by apply renounceOwnership_Ok in H as (_ & ->).
Qed.

Lemma registry_step_cid (s s' : State) (c : string) :
  registry_step s s' -> cidToTokenId_at s c <> 0 -> cidToTokenId_at s' c <> 0.
Proof.
  intros Hstep Hc. destruct Hstep as [ | e to c0 n d p pol maxSupply accepts id s' evs H
    | e tokenId newPrice pol s' evs H | e tokenId b amount s' evs H
    | e tokenId s' H | e newOwner s' H | e s' H ].
  - exact Hc.
  - apply mintDataset_Ok in H as (_ & _ & _ & _ & Hfree & _ & _ & _ & _ & ->).
    unfold cidToTokenId_at in *. simpl.
    destruct (decide (c0 = c)) as [->|Hne]; [congruence|].
    by rewrite lookup_insert_ne.
  - by apply updateDataset_Ok in H as (_ & _ & _ & ->).
  - by apply grantAccess_Ok in H as (_ & _ & _ & _ & -> & _).
  - by apply deactivateDataset_Ok in H as (_ & _ & ->).
  - by apply transferOwnership_Ok in H as (_ & _ & ->).
  - by apply renounceOwnership_Ok in H as (_ & ->).
Qed.

Lemma cidExists_run (w : World) (txs : list (Env * Call)) (c : string) :
  cidExists (dataCoin w) c = true -> cidExists (dataCoin (run w txs)) c = true.
Proof.
  revert w. apply (run_invariant (fun w => cidExists (dataCoin w) c = true)).
  intros w tx H. unfold cidExists in *.
  apply negb_true_iff, N.eqb_neq in H. apply negb_true_iff, N.eqb_neq.
  eapply registry_step_cid; [apply apply_call_registry_step | exact H].
Qed.

Lemma returned_mint_id_step (w : World) (tx : Env * Call) :
  (returned_mint_id (fst tx) (snd tx) w = [] /\
   _tokenIds (dataCoin (apply_call w tx)) = _tokenIds (dataCoin w)) \/
  (returned_mint_id (fst tx) (snd tx) w = [_tokenIds (dataCoin w) + 1] /\
   _tokenIds (dataCoin (apply_call w tx)) = _tokenIds (dataCoin w) + 1).
Proof.
  destruct tx as [e c]. simpl.
  destruct (apply_call_cases w (e, c)) as [Hsame|[evs Hexec]]; simpl in *.
  - left. rewrite Hsame. split; [|reflexivity].
    destruct c; try reflexivity. simpl.
    unfold apply_call in Hsame. simpl in Hsame.
    match goal with
    | |- context [match ?m with _ => _ end] =>
        destruct m as [[[id s'] evs]|err] eqn:Hm; [|reflexivity]
    end.
    simpl in Hsame. apply mintDataset_Ok in Hm
      as (_ & _ & _ & _ & _ & Hid & _ & _ & _ & ->).
    apply (f_equal (fun x => _tokenIds (dataCoin x))) in Hsame.
    simpl in Hsame. lia.
  - set (w' := apply_call w (e, c)) in *. clearbody w'.
    destruct c; try (left; split; [reflexivity|]; exec_inv Hexec; try reflexivity).
    + right. exec_inv Hexec. unfold returned_mint_id.
      match goal with Hx : mintDataset _ _ _ _ _ _ _ _ _ _ = Ok _ |- _ =>
        rewrite Hx; apply mintDataset_Ok in Hx
          as (_ & _ & _ & _ & _ & -> & _ & _ & _ & ->) end.
      split; reflexivity.
    + match goal with Hx : updateDataset _ _ _ _ _ = Ok _ |- _ =>
        by apply updateDataset_Ok in Hx as (_ & _ & _ & ->) end.
    + match goal with Hx : grantAccess _ _ _ _ _ = Ok _ |- _ =>
        by apply grantAccess_Ok in Hx as (_ & _ & _ & _ & -> & _) end.
    + match goal with Hx : deactivateDataset _ _ _ = Ok _ |- _ =>
        by apply deactivateDataset_Ok in Hx as (_ & _ & ->) end.
    + match goal with Hx : transferOwnership _ _ _ = Ok _ |- _ =>
        by apply transferOwnership_Ok in Hx as (_ & _ & ->) end.
    + match goal with Hx : renounceOwnership _ _ = Ok _ |- _ =>
        by apply renounceOwnership_Ok in Hx as (_ & ->) end.
    + match goal with
      | Hx : DataMarketplace.executePurchase _ _ _ _ _ _ _ = Ok _ |- _ =>
          apply executePurchase_grant in Hx as [granted Hx];
          by apply grantAccess_Ok in Hx as (_ & _ & _ & _ & -> & _)
      end.
    + match goal with
      | Hx : CrossChainBridge.executeIntent _ _ _ _ _ _ _ _ = Ok _ |- _ =>
          apply executeIntent_purchase in Hx as [pevs Hx];
          apply executePurchase_grant in Hx as [granted Hx];
          by apply grantAccess_Ok in Hx as (_ & _ & _ & _ & -> & _)
      end.
Qed.

(** The identifiers handed out continue the counter one by one. *)
Lemma minted_ids_consecutive (txs : list (Env * Call)) (w : World) :
  minted_ids w txs =
    map (fun k => _tokenIds (dataCoin w) + N.of_nat k)
        (seq 1 (length (minted_ids w txs))).
Proof.
  revert w. induction txs as [|tx txs IH]; intros w; [reflexivity|].
  simpl. specialize (IH (apply_call w tx)).
  destruct (returned_mint_id_step w tx) as [[-> Hcount]|[-> Hcount]].
  - simpl. rewrite Hcount in IH. exact IH.
  - simpl. change (N.of_nat 1) with 1. f_equal.
    rewrite IH at 1.
    rewrite Hcount, <- (seq_shift (length (minted_ids (apply_call w tx) txs)) 1),
      map_map.
    apply map_ext. intros k. lia.
Qed.

End Minting.

Section MintingTheorem.
Import DataCoin.

Lemma length_zero_empty (x : string) : (String.length x =? 0)%nat = true <-> x = EmptyString.
Proof.
  destruct x; simpl; split; intros H; try done.
Qed.

Lemma registry_onlyOwner_pass (e : Env) (s : State) :
  owner s = msg_sender e -> onlyOwner e s = Ok tt.
Proof. intros Heq. unfold onlyOwner. by rewrite Heq, N.eqb_refl. Qed.

Lemma nonempty_check (x : string) :
  x <> EmptyString -> negb (String.length x =? 0)%nat = true.
Proof.
  intros Hne. apply negb_true_iff.
  destruct (String.length x =? 0)%nat eqn:E; [|reflexivity].
  by apply length_zero_empty in E.
Qed.

(** C5. The successful mints of any transaction sequence run on the freshly
    deployed system return the identifiers 1, 2, 3, ... in order; a successful
    mint returns the counter plus one, after it [cidExists] holds for its
    content reference and keeps holding after any further transactions, and
    every later mint of the same reference reverts, with "Dataset with this
    CID already exists" when the owner calls with a name and a positive price.
    A mint with an empty reference or name, or with price zero, reverts; for
    the owner the error is "CID cannot be empty", "Name cannot be empty"
    (reference given) and "Price must be greater than 0" (reference and name
    given), in the order the function checks them. *)
Theorem mintDataset_spec :
  (forall deployer marketplaceAddress bridgeAddress txs,
     let ids :=
       minted_ids (deploy deployer marketplaceAddress bridgeAddress) txs in
     ids = map N.of_nat (seq 1 (length ids))) /\
  (forall e s to c n d p pol maxSupply accepts id s' evs,
     mintDataset e s to c n d p pol maxSupply accepts = Ok (id, s', evs) ->
     id = _tokenIds s + 1 /\ _tokenIds s' = id /\ cidExists s' c = true /\
     cid (dataset_at s' id) = c /\ price (dataset_at s' id) = p /\
     isActive (dataset_at s' id) = true) /\
  (forall w e0 to0 c n0 d0 p0 pol0 maxSupply0 accepts0 w' evs0
          txs e to n d p pol maxSupply accepts,
     exec e0 (MintDataset to0 c n0 d0 p0 pol0 maxSupply0 accepts0) w
       = Ok (w', evs0) ->
     let later := dataCoin (run w' txs) in
     cidExists later c = true /\
     reverts (mintDataset e later to c n d p pol maxSupply accepts) /\
     (owner later = msg_sender e -> n <> EmptyString -> 0 < p ->
      mintDataset e later to c n d p pol maxSupply accepts
        = Err (Require "Dataset with this CID already exists"))) /\
  (forall e s to c n d p pol maxSupply accepts,
     let call := mintDataset e s to c n d p pol maxSupply accepts in
     (c = EmptyString \/ n = EmptyString \/ p = 0 -> reverts call) /\
     (owner s = msg_sender e -> c = EmptyString ->
      call = Err (Require "CID cannot be empty")) /\
     (owner s = msg_sender e -> c <> EmptyString -> n = EmptyString ->
      call = Err (Require "Name cannot be empty")) /\
     (owner s = msg_sender e -> c <> EmptyString -> n <> EmptyString -> p = 0 ->
      call = Err (Require "Price must be greater than 0"))).
Proof.
  split_and!.
  - intros deployer marketplaceAddress bridgeAddress txs ids. unfold ids.
    rewrite minted_ids_consecutive at 1. apply map_ext. intros k.
    simpl. lia.
  - intros e s to c n d p pol maxSupply accepts id s' evs H.
    apply mintDataset_Ok in H as (_ & _ & _ & _ & _ & -> & _ & _ & _ & ->).
    unfold cidExists, cidToTokenId_at, dataset_at. simpl.
    rewrite !lookup_insert_eq. simpl. split_and!; try done.
    apply negb_true_iff, N.eqb_neq. lia.
  - intros w e0 to0 c n0 d0 p0 pol0 maxSupply0 accepts0 w' evs0
           txs e to n d p pol maxSupply accepts Hmint later.
    exec_inv Hmint.
    match goal with Hx : mintDataset _ _ _ _ _ _ _ _ _ _ = Ok _ |- _ =>
      apply mintDataset_Ok in Hx
        as (_ & Hcne & _ & _ & _ & Hid & _ & _ & _ & Hs') end.
    assert (cidExists later c = true) as Hlater.
    { apply cidExists_run. simpl. rewrite Hs'.
      unfold cidExists, cidToTokenId_at. simpl. rewrite lookup_insert_eq. simpl.
      apply negb_true_iff, N.eqb_neq. lia. }
    split; [exact Hlater|].
    unfold cidExists in Hlater. apply negb_true_iff in Hlater.
    split.
    + apply reverts_of_not_Ok. intros [[id s'] evs] Hok.
      apply mintDataset_Ok in Hok as (_ & _ & _ & _ & Hfree & _).
      apply N.eqb_neq in Hlater. congruence.
    + intros Hown Hn Hp. unfold mintDataset.
      rewrite (registry_onlyOwner_pass _ _ Hown). simpl.
      rewrite (nonempty_check _ Hcne), (nonempty_check _ Hn). simpl.
      apply N.ltb_lt in Hp. rewrite Hp. simpl. rewrite Hlater. reflexivity.
  - intros e s to c n d p pol maxSupply accepts call. unfold call. split_and!.
    + intros Hcase. apply reverts_of_not_Ok. intros [[id s'] evs] Hok.
      apply mintDataset_Ok in Hok as (_ & Hc & Hn & Hp & _).
      destruct Hcase as [->|[->| ->]]; [done | done | lia].
    + intros Hown ->. unfold mintDataset.
      rewrite (registry_onlyOwner_pass _ _ Hown). reflexivity.
    + intros Hown Hc ->. unfold mintDataset.
      rewrite (registry_onlyOwner_pass _ _ Hown). simpl.
      rewrite (nonempty_check _ Hc). reflexivity.
    + intros Hown Hc Hn ->. unfold mintDataset.
      rewrite (registry_onlyOwner_pass _ _ Hown). simpl.
      rewrite (nonempty_check _ Hc), (nonempty_check _ Hn). reflexivity.
Qed.

Lemma mintDataset_spec_witness :
  let w0 := deploy Scenario.deployer Scenario.marketplaceAddress
                   Scenario.bridgeAddress in
  let e := Scenario.at_block Scenario.deployer 1000 1 in
  exists w1 evs1,
    exec e (MintDataset Scenario.deployer "QmTest123" "Test Dataset 1"
              "Description 1" 1000000 "{}" 0 true) w0 = Ok (w1, evs1) /\
    _tokenIds (dataCoin w1) = 1 /\
    cidExists (dataCoin w1) "QmTest123" = true /\
    mintDataset e (dataCoin w1) Scenario.deployer "QmTest123" "Test Dataset 2"
      "Description 2" 2000000 "{}" 0 true
      = Err (Require "Dataset with this CID already exists") /\
    mintDataset e (dataCoin w1) Scenario.deployer EmptyString "Test Dataset 2"
      "Description 2" 2000000 "{}" 0 true
      = Err (Require "CID cannot be empty") /\
    mintDataset e (dataCoin w1) Scenario.deployer "QmOther" EmptyString
      "Description 2" 2000000 "{}" 0 true
      = Err (Require "Name cannot be empty") /\
    mintDataset e (dataCoin w1) Scenario.deployer "QmOther" "Test Dataset 2"
      "Description 2" 0 "{}" 0 true
      = Err (Require "Price must be greater than 0") /\
    exists id s' evs,
      mintDataset e (dataCoin w1) Scenario.deployer "QmOther" "Test Dataset 2"
        "Description 2" 2000000 "{}" 0 true = Ok (id, s', evs) /\
      id = 2 /\ cidExists s' "QmOther" = true.
Proof.
  intros w0 e.
  destruct mintDataset_spec as (_ & Hmint & Hdup & Hbad).
  destruct (exec e (MintDataset Scenario.deployer "QmTest123" "Test Dataset 1"
              "Description 1" 1000000 "{}" 0 true) w0)
    as [[w1 evs1]|err] eqn:Hrun; [|vm_compute in Hrun; discriminate].
  exists w1, evs1. split; [reflexivity|].
  specialize (Hdup w0 e Scenario.deployer "QmTest123" "Test Dataset 1"
                "Description 1" 1000000 "{}" 0 true w1 evs1 [] e
                Scenario.deployer "Test Dataset 2" "Description 2" 2000000
                "{}" 0 true Hrun).
  cbv zeta in Hdup. destruct Hdup as (Hexists & _ & Hdup).
  vm_compute in Hrun. injection Hrun as <- <-.
  split; [reflexivity|]. split; [exact Hexists|].
  split; [apply Hdup; [reflexivity | discriminate | reflexivity]|].
  split; [apply Hbad; reflexivity|].
  split; [apply Hbad; [reflexivity | discriminate | reflexivity]|].
  split; [apply Hbad; [reflexivity | discriminate | discriminate | reflexivity]|].
  match goal with
  | |- exists id s' evs, ?call = _ /\ _ =>
      destruct call as [[[id s'] evs]|err] eqn:Hsecond;
        [|vm_compute in Hsecond; discriminate]
  end.
  exists id, s', evs. split; [reflexivity|].
  destruct (Hmint _ _ _ _ _ _ _ _ _ _ _ _ _ Hsecond) as (Hid & _ & Hexists' & _).
  split; [rewrite Hid; reflexivity | exact Hexists'].
Defined.

(** Three mints, the second refused as a duplicate: the identifiers returned
    are 1 and 2. *)
Example minted_ids_example :
  minted_ids (deploy 100 300 400)
    [ (Scenario.at_block 100 1000 1,
       MintDataset 100 "QmA" "A" EmptyString 1000000 "{}" 0 true);
      (Scenario.at_block 100 1001 2,
       MintDataset 100 "QmA" "A again" EmptyString 2000000 "{}" 0 true);
      (Scenario.at_block 100 1002 3,
       MintDataset 100 "QmB" "B" EmptyString 3000000 "{}" 5 true) ]
  = [1; 2].
Proof. vm_compute. reflexivity. Qed.

End MintingTheorem.

(** ** C6: the rejections of a purchase *)

Section Prices.
Import DataCoin.

Lemma registry_step_prices (s s' : State) :
  registry_step s s' -> prices_positive s -> prices_positive s'.
Proof.
  intros Hstep Hinv tokenId.
  destruct Hstep as [ | e to c n d p pol maxSupply accepts id s' evs H
    | e t newPrice pol s' evs H | e t b amount s' evs H
    | e t s' H | e newOwner s' H | e s' H ].
  - apply Hinv.
  - apply mintDataset_Ok in H as (_ & _ & _ & Hp & _ & _ & _ & Hto & _ & ->).
    unfold _ownerOf, dataset_at. simpl. rewrite !lookup_insert.
    case_decide; [done | apply Hinv].
  - apply updateDataset_Ok in H as (_ & _ & Hp & ->).
    unfold _ownerOf, dataset_at. simpl. rewrite lookup_insert.
    case_decide; [done | apply Hinv].
  - apply grantAccess_Ok in H as (_ & _ & _ & _ & -> & _).
    unfold _ownerOf, dataset_at. simpl. rewrite lookup_insert.
    case_decide; [subst; apply Hinv | apply Hinv].
  - apply deactivateDataset_Ok in H as (_ & _ & ->).
    unfold _ownerOf, dataset_at. simpl. rewrite lookup_insert.
    case_decide; [subst; apply Hinv | apply Hinv].
  - apply transferOwnership_Ok in H as (_ & _ & ->). apply Hinv.
  - apply renounceOwnership_Ok in H as (_ & ->). apply Hinv.
Qed.

(** The invariant [unitPrice > 0] of the data model: it holds for every
    minted dataset in every state the deployed system reaches. *)
Lemma prices_positive_reachable (deployer marketplaceAddress bridgeAddress : address)
    (txs : list (Env * Call)) :
  prices_positive
    (dataCoin (run (deploy deployer marketplaceAddress bridgeAddress) txs)).
Proof.
  apply (run_invariant (fun w => prices_positive (dataCoin w))).
  - intros w tx. apply registry_step_prices, apply_call_registry_step.
  - intros tokenId Hex. by destruct Hex.
Qed.

End Prices.

Section PurchaseRejections.
Import DataMarketplace.

(** C6. [executePurchase] reverts with [DatasetNotActive] when the dataset is
    not active, with [InsufficientPayment] when [price * amount] is zero (for
    a positive price, which every minted dataset of a reachable state has:
    exactly when [amount] is zero) and with [InsufficientPayment] when the
    buyer's balance is below [price * amount]. The named error is the one
    raised once the guards placed before it in the function pass (marketplace
    not paused, dataset minted, product within uint256); whatever the guards,
    the call reverts in each of the three cases, and a reverted call leaves
    the whole state as it was. *)
Theorem executePurchase_rejections (e : Env) (w : World)
    (tokenId amount : uint256) (tok : string) :
  let s := marketplace w in
  let d := DataCoin.dataset_at (dataCoin w) tokenId in
  let call :=
    executePurchase e (usdc w) (dataCoin w) s tokenId amount tok in
  let passes_guards :=
    paused s = false /\ DataCoin._ownerOf (dataCoin w) tokenId <> 0 in
  (passes_guards -> DataCoin.isActive d = false ->
   call = Err DatasetNotActive) /\
  (passes_guards -> DataCoin.isActive d = true ->
   DataCoin.price d * amount = 0 -> call = Err InsufficientPayment) /\
  (0 < DataCoin.price d -> (DataCoin.price d * amount = 0 <-> amount = 0)) /\
  (forall deployer marketplaceAddress bridgeAddress txs,
     w = run (deploy deployer marketplaceAddress bridgeAddress) txs ->
     DataCoin._ownerOf (dataCoin w) tokenId <> 0 ->
     (DataCoin.price d * amount = 0 <-> amount = 0)) /\
  (passes_guards -> DataCoin.isActive d = true ->
   DataCoin.price d * amount <= MAX_UINT256 ->
   Currency.balanceOf (usdc w) (msg_sender e) < DataCoin.price d * amount ->
   call = Err InsufficientPayment) /\
  (DataCoin.isActive d = false \/ DataCoin.price d * amount = 0 \/
   Currency.balanceOf (usdc w) (msg_sender e) < DataCoin.price d * amount ->
   reverts call) /\
  (reverts call ->
   reverts (exec e (ExecutePurchase tokenId amount tok) w) /\
   apply_call w (e, ExecutePurchase tokenId amount tok) = w).
Proof.
  cbv zeta. split_and!.
  - intros [Hp Hex] Hact. unfold executePurchase, whenNotPaused.
    rewrite Hp, (getDatasetInfo_exists _ _ Hex). simpl. rewrite Hact. reflexivity.
  - intros [Hp Hex] Hact Hzero. unfold executePurchase, whenNotPaused.
    rewrite Hp, (getDatasetInfo_exists _ _ Hex). simpl. rewrite Hact. simpl.
    unfold checked_mul. rewrite Hzero. reflexivity.
  - intros Hpos. lia.
  - intros deployer marketplaceAddress bridgeAddress txs -> Hex.
    pose proof (prices_positive_reachable deployer marketplaceAddress
                  bridgeAddress txs tokenId Hex) as Hpos.
    lia.
  - intros [Hp Hex] Hact Hfit Hshort. unfold executePurchase, whenNotPaused.
    rewrite Hp, (getDatasetInfo_exists _ _ Hex). simpl. rewrite Hact. simpl.
    unfold checked_mul. apply N.leb_le in Hfit. rewrite Hfit. simpl.
    destruct (DataCoin.price _ * amount =? 0); [reflexivity|]. simpl.
    apply N.ltb_lt in Hshort. rewrite Hshort. reflexivity.
  - intros Hcase. apply reverts_of_not_Ok. intros [[[usdc' dc'] s'] evs] Hok.
    apply executePurchase_Ok in Hok.
    destruct Hok as (dataset & usdc1 & granted & Hok). cbv zeta in Hok.
    destruct Hok as (_ & Hget & Hact & _ & Hnz & Hbal & _).
    apply getDatasetInfo_Ok in Hget as [_ ->].
    destruct Hcase as [Hcase|[Hcase|Hcase]]; [congruence | congruence | lia].
  - intros [err Herr]. split.
    + exists err. simpl. rewrite Herr. reflexivity.
    + unfold apply_call. simpl. rewrite Herr. reflexivity.
Qed.

Lemma executePurchase_rejections_witness :
  executePurchase (Scenario.at_block Scenario.buyer 2000 6)
    (usdc Scenario.deactivated) (dataCoin Scenario.deactivated)
    (marketplace Scenario.deactivated) 1 1 "token" = Err DatasetNotActive /\
  executePurchase (Scenario.at_block Scenario.buyer 2000 6)
    (usdc (Scenario.ready 0)) (dataCoin (Scenario.ready 0))
    (marketplace (Scenario.ready 0)) 1 0 "token" = Err InsufficientPayment /\
  executePurchase (Scenario.at_block Scenario.pauper 2000 6)
    (usdc (Scenario.ready 0)) (dataCoin (Scenario.ready 0))
    (marketplace (Scenario.ready 0)) 1 1 "token" = Err InsufficientPayment /\
  apply_call (Scenario.ready 0)
    (Scenario.at_block Scenario.pauper 2000 6, ExecutePurchase 1 1 "token")
    = Scenario.ready 0.
Proof.
  pose proof (executePurchase_rejections (Scenario.at_block Scenario.buyer 2000 6)
                Scenario.deactivated 1 1 "token") as Hinactive.
  pose proof (executePurchase_rejections (Scenario.at_block Scenario.buyer 2000 6)
                (Scenario.ready 0) 1 0 "token") as Hzero.
  pose proof (executePurchase_rejections (Scenario.at_block Scenario.pauper 2000 6)
                (Scenario.ready 0) 1 1 "token") as Hshort.
  cbv zeta in Hinactive, Hzero, Hshort.
  destruct Hinactive as (Hinactive & _).
  destruct Hzero as (_ & Hzero & _).
  destruct Hshort as (_ & _ & _ & _ & Hshort & Hreverts & Hrollback).
  assert (forall w, w = Scenario.deactivated \/ w = Scenario.ready 0 ->
          paused (marketplace w) = false /\
          DataCoin._ownerOf (dataCoin w) 1 <> 0) as Hguards.
  { intros w [->| ->]; (split; [reflexivity | vm_compute; discriminate]). }
  split; [apply Hinactive; [apply Hguards; by left | reflexivity]|].
  split; [apply Hzero; [apply Hguards; by right | reflexivity | reflexivity]|].
  split.
  - apply Hshort; [apply Hguards; by right | reflexivity
                   | vm_compute; discriminate | reflexivity].
  - apply Hrollback, Hreverts. right. right. reflexivity.
Defined.

End PurchaseRejections.

(** ** C7: creating an intent *)

Section CreateIntent.
Import CrossChainBridge.

Lemma default_chain_policy (this deployer : address) (chainId : uint256) :
  supportedChains_at (constructor this deployer) chainId = true <->
  chainId = 1 \/ chainId = 137 \/ chainId = 42161 \/ chainId = 10 \/ chainId = 8453.
Proof.
  unfold supportedChains_at, constructor. simpl.
  rewrite !lookup_insert, lookup_empty.
  repeat case_decide; subst; simpl; split; intros Hx; try done; try lia; auto 10.
Qed.

(** C7. [createIntent] reverts with "Unsupported source chain" /
    "Unsupported destination chain" whenever a chain is not in the supported
    set; right after deployment the supported set is exactly
    1, 137, 42161, 10 and 8453, so chain 999 is refused; it reverts with
    "Invalid amount" for amount 0 and with "Dataset not active" for an
    inactive dataset. The named error is the one raised once the guards
    before it pass; in each case the call reverts whatever the guards. A
    successful call stores the intent under its identifier with
    [isExecuted = false] and [isSettled = false]. *)
Theorem createIntent_spec (e : Env) (dc : DataCoin.State) (s : State)
    (tokenId amount src dst : uint256) :
  let call := createIntent e dc s tokenId amount src dst in
  let d := DataCoin.dataset_at dc tokenId in
  (forall this deployer chainId,
     supportedChains_at (constructor this deployer) chainId = true <->
     chainId = 1 \/ chainId = 137 \/ chainId = 42161 \/ chainId = 10 \/
     chainId = 8453) /\
  (forall this deployer other,
     createIntent e dc (constructor this deployer) tokenId amount 999 other
       = Err (Require "Unsupported source chain") /\
     createIntent e dc (constructor this deployer) tokenId amount 1 999
       = Err (Require "Unsupported destination chain")) /\
  (paused s = false -> supportedChains_at s src = false ->
   call = Err (Require "Unsupported source chain")) /\
  (paused s = false -> supportedChains_at s src = true ->
   supportedChains_at s dst = false ->
   call = Err (Require "Unsupported destination chain")) /\
  (supportedChains_at s src = false \/ supportedChains_at s dst = false ->
   reverts call) /\
  (paused s = false -> supportedChains_at s src = true ->
   supportedChains_at s dst = true -> amount = 0 ->
   call = Err (Require "Invalid amount")) /\
  (amount = 0 -> reverts call) /\
  (paused s = false -> supportedChains_at s src = true ->
   supportedChains_at s dst = true -> 0 < amount ->
   DataCoin._ownerOf dc tokenId <> 0 -> DataCoin.isActive d = false ->
   call = Err (Require "Dataset not active")) /\
  (DataCoin.isActive d = false -> reverts call) /\
  (forall id s' evs, call = Ok (id, s', evs) ->
     id = (msg_sender e, tokenId, amount, src, dst, block_timestamp e,
           block_number e) /\
     intents s' !! id = Some (intent_at s' id) /\
     buyer (intent_at s' id) = msg_sender e /\
     CrossChainBridge.tokenId (intent_at s' id) = tokenId /\
     CrossChainBridge.amount (intent_at s' id) = amount /\
     sourceChainId (intent_at s' id) = src /\
     destinationChainId (intent_at s' id) = dst /\
     usdcAmount (intent_at s' id) = DataCoin.price d * amount /\
     isExecuted (intent_at s' id) = false /\
     isSettled (intent_at s' id) = false /\
     In id (buyerIntents_at s' (msg_sender e))).
Proof.
  cbv zeta.
  assert (forall this deployer, paused (constructor this deployer) = false)
    as Hfresh by reflexivity.
  split_and!.
  - apply default_chain_policy.
  - intros this deployer other. split; reflexivity.
  - intros Hp Hsrc. unfold createIntent, whenNotPaused.
    rewrite Hp. simpl. rewrite Hsrc. reflexivity.
  - intros Hp Hsrc Hdst. unfold createIntent, whenNotPaused.
    rewrite Hp. simpl. rewrite Hsrc. simpl. rewrite Hdst. reflexivity.
  - intros Hcase. apply reverts_of_not_Ok. intros [[id s'] evs] Hok.
    apply createIntent_Ok in Hok as (_ & Hsrc & Hdst & _).
    destruct Hcase; congruence.
  - intros Hp Hsrc Hdst ->. unfold createIntent, whenNotPaused.
    rewrite Hp. simpl. rewrite Hsrc. simpl. rewrite Hdst. reflexivity.
  - intros ->. apply reverts_of_not_Ok. intros [[id s'] evs] Hok.
    apply createIntent_Ok in Hok as (_ & _ & _ & Hpos & _). lia.
  - intros Hp Hsrc Hdst Hpos Hex Hact. unfold createIntent, whenNotPaused.
    rewrite Hp. simpl. rewrite Hsrc. simpl. rewrite Hdst. simpl.
    apply N.ltb_lt in Hpos. rewrite Hpos. simpl.
    rewrite (getDatasetInfo_exists _ _ Hex). simpl. rewrite Hact. reflexivity.
  - intros Hact. apply reverts_of_not_Ok. intros [[id s'] evs] Hok.
    apply createIntent_Ok in Hok as (_ & _ & _ & _ & _ & Hact' & _). congruence.
  - intros id s' evs H.
    apply createIntent_Ok in H as (_ & _ & _ & _ & _ & _ & Hid & ->).
    unfold intent_at, buyerIntents_at. simpl. rewrite !lookup_insert_eq. simpl.
    split_and!; try done.
    apply in_or_app. right. left. reflexivity.
Qed.

Lemma createIntent_spec_witness :
  let e := Scenario.at_block Scenario.buyer 2000 6 in
  let ready := Scenario.ready 0 in
  let gone := Scenario.deactivated in
  createIntent e (dataCoin ready) (bridge ready) 1 1 999 137
    = Err (Require "Unsupported source chain") /\
  createIntent e (dataCoin ready) (bridge ready) 1 1 1 999
    = Err (Require "Unsupported destination chain") /\
  createIntent e (dataCoin ready) (bridge ready) 1 0 1 137
    = Err (Require "Invalid amount") /\
  createIntent e (dataCoin gone) (bridge gone) 1 1 1 137
    = Err (Require "Dataset not active") /\
  exists id s' evs,
    createIntent e (dataCoin ready) (bridge ready) 1 1 1 137 = Ok (id, s', evs) /\
    isExecuted (intent_at s' id) = false /\ isSettled (intent_at s' id) = false.
Proof.
  intros e ready gone.
  pose proof (createIntent_spec e (dataCoin ready) (bridge ready) 1 1 999 137)
    as (_ & _ & Hsrc & _).
  pose proof (createIntent_spec e (dataCoin ready) (bridge ready) 1 1 1 999)
    as (_ & _ & _ & Hdst & _).
  pose proof (createIntent_spec e (dataCoin ready) (bridge ready) 1 0 1 137)
    as (_ & _ & _ & _ & _ & Hamount & _).
  pose proof (createIntent_spec e (dataCoin gone) (bridge gone) 1 1 1 137)
    as (_ & _ & _ & _ & _ & _ & _ & Hinactive & _).
  pose proof (createIntent_spec e (dataCoin ready) (bridge ready) 1 1 1 137)
    as (_ & _ & _ & _ & _ & _ & _ & _ & _ & Hok).
  split; [apply Hsrc; reflexivity|].
  split; [apply Hdst; reflexivity|].
  split; [apply Hamount; reflexivity|].
  split; [apply Hinactive; try reflexivity; vm_compute; discriminate|].
  destruct (createIntent e (dataCoin ready) (bridge ready) 1 1 1 137)
    as [[[id s'] evs]|err] eqn:Hrun; [|vm_compute in Hrun; discriminate].
  exists id, s', evs. split; [reflexivity|].
  destruct (Hok id s' evs eq_refl) as (_ & _ & _ & _ & _ & _ & _ & _ & He & Hs & _).
  split; assumption.
Defined.

End CreateIntent.

(** ** C8: sold supply and total supply *)

Section Supply.
Import DataCoin.


Lemma grantAccess_soldSupply (e : Env) (s s' : State) (tokenId : uint256)
    (b : address) (amount : uint256) (evs : list Event) :
  grantAccess e s tokenId b amount = Ok (s', evs) ->
  soldSupply (dataset_at s' tokenId) = soldSupply (dataset_at s tokenId) + amount /\
  totalSupply (dataset_at s' tokenId) = totalSupply (dataset_at s tokenId) /\
  (forall other, other <> tokenId -> dataset_at s' other = dataset_at s other).
Proof.
  intros H. apply grantAccess_Ok in H as (_ & _ & _ & _ & -> & _).
  unfold dataset_at. simpl. rewrite lookup_insert_eq. simpl.
  split_and!; try done.
  intros other Hne. by rewrite lookup_insert_ne.
Qed.

(** What a purchase does to the two counters. A successful [executePurchase]
    adds [amount] to the dataset's [soldSupply] through the registry's
    [grantAccess] and leaves [totalSupply] and every other dataset as they
    were: afterwards [soldSupply <= totalSupply] holds exactly when
    [soldSupply + amount <= totalSupply] held before the call. *)
Lemma executePurchase_soldSupply (e : Env) (usdc usdc' : Currency.State)
    (dc dc' : State) (s s' : DataMarketplace.State) (tokenId amount : uint256)
    (tok : string) (evs : list Event) :
  DataMarketplace.executePurchase e usdc dc s tokenId amount tok
    = Ok (usdc', dc', s', evs) ->
  let d := dataset_at dc tokenId in
  let d' := dataset_at dc' tokenId in
  soldSupply d' = soldSupply d + amount /\
  totalSupply d' = totalSupply d /\
  (soldSupply d' <= totalSupply d' <-> soldSupply d + amount <= totalSupply d) /\
  (forall other, other <> tokenId -> dataset_at dc' other = dataset_at dc other).
Proof.
  intros H d d'. apply executePurchase_grant in H as [granted H].
  apply grantAccess_soldSupply in H as (Hsold & Htotal & Hothers).
  unfold d, d'. rewrite Hsold, Htotal. split_and!; done.
Qed.

Lemma executePurchase_soldSupply_witness :
  exists usdc' dc' s' evs,
    DataMarketplace.executePurchase (Scenario.at_block Scenario.buyer 2000 5)
      (usdc (Scenario.ready 5)) (dataCoin (Scenario.ready 5))
      (marketplace (Scenario.ready 5)) 1 2 "token" = Ok (usdc', dc', s', evs) /\
    soldSupply (dataset_at dc' 1) = 2 /\ totalSupply (dataset_at dc' 1) = 5.
Proof.
  destruct (DataMarketplace.executePurchase
              (Scenario.at_block Scenario.buyer 2000 5)
              (usdc (Scenario.ready 5)) (dataCoin (Scenario.ready 5))
              (marketplace (Scenario.ready 5)) 1 2 "token")
    as [[[[usdc' dc'] s'] evs]|err] eqn:Hrun; [|vm_compute in Hrun; discriminate].
  exists usdc', dc', s', evs. split; [reflexivity|].
  destruct (executePurchase_soldSupply _ _ _ _ _ _ _ _ _ _ _ Hrun)
    as (Hsold & Htotal & _).
  rewrite Hsold, Htotal. split; reflexivity.
Defined.

(** C8, failing input. The deployer mints dataset 1 with [maxSupply = 1]
    ("Total supply for fractionalized datasets") and hands the registry to
    the marketplace; the bound [soldSupply <= totalSupply] holds. The buyer
    then purchases 2 units: neither [executePurchase] nor [grantAccess]
    compares the sold supply with the total supply, the purchase succeeds, is
    paid, and leaves [soldSupply = 2 > totalSupply = 1]. *)
Theorem soldSupply_exceeds_totalSupply :
  let w := Scenario.ready 1 in
  let tx := (Scenario.at_block Scenario.buyer 2000 5,
             ExecutePurchase 1 2 "token") in
  supply_bounded (dataCoin w) /\
  (exists evs, exec (fst tx) (snd tx) w = Ok (apply_call w tx, evs)) /\
  totalSupply (dataset_at (dataCoin (apply_call w tx)) 1) = 1 /\
  soldSupply (dataset_at (dataCoin (apply_call w tx)) 1) = 2 /\
  Currency.balanceOf (usdc w) Scenario.buyer = 10000000 /\
  Currency.balanceOf (usdc (apply_call w tx)) Scenario.buyer = 8000000 /\
  ~ supply_bounded (dataCoin (apply_call w tx)).
Proof.
  intros w tx. split_and!.
  - intros tokenId. unfold dataset_at.
    destruct (decide (tokenId = 1)) as [->|Hne]; [vm_compute; discriminate|].
    assert (exists d, datasets (dataCoin w) = <[1 := d]> ∅) as [d ->]
      by (eexists; vm_compute; reflexivity).
    rewrite lookup_insert_ne by done. rewrite lookup_empty. simpl. lia.
  - eexists. vm_compute. reflexivity.
  - reflexivity.
  - reflexivity.
  - reflexivity.
  - reflexivity.
  - intros Hbound. specialize (Hbound 1). vm_compute in Hbound.
    by apply Hbound.
Qed.

End Supply.

(** ** C9: the purchase ledger *)

Section PurchaseLedger.
Import DataMarketplace.

(** No step of the marketplace removes a record, and a record changes only
    when a purchase produces its identifier again. *)
Lemma marketplace_step_purchases (s s' : State) (id : PurchaseId)
    (r : PurchaseRecord) :
  marketplace_step s s' -> purchases s !! id = Some r ->
  is_Some (purchases s' !! id) /\
  (purchases s' !! id = Some r \/
   exists e usdc dc tokenId amount tok usdc' dc' evs,
     executePurchase e usdc dc s tokenId amount tok = Ok (usdc', dc', s', evs) /\
     id = (tokenId, msg_sender e, amount, block_timestamp e, block_number e)).
Proof.
  intros Hstep Hr.
  destruct Hstep as [ | e usdc dc tokenId amount tok usdc' dc' s' evs H
                      | e newFeeBps s' evs H | b | o ].
  - split; [by exists r | by left].
  - pose proof H as Hok. apply executePurchase_Ok in Hok. cbv zeta in Hok.
    destruct Hok as (dataset & usdc1 & granted & Hok).
    destruct Hok as (_ & _ & _ & _ & _ & _ & _ & _ & _ & _ & _ & _ & _ & Hs' & _).
    destruct (decide ((tokenId, msg_sender e, amount, block_timestamp e,
                       block_number e) = id)) as [Heq|Hne].
    + split.
      * rewrite Hs'. simpl. rewrite Heq, lookup_insert_eq. by eexists.
      * right. exists e, usdc, dc, tokenId, amount, tok, usdc', dc', evs. done.
    + rewrite Hs'. simpl. rewrite lookup_insert_ne by done.
      split; [by exists r | by left].
  - apply updatePlatformFee_Ok in H as (_ & _ & Hp). rewrite Hp.
    split; [by exists r | by left].
  - split; [by exists r | by left].
  - split; [by exists r | by left].
Qed.

Lemma purchases_never_deleted (txs : list (Env * Call)) (w : World)
    (id : PurchaseId) :
  is_Some (purchases (marketplace w) !! id) ->
  is_Some (purchases (marketplace (run w txs)) !! id).
Proof.
  revert w.
  apply (run_invariant (fun w => is_Some (purchases (marketplace w) !! id))).
  intros w tx [r Hr].
  by apply (marketplace_step_purchases _ _ _ _ (apply_call_marketplace_step w tx) Hr).
Qed.

(** C9, failing input. The buyer purchases one unit of dataset 1 twice in the
    same block, with access tokens "tokA" and "tokB". Both calls succeed and
    both are paid, but they derive the same [purchaseId]: the second call
    overwrites the record of the first, the ledger holds one record for two
    purchases, the buyer's index lists the identifier twice, and the access
    token issued first is no longer accepted. *)
Theorem executePurchase_overwrites_record :
  let buyer_call := Scenario.at_block Scenario.buyer 2000 5 in
  let id : PurchaseId := (1, Scenario.buyer, 1, 2000, 5) in
  let first :=
    apply_call (Scenario.ready 0) (buyer_call, ExecutePurchase 1 1 "tokA") in
  let second := apply_call first (buyer_call, ExecutePurchase 1 1 "tokB") in
  (exists w evs,
     exec buyer_call (ExecutePurchase 1 1 "tokA") (Scenario.ready 0) = Ok (w, evs) /\
     In (AccessTokenGenerated id "tokA" 88400) evs) /\
  (exists w evs,
     exec buyer_call (ExecutePurchase 1 1 "tokB") first = Ok (w, evs) /\
     In (AccessTokenGenerated id "tokB" 88400) evs) /\
  accessToken (getPurchase (marketplace first) id) = "tokA" /\
  accessToken (getPurchase (marketplace second) id) = "tokB" /\
  size (purchases (marketplace second)) = 1%nat /\
  getBuyerPurchases (marketplace second) Scenario.buyer = [id; id] /\
  getTokenSales (marketplace second) 1 = 2 /\
  Currency.balanceOf (usdc second) Scenario.buyer = 8000000 /\
  verifyAccessToken buyer_call (marketplace first) id "tokA" = Ok true /\
  verifyAccessToken buyer_call (marketplace second) id "tokA" = Ok false.
Proof.
  vm_compute. split_and!; try reflexivity.
  - eexists _, _. split; [reflexivity|]. right. right. left. reflexivity.
  - eexists _, _. split; [reflexivity|]. right. right. left. reflexivity.
Qed.

End PurchaseLedger.

(** ** C10: proof verdicts are not consumed *)

Section ProofRegistry.
Import CrossChainBridge.

Lemma exec_proofs_frame (e : Env) (c : Call) (w w' : World) (evs : list Event) :
  exec e c w = Ok (w', evs) ->
  verifiedProofs (bridge w') = verifiedProofs (bridge w) \/
  exists q v,
    c = VerifyProof q v /\
    verifiedProofs (bridge w') = <[q := v]> (verifiedProofs (bridge w)).
Proof.
  intros H. destruct c; exec_inv H; try (left; reflexivity).
  - left. match goal with Hx : createIntent _ _ _ _ _ _ _ = Ok _ |- _ =>
      by apply createIntent_Ok in Hx as (_ & _ & _ & _ & _ & _ & _ & ->) end.
  - left. match goal with Hx : executeIntent _ _ _ _ _ _ _ _ = Ok _ |- _ =>
      by apply executeIntent_Ok in Hx as (_ & _ & _ & _ & _ & ->) end.
  - left. match goal with Hx : settleIntent _ _ _ _ = Ok _ |- _ =>
      by apply settleIntent_Ok in Hx as (_ & _ & _ & _ & _ & ->) end.
  - right. match goal with Hx : verifyProof _ _ _ _ = Ok _ |- _ =>
      apply verifyProof_Ok in Hx as (_ & _ & Hp) end. eauto.
  - left. match goal with Hx : updateChainSupport _ _ _ _ = Ok _ |- _ =>
      by apply updateChainSupport_Ok in Hx as (_ & ->) end.
  - left. match goal with Hx : pause _ _ = Ok _ |- _ =>
      by apply bridge_pause_Ok in Hx as -> end.
  - left. match goal with Hx : unpause _ _ = Ok _ |- _ =>
      by apply bridge_unpause_Ok in Hx as -> end.
  - left. match goal with Hx : transferOwnership _ _ _ = Ok _ |- _ =>
      by apply bridge_transferOwnership_Ok in Hx as -> end.
  - left. match goal with Hx : renounceOwnership _ _ = Ok _ |- _ =>
      by apply bridge_renounceOwnership_Ok in Hx as -> end.
Qed.

Lemma exec_keeps_proofs (e : Env) (c : Call) (w w' : World) (evs : list Event) :
  exec e c w = Ok (w', evs) ->
  (forall q v, c <> VerifyProof q v) ->
  verifiedProofs (bridge w') = verifiedProofs (bridge w).
Proof.
  intros H Hc. destruct (exec_proofs_frame _ _ _ _ _ H) as [Hsame|(q & v & -> & _)];
    [exact Hsame | by destruct (Hc q v)].
Qed.

Lemma apply_call_keeps_proof (w : World) (tx : Env * Call) (p : bytes32) :
  (forall v, snd tx <> VerifyProof p v) ->
  verifiedProofs_at (bridge (apply_call w tx)) p = verifiedProofs_at (bridge w) p.
Proof.
  intros Hc. destruct (apply_call_cases w tx) as [->|[evs H]]; [reflexivity|].
  unfold verifiedProofs_at.
  destruct (exec_proofs_frame _ _ _ _ _ H) as [->|(q & v & Hcall & ->)];
    [reflexivity|].
  rewrite lookup_insert_ne; [reflexivity|]. intros ->. by apply (Hc v).
Qed.

Lemma run_keeps_proof (txs : list (Env * Call)) (w : World) (p : bytes32) :
  Forall (fun tx => forall v, snd tx <> VerifyProof p v) txs ->
  verifiedProofs_at (bridge (run w txs)) p = verifiedProofs_at (bridge w) p.
Proof.
  revert w. induction txs as [|tx txs IH]; intros w Hall; [reflexivity|].
  inversion Hall as [|? ? Htx Hrest]; subst. simpl.
  rewrite IH by exact Hrest. by apply apply_call_keeps_proof.
Qed.

(** C10. A successful [executeIntent] or [settleIntent] leaves the registry
    of verified proofs as it was, and so does every transaction other than a
    [verifyProof] on that proof: a proof marked valid stays valid through any
    number of executions and settlements, and keeps authorizing them (the
    owner's [settleIntent] of an executed, unsettled intent succeeds, and the
    owner's [executeIntent] of an unexecuted intent reverts only if its
    purchase does). Only the bridge owner can call [verifyProof]; after the
    owner's [verifyProof(p, false)] the proof is marked invalid and every
    [executeIntent] and [settleIntent] citing it reverts, with
    "Invalid proof" / "Invalid settlement proof" once the guards before the
    proof check pass. *)
Theorem proofs_not_consumed (w : World) (p : bytes32) :
  (forall e id tok w' evs,
     exec e (ExecuteIntent id p tok) w = Ok (w', evs) ->
     verifiedProofs (bridge w') = verifiedProofs (bridge w)) /\
  (forall e id w' evs,
     exec e (SettleIntent id p) w = Ok (w', evs) ->
     verifiedProofs (bridge w') = verifiedProofs (bridge w)) /\
  (forall txs,
     Forall (fun tx => forall v, snd tx <> VerifyProof p v) txs ->
     verifiedProofs_at (bridge (run w txs)) p = verifiedProofs_at (bridge w) p) /\
  (forall txs e id tok,
     verifiedProofs_at (bridge w) p = true ->
     Forall (fun tx => forall v, snd tx <> VerifyProof p v) txs ->
     let w' := run w txs in
     let s' := bridge w' in
     owner s' = msg_sender e -> buyer (intent_at s' id) <> 0 ->
     (isExecuted (intent_at s' id) = true ->
      isSettled (intent_at s' id) = false ->
      exists w'' evs, exec e (SettleIntent id p) w' = Ok (w'', evs)) /\
     (isExecuted (intent_at s' id) = false ->
      reverts (exec e (ExecuteIntent id p tok) w') ->
      reverts (DataMarketplace.executePurchase (with_sender (self s') e)
                 (usdc w') (dataCoin w') (marketplace w')
                 (tokenId (intent_at s' id)) (amount (intent_at s' id)) tok))) /\
  (forall e v,
     owner (bridge w) <> msg_sender e ->
     exec e (VerifyProof p v) w
       = Err (OwnableUnauthorizedAccount (msg_sender e))) /\
  (forall e w' evs,
     exec e (VerifyProof p false) w = Ok (w', evs) ->
     verifiedProofs_at (bridge w') p = false /\
     forall e' id tok,
       let s' := bridge w' in
       reverts (exec e' (ExecuteIntent id p tok) w') /\
       reverts (exec e' (SettleIntent id p) w') /\
       (owner s' = msg_sender e' -> buyer (intent_at s' id) <> 0 ->
        isExecuted (intent_at s' id) = false ->
        exec e' (ExecuteIntent id p tok) w' = Err (Require "Invalid proof")) /\
       (owner s' = msg_sender e' -> buyer (intent_at s' id) <> 0 ->
        isExecuted (intent_at s' id) = true ->
        isSettled (intent_at s' id) = false ->
        exec e' (SettleIntent id p) w'
          = Err (Require "Invalid settlement proof"))).
Proof.
  split_and!.
  - intros e id tok w' evs H. by eapply exec_keeps_proofs.
  - intros e id w' evs H. by eapply exec_keeps_proofs.
  - intros txs Hall. by apply run_keeps_proof.
  - intros txs e id tok Hvalid Hall w' s' Hown Hex.
    assert (verifiedProofs_at s' p = true) as Hstill
      by (unfold s', w'; by rewrite run_keeps_proof).
    split.
    + intros Hdone Hopen. simpl. fold s'. unfold settleIntent.
      rewrite (bridge_onlyOwner_pass _ _ Hown). simpl.
      apply N.eqb_neq in Hex. rewrite Hex, Hdone, Hopen, Hstill. simpl.
      by eexists _, _.
    + intros Hnot [err Herr]. simpl in Herr. fold s' in Herr.
      rewrite (executeIntent_guards_pass e _ _ _ _ _ _ _ Hown Hex Hnot Hstill)
        in Herr.
      destruct (DataMarketplace.executePurchase _ _ _ _ _ _ _)
        as [[[[u d] m] pevs]|err'] eqn:Hp; [discriminate|].
      by exists err'.
  - intros e v Hne. simpl. unfold verifyProof.
    by rewrite (bridge_onlyOwner_Err _ _ Hne).
  - intros e w' evs H. exec_inv H.
    match goal with Hx : verifyProof _ _ _ _ = Ok _ |- _ =>
      apply verifyProof_Ok in Hx as (_ & _ & Hp) end.
    match goal with |- verifiedProofs_at ?b p = false /\ _ =>
      assert (verifiedProofs_at b p = false) as Hrevoked
        by (unfold verifiedProofs_at; rewrite Hp, lookup_insert_eq; reflexivity)
    end.
    split; [exact Hrevoked|].
    intros e' id tok. split_and!.
    + apply reverts_of_not_Ok. intros [w2 evs2] Hok. exec_inv Hok.
      match goal with Hx : executeIntent _ _ _ _ _ _ _ _ = Ok _ |- _ =>
        apply executeIntent_Ok in Hx as (_ & _ & _ & Hvalid & _) end.
      cbn [bridge with_bridge] in Hvalid. congruence.
    + apply reverts_of_not_Ok. intros [w2 evs2] Hok. exec_inv Hok.
      match goal with Hx : settleIntent _ _ _ _ = Ok _ |- _ =>
        apply settleIntent_Ok in Hx as (_ & _ & _ & _ & Hvalid & _) end.
      cbn [bridge with_bridge] in Hvalid. congruence.
    + intros Hown Hex Hnot. simpl. unfold executeIntent.
      rewrite (bridge_onlyOwner_pass _ _ Hown). simpl.
      apply N.eqb_neq in Hex. rewrite Hex, Hnot, Hrevoked. reflexivity.
    + intros Hown Hex Hdone Hopen. simpl. unfold settleIntent.
      rewrite (bridge_onlyOwner_pass _ _ Hown). simpl.
      apply N.eqb_neq in Hex. rewrite Hex, Hdone, Hopen, Hrevoked. reflexivity.
Qed.

Lemma proofs_not_consumed_witness :
  let e := Scenario.at_block Scenario.deployer 3000 7 in
  exists w1 evs1 w2 evs2,
    exec e (ExecuteIntent Scenario.intent Scenario.proof "tokA") Scenario.funded
      = Ok (w1, evs1) /\
    verifiedProofs (bridge w1) = verifiedProofs (bridge Scenario.funded) /\
    verifiedProofs_at (bridge w1) Scenario.proof = true /\
    exec e (VerifyProof Scenario.proof false) w1 = Ok (w2, evs2) /\
    verifiedProofs_at (bridge w2) Scenario.proof = false /\
    exec e (SettleIntent Scenario.intent Scenario.proof) w2
      = Err (Require "Invalid settlement proof") /\
    exists w3 evs3,
      exec e (SettleIntent Scenario.intent Scenario.proof)
        (run Scenario.funded
           [(e, ExecuteIntent Scenario.intent Scenario.proof "tokA")])
        = Ok (w3, evs3).
Proof.
  intros e.
  assert (exists w3 evs3,
            exec e (SettleIntent Scenario.intent Scenario.proof)
              (run Scenario.funded
                 [(e, ExecuteIntent Scenario.intent Scenario.proof "tokA")])
              = Ok (w3, evs3)) as Hsettled.
  { destruct (proofs_not_consumed Scenario.funded Scenario.proof)
      as (_ & _ & _ & Hauth & _).
    apply (Hauth [(e, ExecuteIntent Scenario.intent Scenario.proof "tokA")] e
             Scenario.intent "tokA").
    - reflexivity.
    - constructor; [intros v; discriminate | constructor].
    - reflexivity.
    - vm_compute. discriminate.
    - reflexivity.
    - reflexivity. }
  destruct (exec e (ExecuteIntent Scenario.intent Scenario.proof "tokA")
              Scenario.funded) as [[w1 evs1]|err] eqn:Hrun;
    [|vm_compute in Hrun; discriminate].
  destruct (proofs_not_consumed Scenario.funded Scenario.proof)
    as (Hexecute & _).
  pose proof (Hexecute _ _ _ _ _ Hrun) as Hkept.
  vm_compute in Hrun. injection Hrun as <- <-.
  match type of Hkept with
  | verifiedProofs (bridge ?w) = _ => set (w1 := w) in *
  end.
  destruct (exec e (VerifyProof Scenario.proof false) w1)
    as [[w2 evs2]|err] eqn:Hrevoke; [|vm_compute in Hrevoke; discriminate].
  destruct (proofs_not_consumed w1 Scenario.proof)
    as (_ & _ & _ & _ & _ & Hrevoked).
  destruct (Hrevoked _ _ _ Hrevoke) as (Hfalse & Hcalls).
  destruct (Hcalls e Scenario.intent "tokB") as (_ & _ & _ & Hsettle).
  vm_compute in Hrevoke. injection Hrevoke as <- <-.
  eexists _, _, _, _. split; [reflexivity|].
  split; [exact Hkept|]. split; [reflexivity|]. split; [reflexivity|].
  split; [exact Hfalse|].
  split; [|exact Hsettled].
  apply Hsettle; [reflexivity | vm_compute; discriminate | reflexivity | reflexivity].
Defined.

End ProofRegistry.

(** * Further properties *)

(** ** The history of a dataset *)

Section DatasetHistory.
Import DataCoin.

(** What one step of the registry can do to a dataset that is minted. *)
Lemma registry_step_dataset (s s' : State) (tokenId : uint256) :
  registry_step s s' -> minted s tokenId ->
  minted s' tokenId /\
  cid (dataset_at s' tokenId) = cid (dataset_at s tokenId) /\
  name (dataset_at s' tokenId) = name (dataset_at s tokenId) /\
  description (dataset_at s' tokenId) = description (dataset_at s tokenId) /\
  creator (dataset_at s' tokenId) = creator (dataset_at s tokenId) /\
  createdAt (dataset_at s' tokenId) = createdAt (dataset_at s tokenId) /\
  totalSupply (dataset_at s' tokenId) = totalSupply (dataset_at s tokenId) /\
  soldSupply (dataset_at s tokenId) <= soldSupply (dataset_at s' tokenId) /\
  (isActive (dataset_at s tokenId) = false ->
   isActive (dataset_at s' tokenId) = false).
Proof.
  unfold minted. intros Hstep Hminted.
  destruct Hstep as [ | e to c n d p pol maxSupply accepts id s' evs H
    | e t newPrice pol s' evs H | e t b amount s' evs H
    | e t s' H | e newOwner s' H | e s' H ].
  - split_and!; done || lia.
  - apply mintDataset_Ok in H as (_ & _ & _ & _ & _ & _ & _ & _ & Hfresh & ->).
    assert (id <> tokenId) as Hne by congruence.
    unfold _ownerOf, dataset_at in *. simpl.
    rewrite !lookup_insert_ne by done. split_and!; done || lia.
  - apply updateDataset_Ok in H as (_ & _ & _ & ->).
    unfold _ownerOf, dataset_at in *. simpl. rewrite lookup_insert.
    case_decide; subst; simpl; split_and!; done || lia.
  - apply grantAccess_Ok in H as (_ & _ & _ & _ & -> & _).
    unfold _ownerOf, dataset_at in *. simpl. rewrite lookup_insert.
    case_decide; subst; simpl; split_and!; done || lia.
  - apply deactivateDataset_Ok in H as (_ & _ & ->).
    unfold _ownerOf, dataset_at in *. simpl. rewrite lookup_insert.
    case_decide; subst; simpl; split_and!; done || lia.
  - apply transferOwnership_Ok in H as (_ & _ & ->).
    split_and!; done || lia.
  - apply renounceOwnership_Ok in H as (_ & ->).
    split_and!; done || lia.
Qed.

(** X1. Once minted, a dataset keeps its content reference, name,
    description, creator, creation time and total supply through every
    sequence of transactions; it stays minted, and its sold supply never
    decreases. *)
Theorem dataset_identity_is_immutable (w : World) (txs : list (Env * Call))
    (tokenId : uint256) :
  minted (dataCoin w) tokenId ->
  let before := dataset_at (dataCoin w) tokenId in
  let after := dataset_at (dataCoin (run w txs)) tokenId in
  minted (dataCoin (run w txs)) tokenId /\
  cid after = cid before /\ name after = name before /\
  description after = description before /\
  creator after = creator before /\ createdAt after = createdAt before /\
  totalSupply after = totalSupply before /\
  soldSupply before <= soldSupply after.
Proof.
  revert w. induction txs as [|tx txs IH]; intros w Hminted; simpl.
  - split_and!; done || lia.
  - destruct (registry_step_dataset _ _ tokenId (apply_call_registry_step w tx)
                Hminted) as (Hm & Hc & Hn & Hd & Hcr & Hat & Hts & Hss & _).
    destruct (IH _ Hm) as (Hm' & Hc' & Hn' & Hd' & Hcr' & Hat' & Hts' & Hss').
    split_and!; try congruence. lia.
Qed.

Lemma dataset_identity_is_immutable_witness :
  let after := dataset_at (dataCoin Scenario.purchased) 1 in
  cid after = "QmTest123" /\ creator after = Scenario.deployer /\
  totalSupply after = 0 /\ 0 <= soldSupply after.
Proof.
  pose proof (dataset_identity_is_immutable
                (run (deploy Scenario.deployer Scenario.marketplaceAddress
                        Scenario.bridgeAddress)
                     [hd Scenario.purchase (Scenario.setup 0)])
                (tl Scenario.purchased_txs) 1) as H.
  destruct H as (_ & Hc & _ & _ & Hcr & _ & Hts & Hss);
    [vm_compute; discriminate|].
  split; [exact Hc|]. split; [exact Hcr|]. split; [exact Hts|exact Hss].
Defined.

(** X2. Deactivation is permanent: a minted dataset that is inactive stays
    inactive through every sequence of transactions, and from then on every
    [executePurchase] and [createIntent] for it reverts, as does every
    [executeIntent] of an intent that names it. *)
Theorem deactivation_is_permanent (w : World) (txs : list (Env * Call))
    (tokenId : uint256) :
  minted (dataCoin w) tokenId ->
  isActive (dataset_at (dataCoin w) tokenId) = false ->
  let w' := run w txs in
  isActive (dataset_at (dataCoin w') tokenId) = false /\
  (forall e amount tok,
     reverts (exec e (ExecutePurchase tokenId amount tok) w')) /\
  (forall e amount src dst,
     reverts (exec e (CreateIntent tokenId amount src dst) w')) /\
  (forall e id proofHash tok,
     CrossChainBridge.tokenId (CrossChainBridge.intent_at (bridge w') id)
       = tokenId ->
     reverts (exec e (ExecuteIntent id proofHash tok) w')).
Proof.
  intros Hminted Hinactive w'.
  assert (minted (dataCoin w') tokenId /\
          isActive (dataset_at (dataCoin w') tokenId) = false) as [Hm Hoff].
  { unfold w'.
    apply (run_invariant
             (fun w => minted (dataCoin w) tokenId /\
                       isActive (dataset_at (dataCoin w) tokenId) = false));
      [|by split].
    intros w0 tx [Hm0 Hoff0].
    destruct (registry_step_dataset _ _ tokenId
                (apply_call_registry_step w0 tx) Hm0)
      as (Hm1 & _ & _ & _ & _ & _ & _ & _ & Hoff1). auto. }
  assert (forall e amount tok,
            reverts (DataMarketplace.executePurchase e (usdc w') (dataCoin w')
                       (marketplace w') tokenId amount tok)) as Hpurchase.
  { intros e amount tok. apply reverts_of_not_Ok.
    intros [[[u d] m] evs] Hok. apply executePurchase_Ok in Hok.
    cbv zeta in Hok. destruct Hok as (dataset & u1 & g & Hok).
    destruct Hok as (_ & Hget & Hact & _).
    apply getDatasetInfo_Ok in Hget as [_ ->]. congruence. }
  clearbody w'. split; [exact Hoff|]. split_and!.
  - intros e amount tok. destruct (Hpurchase e amount tok) as [err Herr].
    exists err. simpl. by rewrite Herr.
  - intros e amount src dst. apply reverts_of_not_Ok.
    intros [w2 evs] Hok. exec_inv Hok.
    match goal with
    | Hx : CrossChainBridge.createIntent _ _ _ _ _ _ _ = Ok _ |- _ =>
        apply createIntent_Ok in Hx as (_ & _ & _ & _ & _ & Hact & _)
    end.
    congruence.
  - intros e id proofHash tok <-. apply reverts_of_not_Ok.
    intros [w2 evs] Hok. exec_inv Hok.
    match goal with
    | Hx : CrossChainBridge.executeIntent _ _ _ _ _ _ _ _ = Ok _ |- _ =>
        apply executeIntent_purchase in Hx as [pevs Hx];
        destruct (Hpurchase
                    (with_sender (CrossChainBridge.self (bridge w')) e)
                    (CrossChainBridge.amount
                       (CrossChainBridge.intent_at (bridge w') id)) tok)
          as [err Herr];
        congruence
    end.
Qed.

Lemma deactivation_is_permanent_witness :
  let w' := run Scenario.deactivated [Scenario.purchase] in
  isActive (dataset_at (dataCoin w') 1) = false /\
  reverts (exec (Scenario.at_block Scenario.buyer 4000 9)
             (ExecutePurchase 1 1 "token") w') /\
  reverts (exec (Scenario.at_block Scenario.buyer 4000 9)
             (CreateIntent 1 1 1 137) w').
Proof.
  pose proof (deactivation_is_permanent Scenario.deactivated
                [Scenario.purchase] 1) as H.
  destruct H as (Hoff & Hpurchase & Hintent & _);
    [vm_compute; discriminate | reflexivity |].
  split; [exact Hoff|]. split; [apply Hpurchase | apply Hintent].
Defined.

End DatasetHistory.

(** ** The registry's indices *)

Section RegistryIndices.
Import DataCoin.

(** A step of the registry either mints the next identifier or leaves the
    token owners, the counter, the content index and every content reference
    as they were. *)
Lemma registry_step_indices (s s' : State) :
  registry_step s s' ->
  (_owners s' = _owners s /\ _tokenIds s' = _tokenIds s /\
   cidToTokenId s' = cidToTokenId s /\
   forall tokenId, cid (dataset_at s' tokenId) = cid (dataset_at s tokenId)) \/
  (exists to c info,
     to <> 0 /\ c <> EmptyString /\ cidToTokenId_at s c = 0 /\
     _ownerOf s (_tokenIds s + 1) = 0 /\ cid info = c /\
     _tokenIds s' = _tokenIds s + 1 /\
     _owners s' = <[_tokenIds s + 1 := to]> (_owners s) /\
     cidToTokenId s' = <[c := _tokenIds s + 1]> (cidToTokenId s) /\
     datasets s' = <[_tokenIds s + 1 := info]> (datasets s)).
Proof.
  intros Hstep.
  destruct Hstep as [ | e to c n d p pol maxSupply accepts id s' evs H
    | e t newPrice pol s' evs H | e t b amount s' evs H
    | e t s' H | e newOwner s' H | e s' H ].
  - by left.
  - right.
    apply mintDataset_Ok in H as (_ & Hc & _ & _ & Hfree & -> & _ & Hto & Hnew & ->).
    eexists to, c, _. simpl. split_and!; try done; reflexivity.
  - left. apply updateDataset_Ok in H as (_ & _ & _ & ->). simpl.
    split_and!; try done. intros tokenId. unfold dataset_at. simpl.
    rewrite lookup_insert. case_decide; subst; done.
  - left. apply grantAccess_Ok in H as (_ & _ & _ & _ & -> & _). simpl.
    split_and!; try done. intros tokenId. unfold dataset_at. simpl.
    rewrite lookup_insert. case_decide; subst; done.
  - left. apply deactivateDataset_Ok in H as (_ & _ & ->). simpl.
    split_and!; try done. intros tokenId. unfold dataset_at. simpl.
    rewrite lookup_insert. case_decide; subst; done.
  - left. apply transferOwnership_Ok in H as (_ & _ & ->). simpl.
    split_and!; done.
  - left. apply renounceOwnership_Ok in H as (_ & ->). simpl.
    split_and!; done.
Qed.

Lemma registry_step_ids_dense (s s' : State) :
  registry_step s s' -> ids_dense s -> ids_dense s'.
Proof.
  intros Hstep Hdense tokenId. unfold minted.
  destruct (registry_step_indices _ _ Hstep)
    as [(Ho & Hn & _)|(to & c & info & Hto & _ & _ & _ & _ & Hn & Ho & _)].
  - unfold _ownerOf. rewrite Ho, Hn. apply Hdense.
  - unfold _ownerOf. rewrite Ho, Hn, lookup_insert.
    specialize (Hdense tokenId). unfold minted, _ownerOf in Hdense.
    case_decide; subst; simpl; [split; [lia | done]|].
    rewrite Hdense. lia.
Qed.

Lemma registry_step_cid_index (s s' : State) :
  registry_step s s' -> ids_dense s -> cid_index_consistent s ->
  cid_index_consistent s'.
Proof.
  intros Hstep Hdense [Hfwd Hback].
  destruct (registry_step_indices _ _ Hstep)
    as [(Ho & Hn & Hc & Hcid)
       |(to & c & info & Hto & Hc0 & Hfree & Hnew & Hinfo & Hn & Ho & Hc & Hd)].
  - unfold cid_index_consistent, minted, _ownerOf, cidToTokenId_at in *.
    rewrite Ho, Hc. split.
    + intros tokenId Hm. rewrite Hcid. by apply Hfwd.
    + intros c Hc'. rewrite Hcid. by apply Hback.
  - assert (forall tokenId, minted s tokenId -> tokenId <> _tokenIds s + 1)
      as Hold by (intros tokenId Hm ->; by apply Hm).
    unfold cid_index_consistent, minted, _ownerOf, cidToTokenId_at, dataset_at
      in *.
    rewrite Ho, Hc, Hd. split.
    + intros tokenId. rewrite !lookup_insert.
      case_decide as Hid; subst; simpl.
      * intros _. rewrite decide_True by done. done.
      * intros Hm. specialize (Hfwd _ Hm).
        case_decide as Hcc; simpl; [|exact Hfwd].
        rewrite Hcc, Hfwd in Hfree.
        apply Hdense in Hm. lia.
    + intros c'. rewrite !(lookup_insert (cidToTokenId s)).
      case_decide as Hcc; subst; simpl.
      * intros _. rewrite !lookup_insert_eq. simpl. done.
      * intros Hc'. destruct (Hback _ Hc') as [Hm Hcid].
        rewrite !lookup_insert_ne by (apply not_eq_sym, Hold, Hm). done.
Qed.

Lemma registry_indices_reachable
    (deployer marketplaceAddress bridgeAddress : address)
    (txs : list (Env * Call)) :
  let s := dataCoin (run (deploy deployer marketplaceAddress bridgeAddress) txs) in
  ids_dense s /\ cid_index_consistent s.
Proof.
  apply (run_invariant
           (fun w => ids_dense (dataCoin w) /\ cid_index_consistent (dataCoin w))).
  - intros w tx [Hdense Hcid].
    pose proof (apply_call_registry_step w tx) as Hstep. split.
    + by eapply registry_step_ids_dense.
    + by eapply registry_step_cid_index.
  - split.
    + intros tokenId. unfold minted, _ownerOf. simpl. rewrite lookup_empty.
      simpl. split; [done | lia].
    + split.
      * intros tokenId Hm. by destruct Hm.
      * intros c Hc. by destruct Hc.
Qed.

Lemma run_tokenIds (txs : list (Env * Call)) (w : World) :
  _tokenIds (dataCoin (run w txs))
    = _tokenIds (dataCoin w) + N.of_nat (length (minted_ids w txs)).
Proof.
  revert w. induction txs as [|tx txs IH]; intros w; simpl; [lia|].
  rewrite IH, length_app.
  destruct (returned_mint_id_step w tx) as [[-> ->]|[-> ->]]; simpl; lia.
Qed.

(** X3. In every state reachable from deployment the minted tokens are exactly
    the identifiers [1 .. totalSupply()], and [totalSupply()] is the number of
    successful mints so far; [getDatasetInfo] returns the stored dataset for
    these identifiers and reverts with [ERC721NonexistentToken] for every
    other one, identifier 0 included. *)
Theorem minted_ids_are_dense
    (deployer marketplaceAddress bridgeAddress : address)
    (txs : list (Env * Call)) (tokenId : uint256) :
  let w0 := deploy deployer marketplaceAddress bridgeAddress in
  let s := dataCoin (run w0 txs) in
  tokenCount s = N.of_nat (length (minted_ids w0 txs)) /\
  (minted s tokenId <-> 1 <= tokenId <= tokenCount s) /\
  (1 <= tokenId <= tokenCount s ->
   getDatasetInfo s tokenId = Ok (dataset_at s tokenId)) /\
  (tokenId = 0 \/ tokenCount s < tokenId ->
   getDatasetInfo s tokenId = Err (ERC721NonexistentToken tokenId)).
Proof.
  intros w0 s.
  destruct (registry_indices_reachable deployer marketplaceAddress
              bridgeAddress txs) as [Hdense _].
  fold w0 in Hdense. fold s in Hdense. unfold tokenCount. split_and!.
  - unfold s. rewrite run_tokenIds. simpl. lia.
  - apply Hdense.
  - intros Hrange. apply getDatasetInfo_exists. by apply Hdense.
  - intros Hout. apply getDatasetInfo_absent.
    destruct (N.eq_dec (_ownerOf s tokenId) 0) as [Hz|Hnz]; [exact Hz|].
    apply Hdense in Hnz. lia.
Qed.

Lemma minted_ids_are_dense_witness :
  let s := dataCoin Scenario.purchased in
  tokenCount s = 1 /\
  getDatasetInfo s 1 = Ok (dataset_at s 1) /\
  getDatasetInfo s 0 = Err (ERC721NonexistentToken 0) /\
  getDatasetInfo s 2 = Err (ERC721NonexistentToken 2).
Proof.
  intros s.
  pose proof (minted_ids_are_dense Scenario.deployer
                Scenario.marketplaceAddress Scenario.bridgeAddress
                Scenario.purchased_txs) as H.
  destruct (H 1) as (Hcount & _ & Hin & _).
  destruct (H 0) as (_ & _ & _ & Hzero).
  destruct (H 2) as (_ & _ & _ & Hout).
  split; [exact Hcount|].
  split; [apply Hin; vm_compute; split; discriminate|].
  split; [apply Hzero; by left | apply Hout; right; reflexivity].
Defined.

(** X4. In every state reachable from deployment the content index is the
    inverse of the datasets' content references: [cidToTokenId] of a minted
    dataset's reference is that dataset, a reference indexed to a non-zero
    identifier belongs to that minted dataset, so [cidExists] holds exactly
    for the references of minted datasets and no two minted datasets share a
    reference. *)
Theorem content_index_round_trip
    (deployer marketplaceAddress bridgeAddress : address)
    (txs : list (Env * Call)) :
  let s := dataCoin (run (deploy deployer marketplaceAddress bridgeAddress) txs) in
  (forall tokenId, minted s tokenId ->
     cidToTokenId_at s (cid (dataset_at s tokenId)) = tokenId) /\
  (forall c, cidExists s c = true <->
     exists tokenId, minted s tokenId /\ cid (dataset_at s tokenId) = c) /\
  (forall a b, minted s a -> minted s b ->
     cid (dataset_at s a) = cid (dataset_at s b) -> a = b).
Proof.
  intros s.
  destruct (registry_indices_reachable deployer marketplaceAddress
              bridgeAddress txs) as [Hdense [Hfwd Hback]].
  fold s in Hdense, Hfwd, Hback. split_and!.
  - exact Hfwd.
  - intros c. unfold cidExists. rewrite negb_true_iff, N.eqb_neq. split.
    + intros Hc. destruct (Hback _ Hc) as [Hm Hcid]. eauto.
    + intros (tokenId & Hm & <-). rewrite (Hfwd _ Hm).
      apply Hdense in Hm. lia.
  - intros a b Ha Hb Heq. rewrite <- (Hfwd _ Ha), <- (Hfwd _ Hb). by rewrite Heq.
Qed.

Lemma content_index_round_trip_witness :
  let s := dataCoin Scenario.purchased in
  cidToTokenId_at s (cid (dataset_at s 1)) = 1 /\
  cidExists s "QmTest123" = true.
Proof.
  intros s.
  destruct (content_index_round_trip Scenario.deployer
              Scenario.marketplaceAddress Scenario.bridgeAddress
              Scenario.purchased_txs) as (Hfwd & Hexists & _).
  split; [apply Hfwd; vm_compute; discriminate|].
  apply Hexists. exists 1. split; [vm_compute; discriminate | reflexivity].
Defined.

End RegistryIndices.

(** ** The marketplace's ledger *)

Section MarketplaceLedger.
Import DataMarketplace.

(** A successful transaction is a sale, entered directly or through the
    bridge, or it leaves the marketplace's ledger alone. *)
Lemma exec_sale_or_quiet (e : Env) (c : Call) (w w' : World) (evs : list Event) :
  exec e c w = Ok (w', evs) ->
  (exists e' tokenId amount tok pevs,
     block_timestamp e' = block_timestamp e /\
     block_number e' = block_number e /\
     executePurchase e' (usdc w) (dataCoin w) (marketplace w) tokenId amount tok
       = Ok (usdc w', dataCoin w', marketplace w', pevs)) \/
  (registry_step (dataCoin w) (dataCoin w') /\
   ledger_kept (marketplace w) (marketplace w') /\
   (platformFeeBps (marketplace w') = platformFeeBps (marketplace w) \/
    fee_capped (marketplace w'))).
Proof.
  intros H. pose proof (exec_registry_step _ _ _ _ _ H) as Hreg.
  destruct c;
    try (right; split; [exact Hreg|]; clear Hreg; exec_inv H;
         by (split; [done | by left])).
  - left. exec_inv H. eexists e, _, _, _, _. split_and!; try done; simpl; eauto.
  - right. split; [exact Hreg|]. clear Hreg. exec_inv H.
    match goal with Hx : updatePlatformFee _ _ _ = Ok _ |- _ =>
      unfold updatePlatformFee in Hx; ok_steps Hx; inversion Hx; subst; clear Hx
    end.
    norm_checks. split; [done|]. right. unfold fee_capped. simpl. done.
  - right. split; [exact Hreg|]. clear Hreg. exec_inv H.
    match goal with Hx : pause _ _ = Ok _ |- _ =>
      apply marketplace_pause_Ok in Hx as -> end.
    split; [done | by left].
  - right. split; [exact Hreg|]. clear Hreg. exec_inv H.
    match goal with Hx : unpause _ _ = Ok _ |- _ =>
      apply marketplace_unpause_Ok in Hx as -> end.
    split; [done | by left].
  - right. split; [exact Hreg|]. clear Hreg. exec_inv H.
    match goal with Hx : transferOwnership _ _ _ = Ok _ |- _ =>
      apply marketplace_transferOwnership_Ok in Hx as -> end.
    split; [done | by left].
  - right. split; [exact Hreg|]. clear Hreg. exec_inv H.
    match goal with Hx : renounceOwnership _ _ = Ok _ |- _ =>
      apply marketplace_renounceOwnership_Ok in Hx as -> end.
    split; [done | by left].
  - left. exec_inv H.
    match goal with
    | Hx : CrossChainBridge.executeIntent _ _ _ _ _ _ _ _ = Ok _ |- _ =>
        apply executeIntent_purchase in Hx as [pevs Hx]
    end.
    eexists (with_sender _ e), _, _, _, _. split_and!; try done; simpl; eauto.
Qed.

Lemma apply_call_sale_or_quiet (w : World) (tx : Env * Call) :
  (exists e' tokenId amount tok pevs,
     executePurchase e' (usdc w) (dataCoin w) (marketplace w) tokenId amount tok
       = Ok (usdc (apply_call w tx), dataCoin (apply_call w tx),
             marketplace (apply_call w tx), pevs)) \/
  (registry_step (dataCoin w) (dataCoin (apply_call w tx)) /\
   ledger_kept (marketplace w) (marketplace (apply_call w tx)) /\
   (platformFeeBps (marketplace (apply_call w tx))
      = platformFeeBps (marketplace w) \/
    fee_capped (marketplace (apply_call w tx)))).
Proof.
  destruct (apply_call_cases w tx) as [->|[evs H]].
  - right. split; [apply rs_same|]. split; [done | by left].
  - apply exec_sale_or_quiet in H
      as [(e' & tokenId & amount & tok & pevs & _ & _ & H)|H].
    + left. eauto 10.
    + by right.
Qed.

(** What a sale does to the three ledgers. *)
Lemma executePurchase_effects (e : Env) (t t' : Currency.State)
    (dc dc' : DataCoin.State) (s s' : State) (tokenId amount : uint256)
    (tok : string) (evs : list Event) :
  executePurchase e t dc s tokenId amount tok = Ok (t', dc', s', evs) ->
  let d := DataCoin.dataset_at dc tokenId in
  let purchaseId := (tokenId, msg_sender e, amount, block_timestamp e,
                     block_number e) in
  minted dc tokenId /\ 0 < amount /\ 0 < DataCoin.price d /\
  DataCoin.owner dc = self s /\
  self s' = self s /\ owner s' = owner s /\ paused s' = paused s /\
  platformFeeBps s' = platformFeeBps s /\
  purchases s' =
    <[purchaseId := {| tokenId := tokenId; buyer := msg_sender e;
                       amount := amount; price := DataCoin.price d;
                       timestamp := block_timestamp e; isActive := true;
                       accessToken := tok |}]> (purchases s) /\
  buyerPurchases s' =
    <[msg_sender e := buyerPurchases_at s (msg_sender e) ++ [purchaseId]]>
      (buyerPurchases s) /\
  tokenSales s' = <[tokenId := tokenSales_at s tokenId + amount]> (tokenSales s) /\
  DataCoin._owners dc' = DataCoin._owners dc /\
  DataCoin.owner dc' = DataCoin.owner dc /\
  DataCoin._tokenIds dc' = DataCoin._tokenIds dc /\
  DataCoin.soldSupply (DataCoin.dataset_at dc' tokenId)
    = DataCoin.soldSupply d + amount /\
  (forall other, other <> tokenId ->
     DataCoin.dataset_at dc' other = DataCoin.dataset_at dc other).
Proof.
  intros H. pose proof (executePurchase_needs_registry_ownership _ _ _ _ _ _ _ _ _ _ _ H)
    as Howner.
  apply executePurchase_Ok in H. cbv zeta in H.
  destruct H as (dataset & usdc1 & granted & Hp & Hinfo & Hact & Hfit & Hnz &
                 Hbal & Hscaled & Hfee & Hfrom & Hto & Hsales & Hgrant & Hexp &
                 -> & ->).
  apply getDatasetInfo_Ok in Hinfo as [Hminted ->].
  apply grantAccess_Ok in Hgrant as (_ & _ & _ & _ & -> & _).
  cbv zeta. simpl. split_and!; try done.
  - destruct (N.eq_dec amount 0) as [->|]; [|lia].
    rewrite N.mul_0_r in Hnz. done.
  - destruct (N.eq_dec (DataCoin.price (DataCoin.dataset_at dc tokenId)) 0)
      as [Hz|]; [|lia].
    rewrite Hz, N.mul_0_l in Hnz. done.
  - unfold DataCoin.dataset_at. simpl. by rewrite lookup_insert_eq.
  - intros other Hne. unfold DataCoin.dataset_at. simpl.
    by rewrite lookup_insert_ne.
Qed.

Lemma registry_step_minted (s s' : DataCoin.State) (tokenId : uint256) :
  registry_step s s' -> minted s tokenId -> minted s' tokenId.
Proof. intros Hstep Hm. by apply (registry_step_dataset _ _ _ Hstep Hm). Qed.

Lemma fee_capped_reachable (deployer marketplaceAddress bridgeAddress : address)
    (txs : list (Env * Call)) :
  let w := run (deploy deployer marketplaceAddress bridgeAddress) txs in
  fee_capped (marketplace w) /\ self (marketplace w) = marketplaceAddress.
Proof.
  apply (run_invariant
           (fun w => fee_capped (marketplace w) /\
                     self (marketplace w) = marketplaceAddress)).
  - intros w tx [Hfee Hself].
    destruct (apply_call_sale_or_quiet w tx)
      as [(e' & tokenId & amount & tok & pevs & H)
         |(_ & (Hs & _) & [Hsame|Hcap])].
    + apply executePurchase_effects in H. cbv zeta in H.
      destruct H as (_ & _ & _ & _ & Hs & _ & _ & Hf & _).
      unfold fee_capped. rewrite Hf, Hs. done.
    + unfold fee_capped. rewrite Hsame, Hs. done.
    + rewrite Hs. done.
  - unfold fee_capped. simpl. split; [|done]. vm_compute. discriminate.
Qed.

(** X5. In every state reachable from deployment the platform fee is at most
    1000 basis points, so every successful purchase reports, in its
    [PurchaseExecuted] event, a fee of at most a tenth of the cost and a
    creator revenue of at least nine tenths of it, the two adding up to the
    cost [price * amount]. *)
Theorem creator_keeps_nine_tenths
    (deployer marketplaceAddress bridgeAddress : address)
    (txs : list (Env * Call)) (e : Env) (tokenId amount : uint256)
    (tok : string) (w' : World) (evs : list Event) :
  let w := run (deploy deployer marketplaceAddress bridgeAddress) txs in
  exec e (ExecutePurchase tokenId amount tok) w = Ok (w', evs) ->
  platformFeeBps (marketplace w) <= 1000 /\
  exists granted purchaseId price platformFee creatorRevenue expiry,
    evs = granted ++
          [PurchaseExecuted purchaseId tokenId (msg_sender e) amount price
             platformFee creatorRevenue;
           AccessTokenGenerated purchaseId tok expiry] /\
    price = DataCoin.price (DataCoin.dataset_at (dataCoin w) tokenId) /\
    platformFee + creatorRevenue = price * amount /\
    10 * platformFee <= price * amount /\
    9 * (price * amount) <= 10 * creatorRevenue.
Proof.
  intros w H.
  destruct (fee_capped_reachable deployer marketplaceAddress bridgeAddress txs)
    as [Hcap _].
  fold w in Hcap. split; [exact Hcap|].
  exec_inv H.
  match goal with Hx : executePurchase _ _ _ _ _ _ _ = Ok _ |- _ =>
    apply executePurchase_Ok in Hx; cbv zeta in Hx;
    destruct Hx as (dataset & usdc1 & granted & _ & Hinfo & _ & _ & _ & _ & _ &
                    Hfee & _ & _ & _ & _ & _ & _ & ->)
  end.
  apply getDatasetInfo_Ok in Hinfo as [_ ->].
  pose proof (fee_at_most_tenth
                (DataCoin.price (DataCoin.dataset_at (dataCoin w) tokenId) * amount)
                (platformFeeBps (marketplace w)) Hcap) as Htenth.
  eexists granted, _, _, _, _, _. split; [reflexivity|].
  split; [reflexivity|]. split_and!; lia.
Qed.

Lemma creator_keeps_nine_tenths_witness :
  exists w' evs,
    exec (fst Scenario.purchase) (snd Scenario.purchase) (Scenario.ready 0)
      = Ok (w', evs) /\
    platformFeeBps (marketplace (Scenario.ready 0)) <= 1000.
Proof.
  destruct (exec (fst Scenario.purchase) (snd Scenario.purchase)
              (Scenario.ready 0)) as [[w' evs]|err] eqn:Hexec;
    [|vm_compute in Hexec; discriminate].
  exists w', evs. split; [reflexivity|].
  exact (proj1 (creator_keeps_nine_tenths Scenario.deployer
                  Scenario.marketplaceAddress Scenario.bridgeAddress
                  (Scenario.setup 0) _ _ _ _ _ _ Hexec)).
Defined.

Lemma sales_within_supply_step (w : World) (tx : Env * Call) :
  sales_within_supply w -> sales_within_supply (apply_call w tx).
Proof.
  intros Hinv tokenId. destruct (Hinv tokenId) as [Hle Hzero].
  destruct (apply_call_sale_or_quiet w tx)
    as [(e' & sold & amount & tok & pevs & H)|(Hreg & (_ & _ & _ & Hs) & _)].
  - apply executePurchase_effects in H. cbv zeta in H.
    destruct H as (Hminted & _ & _ & _ & _ & _ & _ & _ & _ & _ & Hsales & Ho &
                   _ & _ & Hsold & Hother).
    unfold tokenSales_at, DataCoin._ownerOf. rewrite Hsales, Ho.
    rewrite lookup_insert. case_decide as Heq; simpl.
    + subst sold. rewrite Hsold.
      split; [lia|]. intros Hz. by destruct Hminted.
    + rewrite Hother by done. done.
  - unfold tokenSales_at in *. rewrite Hs. split.
    + destruct (N.eq_dec (DataCoin._ownerOf (dataCoin w) tokenId) 0) as [Hz|Hnz].
      * rewrite (Hzero Hz). lia.
      * pose proof (registry_step_dataset _ _ tokenId Hreg Hnz)
          as (_ & _ & _ & _ & _ & _ & _ & Hgrow & _). lia.
    + intros Hz. apply Hzero.
      destruct (N.eq_dec (DataCoin._ownerOf (dataCoin w) tokenId) 0)
        as [Hz'|Hnz]; [done|].
      by destruct (registry_step_minted _ _ tokenId Hreg Hnz).
Qed.

(** X6. In every state reachable from deployment the sales counter the
    marketplace keeps for a dataset ([getTokenSales]) is at most the sold
    supply the registry keeps for it, and is zero for an identifier that was
    never minted: every unit the marketplace sold was granted in the
    registry. *)
Theorem sales_are_granted
    (deployer marketplaceAddress bridgeAddress : address)
    (txs : list (Env * Call)) (tokenId : uint256) :
  let w := run (deploy deployer marketplaceAddress bridgeAddress) txs in
  getTokenSales (marketplace w) tokenId
    <= DataCoin.soldSupply (DataCoin.dataset_at (dataCoin w) tokenId) /\
  (DataCoin.getDatasetInfo (dataCoin w) tokenId
     = Err (ERC721NonexistentToken tokenId) ->
   getTokenSales (marketplace w) tokenId = 0).
Proof.
  intros w.
  assert (sales_within_supply w) as Hinv.
  { apply run_invariant; [apply sales_within_supply_step|].
    intros t. unfold tokenSales_at. simpl. rewrite lookup_empty. simpl.
    split; [lia | done]. }
  destruct (Hinv tokenId) as [Hle Hzero]. split; [exact Hle|].
  intros Herr. apply Hzero.
  destruct (N.eq_dec (DataCoin._ownerOf (dataCoin w) tokenId) 0) as [Hz|Hnz];
    [done|].
  rewrite getDatasetInfo_exists in Herr by done. discriminate.
Qed.

Lemma purchases_wellformed_step (w : World) (tx : Env * Call) :
  purchases_wellformed w -> purchases_wellformed (apply_call w tx).
Proof.
  intros [Hrec Hidx].
  destruct (apply_call_sale_or_quiet w tx)
    as [(e' & sold & amount & tok & pevs & H)|(Hreg & (_ & Hp & Hb & _) & _)].
  - apply executePurchase_effects in H. cbv zeta in H.
    destruct H as (Hminted & Hamount & Hprice & _ & _ & _ & _ & _ & Hp & Hb &
                   _ & Ho & _).
    assert (forall t, minted (dataCoin w) t -> minted (dataCoin (apply_call w tx)) t)
      as Hkeep by (intros t; unfold minted, DataCoin._ownerOf; by rewrite Ho).
    split.
    + intros id r. rewrite Hp, lookup_insert. case_decide as Heq.
      * intros [= <-]. simpl. subst id. split_and!; eauto.
      * intros Hr. destruct (Hrec _ _ Hr) as (Hid & Hact & Ha & Hpr & Hm).
        split_and!; eauto.
    + intros b id. unfold buyerPurchases_at. rewrite Hb, Hp.
      rewrite (lookup_insert (buyerPurchases (marketplace w))).
      case_decide as Heq; simpl.
      * subst b. rewrite in_app_iff. simpl. intros [Hin|[<-|[]]].
        -- rewrite lookup_insert. case_decide as Hid; [by eexists|].
           by apply Hidx.
        -- rewrite lookup_insert_eq. by eexists.
      * intros Hin. destruct (Hidx _ _ Hin) as (r & Hr & Hbuyer).
        rewrite lookup_insert. case_decide as Hid; [|by eexists].
        subst id. destruct (Hrec _ _ Hr) as ((bn & Hid) & _).
        injection Hid as _ Hbuy _ _ _. congruence.
  - split.
    + intros id r. rewrite Hp. intros Hr.
      destruct (Hrec _ _ Hr) as (Hid & Hact & Ha & Hpr & Hm).
      split_and!; eauto using registry_step_minted.
    + intros b id. unfold buyerPurchases_at. rewrite Hb, Hp. apply Hidx.
Qed.

(** X7. In every state reachable from deployment every purchase record is
    active, is stored under the identifier derived from its own fields (token,
    buyer, amount, timestamp), and is for a positive amount of a minted
    dataset at a positive price; every identifier returned by
    [getBuyerPurchases] for a buyer has a record of that buyer, which
    [getPurchase] returns. *)
Theorem purchase_ledger_is_wellformed
    (deployer marketplaceAddress bridgeAddress : address)
    (txs : list (Env * Call)) :
  let w := run (deploy deployer marketplaceAddress bridgeAddress) txs in
  (forall id r, purchases (marketplace w) !! id = Some r ->
     getPurchase (marketplace w) id = r /\
     (exists blockNumber,
        id = (tokenId r, buyer r, amount r, timestamp r, blockNumber)) /\
     isActive r = true /\ 0 < amount r /\ 0 < price r /\
     minted (dataCoin w) (tokenId r)) /\
  (forall b id, In id (getBuyerPurchases (marketplace w) b) ->
     buyer (getPurchase (marketplace w) id) = b /\
     isActive (getPurchase (marketplace w) id) = true).
Proof.
  intros w.
  assert (purchases_wellformed w) as [Hrec Hidx].
  { apply run_invariant; [apply purchases_wellformed_step|].
    split.
    - intros id r. simpl. by rewrite lookup_empty.
    - intros b id. unfold buyerPurchases_at. simpl. rewrite lookup_empty.
      simpl. done. }
  split.
  - intros id r Hr. destruct (Hrec _ _ Hr) as (Hid & Hact & Ha & Hp & Hm).
    unfold getPurchase, purchase_at. rewrite Hr. simpl. split_and!; done.
  - intros b id Hin. destruct (Hidx _ _ Hin) as (r & Hr & Hb).
    destruct (Hrec _ _ Hr) as (_ & Hact & _).
    unfold getPurchase, purchase_at. rewrite Hr. simpl. done.
Qed.

End MarketplaceLedger.

(** ** Pausing the marketplace *)

Section MarketplacePause.
Import DataMarketplace.

Lemma ledger_kept_trans (a b c : State) :
  ledger_kept a b -> ledger_kept b c -> ledger_kept a c.
Proof.
  unfold ledger_kept. intros (H1 & H2 & H3 & H4) (H5 & H6 & H7 & H8).
  split_and!; congruence.
Qed.

Lemma executePurchase_paused (e : Env) (t : Currency.State)
    (dc : DataCoin.State) (s : State) (tokenId amount : uint256) (tok : string) :
  paused s = true ->
  executePurchase e t dc s tokenId amount tok = Err EnforcedPause.
Proof. intros Hp. unfold executePurchase, whenNotPaused. by rewrite Hp. Qed.

Lemma exec_while_paused (e : Env) (c : Call) (w w' : World) (evs : list Event) :
  paused (marketplace w) = true -> c <> MarketplaceUnpause ->
  exec e c w = Ok (w', evs) ->
  paused (marketplace w') = true /\
  ledger_kept (marketplace w) (marketplace w').
Proof.
  intros Hp Hc H.
  destruct c; try done; exec_inv H; try done.
  - match goal with Hx : executePurchase _ _ _ _ _ _ _ = Ok _ |- _ =>
      rewrite executePurchase_paused in Hx by done; discriminate end.
  - match goal with Hx : updatePlatformFee _ _ _ = Ok _ |- _ =>
      unfold updatePlatformFee in Hx; ok_steps Hx; inversion Hx; subst; clear Hx
    end.
    done.
  - match goal with Hx : pause _ _ = Ok _ |- _ =>
      apply marketplace_pause_Ok in Hx as -> end.
    done.
  - match goal with Hx : transferOwnership _ _ _ = Ok _ |- _ =>
      apply marketplace_transferOwnership_Ok in Hx as -> end.
    done.
  - match goal with Hx : renounceOwnership _ _ = Ok _ |- _ =>
      apply marketplace_renounceOwnership_Ok in Hx as -> end.
    done.
  - match goal with
    | Hx : CrossChainBridge.executeIntent _ _ _ _ _ _ _ _ = Ok _ |- _ =>
        apply executeIntent_purchase in Hx as [pevs Hx];
        rewrite executePurchase_paused in Hx by done; discriminate
    end.
Qed.

(** X8. While the marketplace is paused it sells nothing: through every
    sequence of transactions without an [unpause] call the marketplace stays
    paused, its purchase records, buyers' indices and sales counters stay as
    they were, every [executePurchase] reverts with [EnforcedPause] and every
    [executeIntent] of the bridge reverts. *)
Theorem paused_marketplace_sells_nothing (w : World) (txs : list (Env * Call)) :
  paused (marketplace w) = true ->
  Forall (fun tx => snd tx <> MarketplaceUnpause) txs ->
  let w' := run w txs in
  paused (marketplace w') = true /\
  purchases (marketplace w') = purchases (marketplace w) /\
  buyerPurchases (marketplace w') = buyerPurchases (marketplace w) /\
  tokenSales (marketplace w') = tokenSales (marketplace w) /\
  (forall e tokenId amount tok,
     exec e (ExecutePurchase tokenId amount tok) w' = Err EnforcedPause) /\
  (forall e id proofHash tok,
     reverts (exec e (ExecuteIntent id proofHash tok) w')).
Proof.
  intros Hp Hall.
  assert (paused (marketplace (run w txs)) = true /\
          ledger_kept (marketplace w) (marketplace (run w txs))) as [Hp' Hkept].
  { revert w Hp. induction Hall as [|tx txs Htx Hall IH]; intros w Hp; simpl.
    - done.
    - assert (paused (marketplace (apply_call w tx)) = true /\
              ledger_kept (marketplace w) (marketplace (apply_call w tx)))
        as [Hp1 Hk1].
      { destruct (apply_call_cases w tx) as [->|[evs H]]; [done|].
        by apply (exec_while_paused _ _ _ _ _ Hp Htx H). }
      destruct (IH _ Hp1) as [Hp2 Hk2]. split; [done|].
      by eapply ledger_kept_trans. }
  destruct Hkept as (_ & H1 & H2 & H3). cbv zeta. split_and!; try done.
  - intros e tokenId amount tok. unfold exec.
    by rewrite executePurchase_paused.
  - intros e id proofHash tok. apply reverts_of_not_Ok.
    intros [w2 evs] Hok. exec_inv Hok.
    match goal with
    | Hx : CrossChainBridge.executeIntent _ _ _ _ _ _ _ _ = Ok _ |- _ =>
        apply executeIntent_purchase in Hx as [pevs Hx];
        rewrite executePurchase_paused in Hx by done; discriminate
    end.
Qed.

Lemma paused_marketplace_sells_nothing_witness :
  let w := run (Scenario.ready 0)
             [(Scenario.at_block Scenario.deployer 1900 5, MarketplacePause)] in
  paused (marketplace (run w [Scenario.purchase])) = true /\
  purchases (marketplace (run w [Scenario.purchase])) = purchases (marketplace w).
Proof.
  intros w.
  assert (paused (marketplace w) = true) as Hp by reflexivity.
  assert (Forall (fun tx => snd tx <> MarketplaceUnpause) [Scenario.purchase])
    as Hall by (repeat constructor; discriminate).
  destruct (paused_marketplace_sells_nothing w [Scenario.purchase] Hp Hall)
    as (H1 & H2 & _).
  split; [exact H1 | exact H2].
Defined.

End MarketplacePause.

(** ** The bridge's policy switches *)

Section BridgePolicy.
Import CrossChainBridge.

(** X9. [executeIntent] and [settleIntent] consult neither the pause flag nor
    the table of supported chains: on a bridge whose flag and table are
    replaced by any others they give the same outcome, the same events and
    the same ledgers, while [createIntent] on a paused bridge always reverts
    with [EnforcedPause]. Pausing the bridge or withdrawing a chain stops new
    intents only. *)
Theorem execution_ignores_bridge_policy (e : Env) (t : Currency.State)
    (dc : DataCoin.State) (mp : DataMarketplace.State) (s : State)
    (p : bool) (chains : gmap uint256 bool) (id : IntentId)
    (proofHash : bytes32) (tok : string) :
  executeIntent e t dc mp (with_policy s p chains) id proofHash tok
    = match executeIntent e t dc mp s id proofHash tok with
      | Ok (t', dc', mp', s', evs) =>
          Ok (t', dc', mp', with_policy s' p chains, evs)
      | Err err => Err err
      end /\
  settleIntent e (with_policy s p chains) id proofHash
    = match settleIntent e s id proofHash with
      | Ok (s', evs) => Ok (with_policy s' p chains, evs)
      | Err err => Err err
      end /\
  (forall tokenId amount src dst,
     createIntent e dc (with_policy s true chains) tokenId amount src dst
       = Err EnforcedPause).
Proof.
  split_and!.
  - unfold executeIntent, onlyOwner, intent_at, verifiedProofs_at, with_policy.
    simpl.
    destruct (negb (owner s =? msg_sender e)); simpl; [done|].
    destruct (buyer (default zeroIntent (intents s !! id)) =? 0); simpl; [done|].
    destruct (isExecuted (default zeroIntent (intents s !! id))); simpl; [done|].
    destruct (default false (verifiedProofs s !! proofHash)); simpl; [|done].
    destruct (DataMarketplace.executePurchase _ _ _ _ _ _ _)
      as [[[[t' dc'] mp'] pevs]|err]; simpl; done.
  - unfold settleIntent, onlyOwner, intent_at, verifiedProofs_at, with_policy.
    simpl.
    destruct (negb (owner s =? msg_sender e)); simpl; [done|].
    destruct (buyer (default zeroIntent (intents s !! id)) =? 0); simpl; [done|].
    destruct (isExecuted (default zeroIntent (intents s !! id))); simpl; [|done].
    destruct (isSettled (default zeroIntent (intents s !! id))); simpl; [done|].
    destruct (default false (verifiedProofs s !! proofHash)); simpl; done.
  - intros tokenId amount src dst. reflexivity.
Qed.

(** X10. The owner's [updateChainSupport(chainId, supported)] succeeds and
    sets what [isChainSupported] answers for that chain, leaving every other
    chain, the intents and the proofs as they were; once a chain is withdrawn
    every [createIntent] naming it as source or destination reverts; any
    other caller is refused with [OwnableUnauthorizedAccount]. *)
Theorem chain_support_round_trip (e : Env) (w : World) (chainId : uint256)
    (supported : bool) :
  (msg_sender e <> owner (bridge w) ->
   exec e (UpdateChainSupport chainId supported) w
     = Err (OwnableUnauthorizedAccount (msg_sender e))) /\
  (msg_sender e = owner (bridge w) ->
   exists w',
     exec e (UpdateChainSupport chainId supported) w
       = Ok (w', [ChainSupportUpdated chainId supported]) /\
     isChainSupported (bridge w') chainId = supported /\
     (forall other, other <> chainId ->
        isChainSupported (bridge w') other = isChainSupported (bridge w) other) /\
     intents (bridge w') = intents (bridge w) /\
     verifiedProofs (bridge w') = verifiedProofs (bridge w) /\
     usdc w' = usdc w /\ dataCoin w' = dataCoin w /\
     marketplace w' = marketplace w /\
     (supported = false ->
      forall e' tokenId amount other,
        reverts (exec e' (CreateIntent tokenId amount chainId other) w') /\
        reverts (exec e' (CreateIntent tokenId amount other chainId) w'))).
Proof.
  split.
  - intros Hne. unfold exec, updateChainSupport.
    rewrite bridge_onlyOwner_Err by congruence. reflexivity.
  - intros Heq. unfold exec, updateChainSupport.
    rewrite bridge_onlyOwner_pass by congruence. simpl.
    eexists. split; [reflexivity|]. simpl.
    unfold isChainSupported, supportedChains_at. simpl.
    rewrite lookup_insert_eq. simpl. split_and!; try done.
    + intros other Hne. by rewrite lookup_insert_ne.
    + intros -> e' tokenId amount other.
      split; apply reverts_of_not_Ok; intros [w2 evs] Hok; exec_inv Hok;
        match goal with
        | Hx : createIntent _ _ _ _ _ _ _ = Ok _ |- _ =>
            apply createIntent_Ok in Hx as (_ & Hsrc & Hdst & _)
        end;
        unfold supportedChains_at in Hsrc, Hdst; simpl in Hsrc, Hdst;
        rewrite ?lookup_insert_eq in Hsrc; rewrite ?lookup_insert_eq in Hdst;
        simpl in *; congruence.
Qed.

Lemma chain_support_round_trip_witness :
  exists w',
    exec (Scenario.at_block Scenario.deployer 4000 9)
         (UpdateChainSupport 137 false) (Scenario.ready 0)
      = Ok (w', [ChainSupportUpdated 137 false]) /\
    isChainSupported (bridge w') 137 = false /\
    reverts (exec (Scenario.at_block Scenario.buyer 4001 10)
                  (CreateIntent 1 1 1 137) w').
Proof.
  destruct (chain_support_round_trip
              (Scenario.at_block Scenario.deployer 4000 9) (Scenario.ready 0)
              137 false) as [_ Hok].
  destruct (Hok eq_refl)
    as (w' & Hexec & Hset & _ & _ & _ & _ & _ & _ & Hclosed).
  exists w'. split; [exact Hexec|]. split; [exact Hset|].
  exact (proj2 (Hclosed eq_refl (Scenario.at_block Scenario.buyer 4001 10) 1 1 1)).
Defined.

End BridgePolicy.

(** ** The bridge's intents *)

Section BridgeIntents.
Import CrossChainBridge.

Lemma createIntent_cost (e : Env) (dc : DataCoin.State) (s s' : State)
    (tokenId amount src dst : uint256) (id : IntentId) (evs : list Event) :
  createIntent e dc s tokenId amount src dst = Ok (id, s', evs) ->
  0 < DataCoin.price (DataCoin.dataset_at dc tokenId) * amount.
Proof.
  intros H. unfold createIntent in H. ok_steps H.
  match goal with
  | Hx : DataCoin.getDatasetInfo _ _ = Ok _ |- _ =>
      apply getDatasetInfo_Ok in Hx as [_ ->]
  end.
  norm_checks. done.
Qed.

(** What one step of the bridge does to the intents and their index. *)
Lemma bridge_step_intents (s s' : State) :
  bridge_step s s' ->
  (intents s' = intents s /\ buyerIntents s' = buyerIntents s) \/
  (exists e tokenId amount src dst usdcAmount,
     let id := (msg_sender e, tokenId, amount, src, dst, block_timestamp e,
                block_number e) in
     0 < amount /\ 0 < usdcAmount /\
     intents s' =
       <[id := {| intentId := Some id; buyer := msg_sender e;
                  tokenId := tokenId; amount := amount;
                  sourceChainId := src; destinationChainId := dst;
                  usdcAmount := usdcAmount; isExecuted := false;
                  isSettled := false; createdAt := block_timestamp e;
                  executedAt := 0; accessToken := EmptyString |}]> (intents s) /\
     buyerIntents s' =
       <[msg_sender e := buyerIntents_at s (msg_sender e) ++ [id]]>
         (buyerIntents s)) \/
  (exists id i e tok,
     intents s !! id = Some i /\ isExecuted i = false /\
     intents s' = <[id := executed_intent e i tok]> (intents s) /\
     buyerIntents s' = buyerIntents s) \/
  (exists id i,
     intents s !! id = Some i /\ isExecuted i = true /\
     intents s' = <[id := settled_intent i]> (intents s) /\
     buyerIntents s' = buyerIntents s).
Proof.
  assert (forall id, buyer (intent_at s id) <> 0 ->
            intents s !! id = Some (intent_at s id)) as Hstored.
  { intros id. unfold intent_at. destruct (intents s !! id); simpl; done. }
  intros Hstep.
  destruct Hstep as [ | e dc tokenId amount src dst id s' evs H
    | e t dc mp id proofHash tok t' dc' mp' s' evs H
    | e id proofHash s' evs H | e proofHash isValid s' evs H
    | e chainId supported s' evs H | b | o ].
  - by left.
  - right. left. pose proof (createIntent_cost _ _ _ _ _ _ _ _ _ _ H) as Hcost.
    apply createIntent_Ok in H as (_ & _ & _ & Ha & _ & _ & -> & ->).
    eexists e, tokenId, amount, src, dst, _. cbv zeta. simpl.
    split_and!; try done; reflexivity.
  - right. right. left.
    apply executeIntent_Ok in H as (_ & Hb & Hex & _ & _ & ->).
    exists id, (intent_at s id), e, tok. simpl. split_and!; auto.
  - right. right. right.
    apply settleIntent_Ok in H as (_ & Hb & Hex & _ & _ & ->).
    exists id, (intent_at s id). simpl. split_and!; auto.
  - left. unfold verifyProof in H. ok_steps H. by inversion H.
  - left. unfold updateChainSupport in H. ok_steps H. by inversion H.
  - by left.
  - by left.
Qed.

Lemma bridge_step_wellformed (s s' : State) :
  bridge_step s s' -> intents_wellformed s -> intents_wellformed s'.
Proof.
  intros Hstep [Hrec Hidx].
  destruct (bridge_step_intents _ _ Hstep)
    as [[Hi Hb]
       |[(e & tokenId & amount & src & dst & cost & Ha & Hc & Hi & Hb)
        |[(id & i & e & tok & Hsome & Hex & Hi & Hb)
         |(id & i & Hsome & Hex & Hi & Hb)]]];
    cbv zeta in *.
  - unfold intents_wellformed, buyerIntents_at. by rewrite Hi, Hb.
  - split.
    + intros id i. rewrite Hi, lookup_insert. case_decide as Heq.
      * intros [= <-]. subst id. simpl. split_and!; eauto.
      * apply Hrec.
    + intros b id. unfold buyerIntents_at. rewrite Hb, Hi.
      rewrite (lookup_insert (buyerIntents s)). case_decide as Heq; simpl.
      * subst b. rewrite in_app_iff. simpl. intros [Hin|[<-|[]]].
        -- rewrite lookup_insert. case_decide as Hid; [by eexists|].
           by apply Hidx.
        -- rewrite lookup_insert_eq. by eexists.
      * intros Hin. destruct (Hidx _ _ Hin) as (i & Hsome & Hbuyer).
        rewrite lookup_insert. case_decide as Hid; [|by eexists].
        subst id. destruct (Hrec _ _ Hsome) as (_ & (bn & Hid) & _).
        injection Hid as Hbuy _ _ _ _ _ _. congruence.
  - destruct (Hrec _ _ Hsome) as (Hown & Hkey & Ha & Hc & Hse & Hne).
    split.
    + intros id' i'. rewrite Hi, lookup_insert. case_decide as Heq.
      * intros [= <-]. subst id'. simpl. split_and!; eauto; done.
      * apply Hrec.
    + intros b id'. unfold buyerIntents_at. rewrite Hb, Hi. intros Hin.
      destruct (Hidx _ _ Hin) as (i' & Hsome' & Hbuyer).
      rewrite lookup_insert. case_decide as Hid; [|by eexists].
      subst id'. eexists. split; [done|]. simpl. congruence.
  - destruct (Hrec _ _ Hsome) as (Hown & Hkey & Ha & Hc & Hse & Hne).
    split.
    + intros id' i'. rewrite Hi, lookup_insert. case_decide as Heq.
      * intros [= <-]. subst id'. simpl. split_and!; eauto; congruence.
      * apply Hrec.
    + intros b id'. unfold buyerIntents_at. rewrite Hb, Hi. intros Hin.
      destruct (Hidx _ _ Hin) as (i' & Hsome' & Hbuyer).
      rewrite lookup_insert. case_decide as Hid; [|by eexists].
      subst id'. eexists. split; [done|]. simpl. congruence.
Qed.

(** X11. In every state reachable from deployment every stored intent carries
    the identifier it is stored under, which is derived from its own fields,
    has a positive amount and a positive cost, is executed whenever it is
    settled, and has neither execution time nor access token while it is not
    executed; every identifier returned by [getBuyerIntents] for a buyer is an
    intent of that buyer. *)
Theorem intent_ledger_is_wellformed
    (deployer marketplaceAddress bridgeAddress : address)
    (txs : list (Env * Call)) :
  let s := bridge (run (deploy deployer marketplaceAddress bridgeAddress) txs) in
  (forall id i, intents s !! id = Some i ->
     getIntent s id = i /\ intentId i = Some id /\
     (exists blockNumber,
        id = (buyer i, tokenId i, amount i, sourceChainId i,
              destinationChainId i, createdAt i, blockNumber)) /\
     0 < amount i /\ 0 < usdcAmount i /\
     getIntentStatus s id <> (false, true) /\
     (isExecuted i = false -> executedAt i = 0 /\ accessToken i = EmptyString)) /\
  (forall b id, In id (getBuyerIntents s b) -> buyer (getIntent s id) = b).
Proof.
  intros s.
  assert (intents_wellformed s) as [Hrec Hidx].
  { apply (run_invariant (fun w => intents_wellformed (bridge w))).
    - intros w tx Hinv. eapply bridge_step_wellformed; [|exact Hinv].
      apply apply_call_bridge_step.
    - split.
      + intros id i. simpl. by rewrite lookup_empty.
      + intros b id. unfold buyerIntents_at. simpl. rewrite lookup_empty.
        simpl. done. }
  split.
  - intros id i Hsome.
    destruct (Hrec _ _ Hsome) as (Hown & Hkey & Ha & Hc & Hse & Hne).
    unfold getIntent, getIntentStatus, intent_at. rewrite Hsome. simpl.
    split_and!; try done.
    intros [= Hex Hset]. apply Hse in Hset. congruence.
  - intros b id Hin. destruct (Hidx _ _ Hin) as (i & Hsome & Hb).
    unfold getIntent, intent_at. rewrite Hsome. simpl. done.
Qed.

(** X12. A successful [executeIntent] buys in the bridge's own name: the
    purchase record is stored under the bridge's address at the dataset's
    price at execution time (the cost quoted in the intent is not consulted),
    the access token passed in verifies against it in the same block, the
    identifier is appended to the bridge's purchase index, and the purchase
    index of the intent's buyer is unchanged when the buyer is not the bridge
    itself; the intent is marked executed with that token. *)
Theorem executeIntent_buys_as_bridge (e : Env) (w w' : World) (id : IntentId)
    (proofHash : bytes32) (tok : string) (evs : list Event) :
  exec e (ExecuteIntent id proofHash tok) w = Ok (w', evs) ->
  let i := getIntent (bridge w) id in
  let purchaseId := (tokenId i, self (bridge w), amount i, block_timestamp e,
                     block_number e) in
  DataMarketplace.getPurchase (marketplace w') purchaseId
    = {| DataMarketplace.tokenId := tokenId i;
         DataMarketplace.buyer := self (bridge w);
         DataMarketplace.amount := amount i;
         DataMarketplace.price :=
           DataCoin.price (DataCoin.dataset_at (dataCoin w) (tokenId i));
         DataMarketplace.timestamp := block_timestamp e;
         DataMarketplace.isActive := true;
         DataMarketplace.accessToken := tok |} /\
  DataMarketplace.verifyAccessToken e (marketplace w') purchaseId tok = Ok true /\
  DataMarketplace.getBuyerPurchases (marketplace w') (self (bridge w))
    = DataMarketplace.getBuyerPurchases (marketplace w) (self (bridge w))
        ++ [purchaseId] /\
  (buyer i <> self (bridge w) ->
   DataMarketplace.getBuyerPurchases (marketplace w') (buyer i)
     = DataMarketplace.getBuyerPurchases (marketplace w) (buyer i)) /\
  DataCoin.price (DataCoin.dataset_at (dataCoin w) (tokenId i)) * amount i
    <= Currency.balanceOf (usdc w) (self (bridge w)) /\
  getIntent (bridge w') id = executed_intent e i tok /\
  getIntentStatus (bridge w') id = (true, isSettled i).
Proof.
  intros H. exec_inv H.
  match goal with
  | Hx : executeIntent _ _ _ _ _ _ _ _ = Ok _ |- _ =>
      apply executeIntent_Ok in Hx as (_ & _ & _ & _ & [pevs Hp] & ->)
  end.
  pose proof Hp as Hbal.
  apply executePurchase_Ok in Hbal. cbv zeta in Hbal.
  destruct Hbal as (dataset & usdc1 & granted & _ & Hinfo & _ & _ & _ & Hbal &
                    _ & _ & _ & _ & _ & _ & Hexp & _).
  apply getDatasetInfo_Ok in Hinfo as [_ ->].
  apply executePurchase_effects in Hp. cbv zeta in Hp. simpl in Hp.
  destruct Hp as (_ & _ & _ & _ & _ & _ & _ & _ & Hrec & Hidx & _).
  cbv zeta. unfold getIntent, getIntentStatus, DataMarketplace.getPurchase,
    DataMarketplace.getBuyerPurchases, DataMarketplace.verifyAccessToken,
    DataMarketplace.purchase_at, DataMarketplace.buyerPurchases_at.
  rewrite Hrec, Hidx. rewrite !lookup_insert_eq. simpl.
  split_and!; try done.
  - rewrite String.eqb_refl. simpl.
    unfold checked_add. simpl in Hexp.
    apply N.leb_le in Hexp. rewrite Hexp. simpl.
    destruct (block_timestamp e + 86400 <? block_timestamp e) eqn:Hlt;
      [apply N.ltb_lt in Hlt; lia | done].
  - intros Hne. by rewrite lookup_insert_ne by done.
  - unfold intent_at. simpl. by rewrite lookup_insert_eq.
  - unfold intent_at. simpl. by rewrite lookup_insert_eq.
Qed.

Lemma executeIntent_buys_as_bridge_witness :
  exists w' evs,
    exec (Scenario.at_block Scenario.deployer 3000 7)
         (ExecuteIntent Scenario.intent Scenario.proof "tokA") Scenario.funded
      = Ok (w', evs) /\
    DataMarketplace.buyer
      (DataMarketplace.getPurchase (marketplace w')
         (1, Scenario.bridgeAddress, 1, 3000, 7)) = Scenario.bridgeAddress /\
    DataMarketplace.getBuyerPurchases (marketplace w') Scenario.buyer = [].
Proof.
  destruct (exec (Scenario.at_block Scenario.deployer 3000 7)
              (ExecuteIntent Scenario.intent Scenario.proof "tokA")
              Scenario.funded) as [[w' evs]|err] eqn:Hexec;
    [|vm_compute in Hexec; discriminate].
  exists w', evs. split; [reflexivity|].
  destruct (executeIntent_buys_as_bridge _ _ _ _ _ _ _ Hexec)
    as (Hrec & _ & _ & Hbuyer & _).
  split.
  - change (1, Scenario.bridgeAddress, 1, 3000, 7)
      with (tokenId (getIntent (bridge Scenario.funded) Scenario.intent),
            self (bridge Scenario.funded),
            amount (getIntent (bridge Scenario.funded) Scenario.intent),
            block_timestamp (Scenario.at_block Scenario.deployer 3000 7),
            block_number (Scenario.at_block Scenario.deployer 3000 7)).
    rewrite Hrec. reflexivity.
  - change Scenario.buyer
      with (buyer (getIntent (bridge Scenario.funded) Scenario.intent)).
    rewrite Hbuyer; [reflexivity | vm_compute; discriminate].
Defined.

End BridgeIntents.

(** ** Who may call what *)

Section Authorization.

(** X13. Every entry point guarded by [onlyOwner] (minting, granting access,
    the hand-over and the renouncement of the registry; fee update,
    withdrawal, pause, unpause, recovery, hand-over and renouncement of the
    marketplace; execution, settlement, proof verdicts, chain policy, pause,
    unpause, recovery, hand-over and renouncement of the bridge) reverts with
    [OwnableUnauthorizedAccount(caller)] for every caller other than the owner
    of the contract it enters, whatever its arguments and whatever the
    state. *)
Theorem owner_gated_calls_refuse_others (e : Env) (c : Call) (w : World)
    (o : address) :
  required_owner w c = Some o -> msg_sender e <> o ->
  exec e c w = Err (OwnableUnauthorizedAccount (msg_sender e)).
Proof.
  intros Hreq Hne.
  destruct c; simpl in Hreq; try discriminate; injection Hreq as <-;
    apply not_eq_sym, N.eqb_neq in Hne; unfold exec;
    unfold DataCoin.mintDataset, DataCoin.grantAccess,
      DataCoin.transferOwnership, DataCoin.renounceOwnership,
      DataCoin.onlyOwner,
      DataMarketplace.updatePlatformFee, DataMarketplace.withdrawFees,
      DataMarketplace.pause, DataMarketplace.unpause,
      DataMarketplace.emergencyRecover, DataMarketplace.transferOwnership,
      DataMarketplace.renounceOwnership, DataMarketplace.onlyOwner,
      CrossChainBridge.executeIntent, CrossChainBridge.settleIntent,
      CrossChainBridge.verifyProof, CrossChainBridge.updateChainSupport,
      CrossChainBridge.pause, CrossChainBridge.unpause,
      CrossChainBridge.emergencyRecover, CrossChainBridge.transferOwnership,
      CrossChainBridge.renounceOwnership, CrossChainBridge.onlyOwner;
    rewrite Hne; reflexivity.
Qed.

Lemma owner_gated_calls_refuse_others_witness :
  exec (Scenario.at_block Scenario.buyer 2000 5) (UpdatePlatformFee 0)
       (Scenario.ready 0)
    = Err (OwnableUnauthorizedAccount Scenario.buyer) /\
  exec (Scenario.at_block Scenario.deployer 2000 5) (GrantAccess 1 Scenario.buyer 1)
       (Scenario.ready 0)
    = Err (OwnableUnauthorizedAccount Scenario.deployer).
Proof.
  split.
  - apply (owner_gated_calls_refuse_others
             (Scenario.at_block Scenario.buyer 2000 5) (UpdatePlatformFee 0)
             (Scenario.ready 0) Scenario.deployer);
      [reflexivity | vm_compute; discriminate].
  - apply (owner_gated_calls_refuse_others
             (Scenario.at_block Scenario.deployer 2000 5)
             (GrantAccess 1 Scenario.buyer 1)
             (Scenario.ready 0) Scenario.marketplaceAddress);
      [reflexivity | vm_compute; discriminate].
Defined.

(** What a successful transaction can do to the registry's administration:
    the owner changes only in the owner's own hand-over or renouncement, which
    leaves the registry without an owner, and the counter and the token owners
    change only in the owner's own mint. *)
Lemma exec_registry_admin (e : Env) (c : Call) (w w' : World) (evs : list Event) :
  exec e c w = Ok (w', evs) ->
  (DataCoin.owner (dataCoin w') = DataCoin.owner (dataCoin w) \/
   is_registry_handover c = true /\
   msg_sender e = DataCoin.owner (dataCoin w) \/
   msg_sender e = DataCoin.owner (dataCoin w) /\
   DataCoin.owner (dataCoin w') = 0) /\
  (DataCoin._tokenIds (dataCoin w') = DataCoin._tokenIds (dataCoin w) /\
   DataCoin._owners (dataCoin w') = DataCoin._owners (dataCoin w) \/
   msg_sender e = DataCoin.owner (dataCoin w)).
Proof.
  intros H. destruct c; exec_inv H; try (split; left; done).
  - match goal with Hx : DataCoin.mintDataset _ _ _ _ _ _ _ _ _ _ = Ok _ |- _ =>
      apply mintDataset_Ok in Hx as (Ho & _ & _ & _ & _ & _ & _ & _ & _ & ->) end.
    split; [by left | by right].
  - match goal with Hx : DataCoin.updateDataset _ _ _ _ _ = Ok _ |- _ =>
      apply updateDataset_Ok in Hx as (_ & _ & _ & ->) end.
    split; left; done.
  - match goal with Hx : DataCoin.grantAccess _ _ _ _ _ = Ok _ |- _ =>
      apply grantAccess_Ok in Hx as (_ & _ & _ & _ & -> & _) end.
    split; left; done.
  - match goal with Hx : DataCoin.deactivateDataset _ _ _ = Ok _ |- _ =>
      apply deactivateDataset_Ok in Hx as (_ & _ & ->) end.
    split; left; done.
  - match goal with Hx : DataCoin.transferOwnership _ _ _ = Ok _ |- _ =>
      apply transferOwnership_Ok in Hx as (Ho & _ & ->) end.
    split; [by right; left | by left].
  - match goal with Hx : DataCoin.renounceOwnership _ _ = Ok _ |- _ =>
      apply renounceOwnership_Ok in Hx as (Ho & ->) end.
    split; [by right; right | by left].
  - match goal with Hx : DataMarketplace.executePurchase _ _ _ _ _ _ _ = Ok _ |- _ =>
      apply executePurchase_effects in Hx; cbv zeta in Hx;
      destruct Hx as (_ & _ & _ & _ & _ & _ & _ & _ & _ & _ & _ & Ho & Hw & Hn & _)
    end.
    split; left; done.
  - match goal with
    | Hx : CrossChainBridge.executeIntent _ _ _ _ _ _ _ _ = Ok _ |- _ =>
        apply executeIntent_purchase in Hx as [pevs Hx];
        apply executePurchase_effects in Hx; cbv zeta in Hx;
        destruct Hx as (_ & _ & _ & _ & _ & _ & _ & _ & _ & _ & _ & Ho & Hw & Hn & _)
    end.
    split; left; done.
Qed.

(** A sale needs the registry to be owned by the marketplace. *)
Lemma exec_sale_needs_handover (e : Env) (c : Call) (w w' : World)
    (evs : list Event) :
  exec e c w = Ok (w', evs) ->
  DataCoin.owner (dataCoin w) <> DataMarketplace.self (marketplace w) ->
  registry_step (dataCoin w) (dataCoin w') /\
  ledger_kept (marketplace w) (marketplace w').
Proof.
  intros H Hne.
  apply exec_sale_or_quiet in H
    as [(e' & tokenId & amount & tok & pevs & _ & _ & H)|(Hreg & Hkept & _)].
  - apply executePurchase_needs_registry_ownership in H. done.
  - done.
Qed.

Lemma ledger_kept_refl (m : DataMarketplace.State) : ledger_kept m m.
Proof. by unfold ledger_kept. Qed.

Lemma run_without_handover (w : World) (txs : list (Env * Call))
    (deployer : address) :
  DataCoin.owner (dataCoin w) = deployer \/ DataCoin.owner (dataCoin w) = 0 ->
  deployer <> DataMarketplace.self (marketplace w) ->
  DataMarketplace.self (marketplace w) <> 0 ->
  Forall (fun tx => is_registry_handover (snd tx) = false) txs ->
  (DataCoin.owner (dataCoin (run w txs)) = deployer \/
   DataCoin.owner (dataCoin (run w txs)) = 0) /\
  ledger_kept (marketplace w) (marketplace (run w txs)).
Proof.
  intros Ho Hne Hnz Hall. revert w Ho Hne Hnz.
  induction Hall as [|tx txs Htx Hall IH]; intros w Ho Hne Hnz; simpl.
  - split; [done | apply ledger_kept_refl].
  - assert (DataCoin.owner (dataCoin w) <> DataMarketplace.self (marketplace w))
      as Hnot by (destruct Ho as [Ho|Ho]; rewrite Ho; congruence).
    assert ((DataCoin.owner (dataCoin (apply_call w tx)) = deployer \/
             DataCoin.owner (dataCoin (apply_call w tx)) = 0) /\
            ledger_kept (marketplace w) (marketplace (apply_call w tx)))
      as [Ho1 Hk].
    { destruct (apply_call_cases w tx) as [->|[evs H]];
        [split; [done | apply ledger_kept_refl]|].
      destruct (exec_sale_needs_handover _ _ _ _ _ H Hnot) as [_ Hk'].
      split; [|exact Hk'].
      destruct (exec_registry_admin _ _ _ _ _ H) as [[Ho'|[[Hh _]|[_ Hz]]] _].
      - by rewrite Ho'.
      - congruence.
      - by right. }
    assert (DataMarketplace.self (marketplace (apply_call w tx))
              = DataMarketplace.self (marketplace w)) as Hself
      by (by destruct Hk as (? & _)).
    destruct (IH (apply_call w tx) Ho1) as [Ho2 Hk2]; [congruence..|].
    split; [done | by eapply ledger_kept_trans].
Qed.

(** X14. The marketplace sells only once the registry has been handed over to
    it. From a deployment whose deployer is not the marketplace itself (the
    marketplace being a deployed contract, its address is not zero), through
    every sequence of transactions without a [transferOwnership] call on the
    registry, the registry is owned by the deployer or, once the deployer has
    renounced, by nobody, and never by the marketplace; the marketplace
    records no purchase and no sale, and every [executePurchase] and every
    [executeIntent] reverts. *)
Theorem no_sale_without_handover
    (deployer marketplaceAddress bridgeAddress : address)
    (txs : list (Env * Call)) :
  deployer <> marketplaceAddress -> marketplaceAddress <> 0 ->
  Forall (fun tx => is_registry_handover (snd tx) = false) txs ->
  let w := run (deploy deployer marketplaceAddress bridgeAddress) txs in
  (DataCoin.owner (dataCoin w) = deployer \/ DataCoin.owner (dataCoin w) = 0) /\
  DataCoin.owner (dataCoin w) <> marketplaceAddress /\
  DataMarketplace.purchases (marketplace w) = ∅ /\
  (forall tokenId, DataMarketplace.getTokenSales (marketplace w) tokenId = 0) /\
  (forall e tokenId amount tok,
     reverts (exec e (ExecutePurchase tokenId amount tok) w)) /\
  (forall e id proofHash tok,
     reverts (exec e (ExecuteIntent id proofHash tok) w)).
Proof.
  intros Hne Hnz Hall.
  set (w0 := deploy deployer marketplaceAddress bridgeAddress).
  destruct (run_without_handover w0 txs deployer (or_introl eq_refl) Hne Hnz Hall)
    as [Ho (Hself & Hp & _ & Hs)].
  change (DataMarketplace.self (marketplace w0)) with marketplaceAddress in Hself.
  change (DataMarketplace.purchases (marketplace w0))
    with (∅ : gmap PurchaseId DataMarketplace.PurchaseRecord) in Hp.
  change (DataMarketplace.tokenSales (marketplace w0))
    with (∅ : gmap uint256 uint256) in Hs.
  clearbody w0.
  assert (DataCoin.owner (dataCoin (run w0 txs)) <> marketplaceAddress) as Hown
    by (destruct Ho as [Ho|Ho]; rewrite Ho; congruence).
  assert (DataCoin.owner (dataCoin (run w0 txs))
            <> DataMarketplace.self (marketplace (run w0 txs))) as Hnot
    by (by rewrite Hself).
  cbv zeta. split_and!.
  - exact Ho.
  - exact Hown.
  - by rewrite Hp.
  - intros tokenId.
    unfold DataMarketplace.getTokenSales, DataMarketplace.tokenSales_at.
    rewrite Hs. simpl. by rewrite lookup_empty.
  - intros e tokenId amount tok. apply reverts_of_not_Ok.
    intros [w2 evs] Hok. exec_inv Hok.
    match goal with
    | Hx : DataMarketplace.executePurchase _ _ _ _ _ _ _ = Ok _ |- _ =>
        apply executePurchase_needs_registry_ownership in Hx; done
    end.
  - intros e id proofHash tok. apply reverts_of_not_Ok.
    intros [w2 evs] Hok. exec_inv Hok.
    match goal with
    | Hx : CrossChainBridge.executeIntent _ _ _ _ _ _ _ _ = Ok _ |- _ =>
        apply executeIntent_purchase in Hx as [pevs Hx];
        apply executePurchase_needs_registry_ownership in Hx; done
    end.
Qed.

Lemma no_sale_without_handover_witness :
  let txs := [ (Scenario.at_block Scenario.deployer 1000 1,
                MintDataset Scenario.deployer "QmTest123" "Test Dataset"
                  "Description" 1000000 "{}" 0 true);
               (Scenario.at_block Scenario.deployer 1001 2,
                DataCoinRenounceOwnership);
               (Scenario.at_block Scenario.deployer 1002 3,
                CurrencyMint Scenario.buyer 10000000);
               (Scenario.at_block Scenario.buyer 1003 4,
                CurrencyApprove Scenario.marketplaceAddress 10000000) ] in
  let w := run (deploy Scenario.deployer Scenario.marketplaceAddress
                  Scenario.bridgeAddress) txs in
  DataCoin.owner (dataCoin w) = 0 /\
  reverts (exec (fst Scenario.purchase) (snd Scenario.purchase) w).
Proof.
  intros txs w.
  assert (Scenario.deployer <> Scenario.marketplaceAddress) as Hne
    by (vm_compute; discriminate).
  assert (Scenario.marketplaceAddress <> 0) as Hnz
    by (vm_compute; discriminate).
  assert (Forall (fun tx => is_registry_handover (snd tx) = false) txs) as Hall
    by (repeat constructor).
  destruct (no_sale_without_handover Scenario.deployer
              Scenario.marketplaceAddress Scenario.bridgeAddress txs Hne Hnz Hall)
    as (_ & _ & _ & _ & Hrev & _).
  split; [reflexivity | apply Hrev].
Defined.

(** X15. Once the registry is owned by the marketplace contract it is closed:
    through every sequence of transactions not sent from the marketplace's own
    address the registry stays owned by the marketplace, no dataset is minted
    (the counter and the set of minted tokens stay as they are), and every
    [mintDataset] and every [transferOwnership] of the registry from such a
    sender reverts with [OwnableUnauthorizedAccount]. *)
Theorem handover_is_final (w : World) (txs : list (Env * Call)) :
  DataCoin.owner (dataCoin w) = DataMarketplace.self (marketplace w) ->
  Forall (fun tx => msg_sender (fst tx) <> DataMarketplace.self (marketplace w))
         txs ->
  let w' := run w txs in
  DataCoin.owner (dataCoin w') = DataMarketplace.self (marketplace w) /\
  DataMarketplace.self (marketplace w') = DataMarketplace.self (marketplace w) /\
  tokenCount (dataCoin w') = tokenCount (dataCoin w) /\
  (forall tokenId, minted (dataCoin w') tokenId <-> minted (dataCoin w) tokenId) /\
  (forall e to c n d p pol maxSupply accepts,
     msg_sender e <> DataMarketplace.self (marketplace w) ->
     exec e (MintDataset to c n d p pol maxSupply accepts) w'
       = Err (OwnableUnauthorizedAccount (msg_sender e))) /\
  (forall e newOwner,
     msg_sender e <> DataMarketplace.self (marketplace w) ->
     exec e (DataCoinTransferOwnership newOwner) w'
       = Err (OwnableUnauthorizedAccount (msg_sender e))).
Proof.
  intros Ho Hall.
  assert (DataCoin.owner (dataCoin (run w txs))
            = DataMarketplace.self (marketplace w) /\
          DataMarketplace.self (marketplace (run w txs))
            = DataMarketplace.self (marketplace w) /\
          DataCoin._tokenIds (dataCoin (run w txs))
            = DataCoin._tokenIds (dataCoin w) /\
          DataCoin._owners (dataCoin (run w txs)) = DataCoin._owners (dataCoin w))
    as (Ho' & Hself & Hn & Hw).
  { revert w Ho Hall. induction txs as [|tx txs IH]; intros w Ho Hall; simpl;
      [done|].
    inversion Hall as [|? ? Htx Hrest]; subst.
    assert (DataCoin.owner (dataCoin (apply_call w tx))
              = DataCoin.owner (dataCoin w) /\
            DataMarketplace.self (marketplace (apply_call w tx))
              = DataMarketplace.self (marketplace w) /\
            DataCoin._tokenIds (dataCoin (apply_call w tx))
              = DataCoin._tokenIds (dataCoin w) /\
            DataCoin._owners (dataCoin (apply_call w tx))
              = DataCoin._owners (dataCoin w)) as (H1 & H2 & H3 & H4).
    { destruct (apply_call_cases w tx) as [->|[evs H]]; [done|].
      destruct (exec_registry_admin _ _ _ _ _ H) as [Ha Hb].
      assert (DataMarketplace.self (marketplace (apply_call w tx))
                = DataMarketplace.self (marketplace w)) as Hs.
      { apply exec_sale_or_quiet in H
          as [(e' & tokenId & amount & tok & pevs & _ & _ & H)|(_ & (Hs & _) & _)];
          [|done].
        apply executePurchase_effects in H. cbv zeta in H.
        by destruct H as (_ & _ & _ & _ & Hs & _). }
      destruct Ha as [Ha|[[_ Ha]|[Ha _]]]; [|congruence..].
      destruct Hb as [[Hb1 Hb2]|Hb]; [|congruence].
      done. }
    assert (DataCoin.owner (dataCoin (apply_call w tx))
              = DataMarketplace.self (marketplace (apply_call w tx))) as Ho1
      by congruence.
    assert (Forall (fun tx0 => msg_sender (fst tx0)
                       <> DataMarketplace.self (marketplace (apply_call w tx)))
              txs) as Hall1 by (by rewrite H2).
    destruct (IH _ Ho1 Hall1) as (I1 & I2 & I3 & I4).
    split_and!; congruence. }
  cbv zeta. split_and!; try done.
  - intros tokenId. unfold minted, DataCoin._ownerOf. by rewrite Hw.
  - intros e to c n d p pol maxSupply accepts Hne.
    unfold exec, DataCoin.mintDataset, DataCoin.onlyOwner.
    rewrite (proj2 (N.eqb_neq _ _)) by congruence. reflexivity.
  - intros e newOwner Hne.
    unfold exec, DataCoin.transferOwnership, DataCoin.onlyOwner.
    rewrite (proj2 (N.eqb_neq _ _)) by congruence. reflexivity.
Qed.

Lemma handover_is_final_witness :
  DataCoin.owner (dataCoin Scenario.purchased) = Scenario.marketplaceAddress /\
  exec (Scenario.at_block Scenario.deployer 2500 6)
       (MintDataset Scenario.deployer "QmOther" "Other" "More" 5 "{}" 0 true)
       Scenario.purchased
    = Err (OwnableUnauthorizedAccount Scenario.deployer).
Proof.
  assert (DataCoin.owner (dataCoin (Scenario.ready 0))
            = DataMarketplace.self (marketplace (Scenario.ready 0))) as Ho
    by reflexivity.
  assert (Forall (fun tx => msg_sender (fst tx)
                    <> DataMarketplace.self (marketplace (Scenario.ready 0)))
            [Scenario.purchase]) as Hall
    by (repeat constructor; vm_compute; discriminate).
  destruct (handover_is_final (Scenario.ready 0) [Scenario.purchase] Ho Hall)
    as (Howner & _ & _ & _ & Hmint & _).
  split.
  - exact Howner.
  - apply (Hmint (Scenario.at_block Scenario.deployer 2500 6)).
    vm_compute. discriminate.
Defined.

End Authorization.

(** ** Withdrawing the fees *)

Section Withdrawal.
Import DataMarketplace.

(** X16. [withdrawFees(to, amount)] is refused to everyone but the owner, then
    rejects the zero address with "Invalid address" and an amount above the
    marketplace's balance with "Insufficient balance"; otherwise it succeeds,
    paused or not, emits [Withdrawal(to, amount)], moves exactly [amount] from
    the marketplace to [to], and changes no other balance and no ledger.
    [emergencyRecover] on the payment token makes the same transfer. *)
Theorem withdrawFees_spec (e : Env) (w : World) (to : address)
    (amount : uint256) :
  let m := marketplace w in
  (msg_sender e <> owner m ->
   exec e (WithdrawFees to amount) w
     = Err (OwnableUnauthorizedAccount (msg_sender e))) /\
  (msg_sender e = owner m -> to = 0 ->
   exec e (WithdrawFees to amount) w = Err (Require "Invalid address")) /\
  (msg_sender e = owner m -> to <> 0 ->
   Currency.balanceOf (usdc w) (self m) < amount ->
   exec e (WithdrawFees to amount) w = Err (Require "Insufficient balance")) /\
  (msg_sender e = owner m -> to <> 0 ->
   amount <= Currency.balanceOf (usdc w) (self m) ->
   exists w',
     exec e (WithdrawFees to amount) w = Ok (w', [Withdrawal to amount]) /\
     exec e (MarketplaceEmergencyRecover to amount) w = Ok (w', []) /\
     dataCoin w' = dataCoin w /\ marketplace w' = m /\ bridge w' = bridge w /\
     (to <> self m ->
      Currency.balanceOf (usdc w') (self m)
        = Currency.balanceOf (usdc w) (self m) - amount /\
      Currency.balanceOf (usdc w') to = Currency.balanceOf (usdc w) to + amount) /\
     (to = self m ->
      Currency.balanceOf (usdc w') to = Currency.balanceOf (usdc w) to) /\
     (forall other, other <> to -> other <> self m ->
        Currency.balanceOf (usdc w') other = Currency.balanceOf (usdc w) other)).
Proof.
  intros m. unfold exec, withdrawFees, emergencyRecover, onlyOwner. fold m.
  split_and!.
  - intros Hne. apply not_eq_sym, N.eqb_neq in Hne. by rewrite Hne.
  - intros Heq ->. rewrite Heq, N.eqb_refl. reflexivity.
  - intros Heq Hto Hlt. rewrite Heq, N.eqb_refl.
    apply N.eqb_neq in Hto. rewrite Hto. simpl.
    apply N.leb_gt in Hlt. rewrite Hlt. reflexivity.
  - intros Heq Hto Hle. rewrite Heq, N.eqb_refl.
    pose proof Hto as Hto'. apply N.eqb_neq in Hto'. rewrite Hto'. simpl.
    pose proof Hle as Hle'. apply N.leb_le in Hle'. rewrite Hle'. simpl.
    unfold Currency.transfer.
    assert ((Currency.balanceOf (usdc w) (self m) <? amount) = false) as Hnlt
      by (apply N.ltb_ge; lia).
    rewrite Hnlt. simpl. eexists. split; [reflexivity|].
    split; [reflexivity|]. simpl. split_and!; try done.
    + intros Hne. rewrite !balanceOf_move by congruence.
      split; repeat case_decide; try congruence; done.
    + intros ->. unfold Currency.balanceOf, Currency.move. simpl.
      rewrite !lookup_insert_eq. simpl. unfold Currency.balanceOf in *. lia.
    + intros other H1 H2. unfold Currency.balanceOf, Currency.move. simpl.
      rewrite !lookup_insert_ne by congruence. done.
Qed.

Lemma withdrawFees_spec_witness :
  exists w',
    exec (Scenario.at_block Scenario.deployer 2100 6)
         (WithdrawFees Scenario.deployer 25000) Scenario.purchased
      = Ok (w', [Withdrawal Scenario.deployer 25000]) /\
    Currency.balanceOf (usdc w') Scenario.marketplaceAddress = 0 /\
    exec (Scenario.at_block Scenario.deployer 2100 6)
         (WithdrawFees Scenario.deployer 25001) Scenario.purchased
      = Err (Require "Insufficient balance").
Proof.
  destruct (withdrawFees_spec (Scenario.at_block Scenario.deployer 2100 6)
              Scenario.purchased Scenario.deployer 25000)
    as (_ & _ & _ & Hok).
  destruct Hok as (w' & Hexec & _ & _ & _ & _ & Hmoved & _);
    [reflexivity | vm_compute; discriminate | vm_compute; discriminate |].
  destruct (withdrawFees_spec (Scenario.at_block Scenario.deployer 2100 6)
              Scenario.purchased Scenario.deployer 25001)
    as (_ & _ & Hshort & _).
  exists w'. split; [exact Hexec|]. split.
  - destruct Hmoved as [Hm _]; [vm_compute; discriminate|].
    etransitivity; [exact Hm | reflexivity].
  - apply Hshort; [reflexivity | vm_compute; discriminate | reflexivity].
Defined.

End Withdrawal.

(** ** Maintaining a dataset *)

Section DatasetMaintenance.
Import DataCoin.

(** X17. A dataset is maintained by its creator alone, the account it was
    minted to: [updateDataset] succeeds exactly for a minted token, called by
    its creator with a positive price, and then replaces the price and the
    access policy and nothing else, active or not; [deactivateDataset]
    succeeds exactly for a minted token called by its creator, and then only
    clears [isActive]. The registry's owner has no part in either. *)
Theorem dataset_maintenance_is_creators (e : Env) (s : State)
    (tokenId newPrice : uint256) (pol : string) :
  let d := dataset_at s tokenId in
  ((exists s' evs, updateDataset e s tokenId newPrice pol = Ok (s', evs)) <->
   minted s tokenId /\ creator d = msg_sender e /\ 0 < newPrice) /\
  (forall s' evs, updateDataset e s tokenId newPrice pol = Ok (s', evs) ->
     evs = [DatasetUpdated tokenId newPrice pol] /\
     dataset_at s' tokenId
       = {| cid := cid d; name := name d; description := description d;
            price := newPrice; creator := creator d; isActive := isActive d;
            createdAt := createdAt d; accessPolicy := pol;
            totalSupply := totalSupply d; soldSupply := soldSupply d |} /\
     (forall other, other <> tokenId -> dataset_at s' other = dataset_at s other) /\
     owner s' = owner s /\ tokenCount s' = tokenCount s) /\
  ((exists s', deactivateDataset e s tokenId = Ok s') <->
   minted s tokenId /\ creator d = msg_sender e) /\
  (forall s', deactivateDataset e s tokenId = Ok s' ->
     dataset_at s' tokenId
       = {| cid := cid d; name := name d; description := description d;
            price := price d; creator := creator d; isActive := false;
            createdAt := createdAt d; accessPolicy := accessPolicy d;
            totalSupply := totalSupply d; soldSupply := soldSupply d |} /\
     (forall other, other <> tokenId -> dataset_at s' other = dataset_at s other) /\
     owner s' = owner s /\ tokenCount s' = tokenCount s).
Proof.
  intros d.
  assert (minted s tokenId -> requireExists s tokenId = Ok tt) as Hexists.
  { unfold minted, requireExists, ownerOf. intros Hm.
    apply N.eqb_neq in Hm. rewrite Hm. simpl. by rewrite Hm. }
  split_and!.
  - split.
    + intros (s' & evs & H). by apply updateDataset_Ok in H as (? & ? & ? & _).
    + intros (Hm & Hc & Hp). unfold updateDataset.
      rewrite (Hexists Hm). fold d. rewrite Hc, N.eqb_refl.
      apply N.ltb_lt in Hp. rewrite Hp. simpl. eauto.
  - intros s' evs H. pose proof H as H'.
    apply updateDataset_Ok in H as (Hm & _ & Hp & ->).
    unfold updateDataset in H'. rewrite (Hexists Hm) in H'. simpl in H'.
    ok_steps H'. injection H' as <-.
    unfold dataset_at, tokenCount. simpl. rewrite lookup_insert_eq. simpl.
    split_and!; try done.
    intros other Hne. by rewrite lookup_insert_ne.
  - split.
    + intros (s' & H). by apply deactivateDataset_Ok in H as (? & ? & _).
    + intros (Hm & Hc). unfold deactivateDataset.
      rewrite (Hexists Hm). fold d. rewrite Hc, N.eqb_refl. simpl. eauto.
  - intros s' H. apply deactivateDataset_Ok in H as (Hm & _ & ->).
    unfold dataset_at, tokenCount. simpl. rewrite lookup_insert_eq. simpl.
    split_and!; try done.
    intros other Hne. by rewrite lookup_insert_ne.
Qed.

End DatasetMaintenance.

(** ** The buyers' indices *)

Section Indices.

Lemma apply_call_buyerPurchases (w : World) (tx : Env * Call) (b : address) :
  exists added,
    DataMarketplace.buyerPurchases_at (marketplace (apply_call w tx)) b
      = DataMarketplace.buyerPurchases_at (marketplace w) b ++ added.
Proof.
  destruct (apply_call_sale_or_quiet w tx)
    as [(e' & tokenId & amount & tok & pevs & H)|(_ & (_ & _ & Hb & _) & _)].
  - apply executePurchase_effects in H. cbv zeta in H.
    destruct H as (_ & _ & _ & _ & _ & _ & _ & _ & _ & Hb & _).
    unfold DataMarketplace.buyerPurchases_at. rewrite Hb, lookup_insert.
    case_decide as Heq; simpl.
    + subst b. by eexists.
    + exists []. by rewrite app_nil_r.
  - unfold DataMarketplace.buyerPurchases_at. rewrite Hb.
    exists []. by rewrite app_nil_r.
Qed.

Lemma apply_call_buyerIntents (w : World) (tx : Env * Call) (b : address) :
  exists added,
    CrossChainBridge.buyerIntents_at (bridge (apply_call w tx)) b
      = CrossChainBridge.buyerIntents_at (bridge w) b ++ added.
Proof.
  destruct (bridge_step_intents _ _ (apply_call_bridge_step w tx))
    as [[_ Hb]
       |[(e & tokenId & amount & src & dst & cost & _ & _ & _ & Hb)
        |[(id & i & e & tok & _ & _ & _ & Hb)
         |(id & i & _ & _ & _ & Hb)]]];
    unfold CrossChainBridge.buyerIntents_at; rewrite Hb;
    try (exists []; by rewrite app_nil_r).
  rewrite lookup_insert. case_decide as Heq; simpl.
  - subst b. by eexists.
  - exists []. by rewrite app_nil_r.
Qed.

(** X18. The histories returned by [getBuyerPurchases] and [getBuyerIntents]
    are append-only: after any sequence of transactions each buyer's list is
    the earlier list followed by the identifiers added since, so no entry is
    ever removed or reordered. *)
Theorem buyer_histories_are_append_only (w : World) (txs : list (Env * Call))
    (b : address) :
  (exists added,
     DataMarketplace.getBuyerPurchases (marketplace (run w txs)) b
       = DataMarketplace.getBuyerPurchases (marketplace w) b ++ added) /\
  (exists added,
     CrossChainBridge.getBuyerIntents (bridge (run w txs)) b
       = CrossChainBridge.getBuyerIntents (bridge w) b ++ added).
Proof.
  unfold DataMarketplace.getBuyerPurchases, CrossChainBridge.getBuyerIntents.
  revert w. induction txs as [|tx txs IH]; intros w; simpl.
  - split; exists []; by rewrite app_nil_r.
  - destruct (IH (apply_call w tx)) as [[a1 H1] [a2 H2]].
    destruct (apply_call_buyerPurchases w tx b) as [p Hp].
    destruct (apply_call_buyerIntents w tx b) as [i Hi].
    split.
    + exists (p ++ a1). by rewrite H1, Hp, app_assoc.
    + exists (i ++ a2). by rewrite H2, Hi, app_assoc.
Qed.

End Indices.

(** ** The strings of the token metadata *)

Section MetadataStrings.
Import DataCoinStrings.

Lemma tenfold_le (x j : N) : x <= j / 10 -> 10 * x <= j.
Proof.
  intros H. pose proof (N.div_mod j 10 ltac:(lia)) as Hdm.
  pose proof (N.mod_lt j 10 ltac:(lia)).
  pose proof (N.le_0_l (j mod 10)). pose proof (N.le_0_l (j / 10)). lia.
Qed.

Lemma tenfold_lt (x j : N) : j / 10 < x -> j < 10 * x.
Proof.
  intros H. pose proof (N.div_mod j 10 ltac:(lia)) as Hdm.
  pose proof (N.mod_lt j 10 ltac:(lia)).
  pose proof (N.le_0_l (j mod 10)). pose proof (N.le_0_l (j / 10)). lia.
Qed.

Lemma tenth_lt (x j : N) : j < 10 * x -> j / 10 < x.
Proof.
  intros H. pose proof (N.div_mod j 10 ltac:(lia)) as Hdm.
  pose proof (N.mod_lt j 10 ltac:(lia)).
  pose proof (N.le_0_l (j mod 10)). pose proof (N.le_0_l (j / 10)). lia.
Qed.

Lemma tenth_le (x j : N) : 10 * x <= j -> x <= j / 10.
Proof.
  intros H. pose proof (N.div_mod j 10 ltac:(lia)) as Hdm.
  pose proof (N.mod_lt j 10 ltac:(lia)).
  pose proof (N.le_0_l (j mod 10)). pose proof (N.le_0_l (j / 10)). lia.
Qed.

Lemma digits_step (i : N) (n : nat) :
  i <> 0 -> i / 10 < 10 ^ N.of_nat n -> i < 10 ^ N.of_nat (S n).
Proof.
  intros Hi Hlt. rewrite Nat2N.inj_succ, N.pow_succ_r'.
  by apply tenfold_lt.
Qed.

Lemma parse_decimal_snoc (s : list N) (c : N) :
  parse_decimal (s ++ [c]) = 10 * parse_decimal s + (c - 48).
Proof. unfold parse_decimal. by rewrite fold_left_app. Qed.

Lemma count_digits_spec (gas bound : nat) (j len : N) :
  (bound <= gas)%nat -> j < 10 ^ N.of_nat bound ->
  len + N.of_nat bound <= MAX_UINT256 ->
  exists n : nat,
    (n <= bound)%nat /\ count_digits gas j len = Done (len + N.of_nat n) /\
    (j = 0 -> n = 0%nat) /\ (j <> 0 -> 10 ^ N.of_nat (n - 1) <= j) /\
    j < 10 ^ N.of_nat n.
Proof.
  revert bound j len.
  induction gas as [|gas IH]; intros bound j len Hb Hj Hlen.
  - assert (bound = 0%nat) as -> by lia.
    simpl in Hj. assert (j = 0) as -> by lia. exists 0%nat. simpl.
    rewrite N.add_0_r. split_and!; try done; lia.
  - destruct (N.eq_dec j 0) as [->|Hnz].
    + exists 0%nat. simpl. rewrite N.add_0_r. split_and!; try done; lia.
    + destruct bound as [|bound]; [simpl in Hj; lia|].
      assert (j / 10 < 10 ^ N.of_nat bound) as Hdiv.
      { apply tenth_lt. by rewrite Nat2N.inj_succ, N.pow_succ_r' in Hj. }
      destruct (IH bound (j / 10) (len + 1) ltac:(lia) Hdiv ltac:(lia))
        as (n & Hn & Hcount & Hzero & Hlow & Hhigh).
      exists (S n). cbn [count_digits]. apply N.eqb_neq in Hnz as Hnz'.
      rewrite Hnz'.
      unfold add256. rewrite (proj2 (N.leb_le _ _)) by lia. cbn [andThen].
      rewrite Hcount. split_and!.
      * lia.
      * f_equal. lia.
      * done.
      * intros _. replace (S n - 1)%nat with n by lia.
        destruct (N.eq_dec (j / 10) 0) as [Hz|Hz].
        -- rewrite (Hzero Hz). simpl. lia.
        -- specialize (Hlow Hz).
           destruct n as [|m]; [simpl in Hhigh; lia|].
           replace (S m - 1)%nat with m in Hlow by lia.
           rewrite Nat2N.inj_succ, N.pow_succ_r'. by apply tenfold_le.
      * by apply digits_step.
Qed.

Lemma write_digits_spec (gas n : nat) (i k : N) (bstr : list N) :
  (n <= gas)%nat -> i < 10 ^ N.of_nat n ->
  (i = 0 -> n = 0%nat) -> (i <> 0 -> 10 ^ N.of_nat (n - 1) <= i) ->
  i <= MAX_UINT256 -> N.of_nat n <= k -> k <= N.of_nat (length bstr) ->
  exists digits,
    write_digits gas i k bstr
      = Done (take (N.to_nat k - n) bstr ++ digits ++ drop (N.to_nat k) bstr) /\
    length digits = n /\ parse_decimal digits = i /\
    Forall is_decimal_digit digits /\
    (forall c, head digits = Some c -> c <> 48).
Proof.
  revert n i k bstr.
  induction gas as [|gas IH]; intros n i k bstr Hn Hhigh Hzero Hlow Hmax Hk Hlen.
  - assert (n = 0%nat) as -> by lia. simpl in Hhigh. assert (i = 0) as -> by lia.
    exists []. simpl. rewrite Nat.sub_0_r, take_drop. split_and!; try done.
  - destruct (N.eq_dec i 0) as [->|Hnz].
    + rewrite (Hzero eq_refl). exists []. simpl.
      rewrite Nat.sub_0_r, take_drop. split_and!; try done.
    + destruct n as [|n]; [simpl in Hhigh; lia|].
      specialize (Hlow Hnz). replace (S n - 1)%nat with n in Hlow by lia.
      pose proof (N.div_mod i 10 ltac:(lia)) as Hdm.
      pose proof (N.mod_lt i 10 ltac:(lia)) as Hmod.
      pose proof (N.le_0_l (i mod 10)) as Hmod0.
      pose proof (N.le_0_l (i / 10)) as Hdiv0.
      assert (i / 10 < 10 ^ N.of_nat n) as Hdiv.
      { apply tenth_lt. by rewrite Nat2N.inj_succ, N.pow_succ_r' in Hhigh. }
      assert (i / 10 = 0 -> n = 0%nat) as Hzero'.
      { intros Hz. destruct n as [|n]; [done|].
        rewrite Nat2N.inj_succ, N.pow_succ_r' in Hlow.
        apply tenth_le in Hlow. rewrite Hz in Hlow.
        assert (10 ^ N.of_nat n <> 0) by (apply N.pow_nonzero; lia).
        lia. }
      assert (i / 10 <> 0 -> 10 ^ N.of_nat (n - 1) <= i / 10) as Hlow'.
      { intros Hz. destruct n as [|n]; [simpl in Hdiv; lia|].
        replace (S n - 1)%nat with n by lia.
        rewrite Nat2N.inj_succ, N.pow_succ_r' in Hlow.
        by apply tenth_le. }
      destruct (IH n (i / 10) (k - 1) (<[N.to_nat (k - 1) := 48 + i mod 10]> bstr))
        as (digits & Hrun & Hlength & Hparse & Hall & Hhead);
        try done; try lia.
      { rewrite length_insert. lia. }
      exists (digits ++ [48 + i mod 10]).
      cbn [write_digits]. apply N.eqb_neq in Hnz as Hnz'. rewrite Hnz'.
      unfold sub256 at 1. rewrite (proj2 (N.leb_le 1 k)) by lia. cbn [andThen].
      unfold mul256. rewrite (proj2 (N.leb_le _ _)) by lia. cbn [andThen].
      unfold sub256. rewrite (proj2 (N.leb_le _ _)) by lia. cbn [andThen].
      replace (i - i / 10 * 10) with (i mod 10) by lia.
      rewrite (N.mod_small (i mod 10) 256) by lia.
      unfold add8. rewrite (proj2 (N.leb_le _ _)) by lia. cbn [andThen].
      unfold store. rewrite (proj2 (N.ltb_lt _ _)) by lia. cbn [andThen].
      rewrite Hrun. split_and!.
      * f_equal.
        assert (N.to_nat (k - 1) < length bstr)%nat as Hin by lia.
        replace (N.to_nat k - S n)%nat with (N.to_nat (k - 1) - n)%nat by lia.
        rewrite take_insert_ge by lia.
        rewrite (drop_S _ (48 + i mod 10) (N.to_nat (k - 1)))
          by (apply list_lookup_insert_eq; lia).
        rewrite drop_insert_lt by lia.
        replace (S (N.to_nat (k - 1))) with (N.to_nat k) by lia.
        by rewrite <- !app_assoc.
      * rewrite length_app. simpl. lia.
      * rewrite parse_decimal_snoc, Hparse. lia.
      * apply Forall_app. split; [done|]. constructor; [|done].
        unfold is_decimal_digit. lia.
      * intros c. destruct digits as [|d digits'] eqn:Hd; simpl.
        -- intros [= <-]. simpl in Hlength. subst n. simpl in Hhigh.
           assert (i mod 10 <> 0) by lia. lia.
        -- intros [= <-]. apply Hhead. done.
Qed.

Lemma uint256_below_10_78 (v : N) : v <= MAX_UINT256 -> v < 10 ^ N.of_nat 78.
Proof.
  intros H. eapply N.le_lt_trans; [exact H|]. vm_compute. reflexivity.
Qed.

(** X19. [_uint2str] prints a number in decimal: for every uint256, given a
    loop budget of at least 78 iterations, it returns (no panic of the
    checked arithmetic or of the index checks, no exhaustion) a string of 1 to
    78 decimal digits that reads back as the number and has no leading zero
    unless the number is 0. *)
Theorem _uint2str_round_trip (gas : nat) (v : uint256) :
  v <= MAX_UINT256 -> (78 <= gas)%nat ->
  exists s,
    _uint2str gas v = Done s /\
    parse_decimal s = v /\
    Forall is_decimal_digit s /\
    (1 <= length s <= 78)%nat /\
    (head s = Some 48 -> v = 0).
Proof.
  intros Hmax Hgas. unfold _uint2str.
  destruct (N.eq_dec v 0) as [->|Hnz].
  - exists [48]. simpl. split_and!; try done; try lia.
    repeat constructor; unfold is_decimal_digit; lia.
  - apply N.eqb_neq in Hnz as Hnz'. rewrite Hnz'.
    destruct (count_digits_spec gas 78 v 0 Hgas (uint256_below_10_78 v Hmax))
      as (n & Hn & Hcount & Hzero & Hlow & Hhigh);
      [vm_compute; discriminate|].
    rewrite Hcount. cbn [andThen]. rewrite N.add_0_l.
    destruct (write_digits_spec gas n v (N.of_nat n) (new_bytes (N.of_nat n)))
      as (digits & Hrun & Hlength & Hparse & Hall & Hhead);
      try done; try lia.
    { unfold new_bytes. rewrite repeat_length. lia. }
    rewrite Hrun. rewrite Nat2N.id, Nat.sub_diag. simpl.
    rewrite drop_ge by (unfold new_bytes; rewrite repeat_length; lia).
    rewrite app_nil_r. exists digits. split_and!; try done; try lia.
    + destruct n as [|n]; [|lia]. simpl in Hhigh. lia.
    + intros Hh. by destruct (Hhead _ Hh).
Qed.

Lemma _uint2str_round_trip_witness :
  exists s, _uint2str 78 1000000 = Done s /\ parse_decimal s = 1000000.
Proof.
  destruct (_uint2str_round_trip 78 1000000) as (s & Hrun & Hparse & _).
  - vm_compute. discriminate.
  - lia.
  - exists s. split; [exact Hrun | exact Hparse].
Defined.

Lemma nibble_of_alphabet (x : N) :
  x < 16 ->
  exists c, load alphabet x = Done c /\ hex_value c = x /\ is_hex_digit c.
Proof.
  intros Hx.
  assert (x = 0 \/ x = 1 \/ x = 2 \/ x = 3 \/ x = 4 \/ x = 5 \/ x = 6 \/
          x = 7 \/ x = 8 \/ x = 9 \/ x = 10 \/ x = 11 \/ x = 12 \/
          x = 13 \/ x = 14 \/ x = 15) as Hcases by lia.
  unfold is_hex_digit.
  repeat (destruct Hcases as [->|Hcases]);
    [..|subst x]; (eexists; split; [reflexivity|]; split; [reflexivity|]; lia).
Qed.

Lemma byte_halves (b : N) :
  b < 256 ->
  N.shiftr b 4 < 16 /\ N.land b 15 < 16 /\
  16 * N.shiftr b 4 + N.land b 15 = b.
Proof.
  intros Hb. rewrite N.shiftr_div_pow2.
  change 15 with (N.ones 4). rewrite N.land_ones.
  change (2 ^ 4) with 16.
  pose proof (N.div_mod b 16 ltac:(lia)) as Hdm.
  pose proof (N.mod_lt b 16 ltac:(lia)).
  pose proof (N.le_0_l (b mod 16)). pose proof (N.le_0_l (b / 16)).
  split_and!; lia.
Qed.

Lemma parse_hex_from (s : list N) (acc : N) :
  fold_left (fun a c => 16 * a + hex_value c) s acc
    = acc * 16 ^ N.of_nat (length s) + parse_hex s.
Proof.
  unfold parse_hex. revert acc. induction s as [|c s IH]; intros acc.
  - simpl. lia.
  - cbn [fold_left length]. rewrite IH, (IH (16 * 0 + hex_value c)).
    rewrite Nat2N.inj_succ, N.pow_succ_r'. lia.
Qed.

Lemma write_nibbles_spec (gas : nat) (value i : N) (str : list N) :
  (20 - N.to_nat i <= gas)%nat -> i <= 20 -> length str = 42%nat ->
  exists hex,
    write_nibbles gas value i str
      = Done (take (2 + 2 * N.to_nat i) str ++ hex) /\
    length hex = (2 * (20 - N.to_nat i))%nat /\
    Forall is_hex_digit hex /\
    parse_hex hex = value mod 256 ^ (20 - i).
Proof.
  revert i str. induction gas as [|gas IH]; intros i str Hgas Hi Hlen.
  - assert (i = 20) as -> by lia. exists []. simpl.
    rewrite app_nil_r, firstn_all2 by lia. split_and!; try done.
    by rewrite N.mod_1_r.
  - destruct (N.eq_dec i 20) as [->|Hne].
    + exists []. simpl.
      rewrite app_nil_r, firstn_all2 by lia. split_and!; try done.
      by rewrite N.mod_1_r.
    + cbn [write_nibbles].
      rewrite (proj2 (N.ltb_lt i 20)) by lia. cbn [negb].
      unfold mul256. rewrite (proj2 (N.leb_le _ _)) by (unfold MAX_UINT256; lia).
      cbn [andThen].
      unfold add256.
      rewrite (proj2 (N.leb_le (2 + i * 2) _)) by (unfold MAX_UINT256; lia).
      cbn [andThen].
      rewrite (proj2 (N.leb_le (i + 12) _)) by (unfold MAX_UINT256; lia).
      cbn [andThen].
      unfold byte_of. rewrite (proj2 (N.ltb_lt (i + 12) 32)) by lia.
      cbn [andThen].
      replace (31 - (i + 12)) with (19 - i) by lia.
      set (b := (value / 256 ^ (19 - i)) mod 256).
      assert (b < 256) as Hb by (apply N.mod_lt; lia).
      destruct (byte_halves b Hb) as (Hhi & Hlo & Hsum).
      destruct (nibble_of_alphabet _ Hhi) as (high & -> & Hhv & Hhd).
      destruct (nibble_of_alphabet _ Hlo) as (low & Hlow & Hlv & Hld).
      cbn [andThen]. unfold store at 1.
      rewrite (proj2 (N.ltb_lt (2 + i * 2) _)) by lia. cbn [andThen].
      rewrite (proj2 (N.leb_le (3 + i * 2) _)) by (unfold MAX_UINT256; lia).
      cbn [andThen]. rewrite Hlow. cbn [andThen]. unfold store.
      rewrite length_insert.
      rewrite (proj2 (N.ltb_lt (3 + i * 2) _)) by lia. cbn [andThen].
      rewrite (proj2 (N.leb_le (i + 1) _)) by (unfold MAX_UINT256; lia).
      cbn [andThen].
      destruct (IH (i + 1)
                  (<[N.to_nat (3 + i * 2) := low]>
                     (<[N.to_nat (2 + i * 2) := high]> str)))
        as (hex & Hrun & Hlength & Hall & Hparse); try lia.
      { by rewrite !length_insert. }
      rewrite Hrun. exists (high :: low :: hex). split_and!.
      * f_equal.
        replace (2 + 2 * N.to_nat (i + 1))%nat
          with (S (N.to_nat (3 + i * 2))) by lia.
        rewrite (take_S_r _ _ low)
          by (apply list_lookup_insert_eq; rewrite length_insert; lia).
        rewrite take_insert_ge by lia.
        replace (N.to_nat (3 + i * 2)) with (S (N.to_nat (2 + i * 2))) by lia.
        rewrite (take_S_r _ _ high) by (apply list_lookup_insert_eq; lia).
        rewrite take_insert_ge by lia.
        replace (N.to_nat (2 + i * 2)) with (2 + 2 * N.to_nat i)%nat by lia.
        by rewrite <- !app_assoc.
      * simpl. lia.
      * constructor; [done|]. constructor; done.
      * unfold parse_hex. cbn [fold_left]. rewrite parse_hex_from.
        rewrite Hparse, Hlength, Hhv, Hlv.
        replace (16 * (16 * 0 + N.shiftr b 4) + N.land b 15) with b by lia.
        replace (20 - (i + 1)) with (19 - i) by lia.
        replace (N.of_nat (2 * (20 - N.to_nat (i + 1)))) with (2 * (19 - i))
          by lia.
        rewrite N.pow_mul_r. change (16 ^ 2) with 256.
        replace (20 - i) with (N.succ (19 - i)) by lia.
        rewrite N.pow_succ_r'.
        rewrite (N.mul_comm 256 (256 ^ (19 - i))).
        rewrite N.Div0.mod_mul_r. fold b. lia.
Qed.

(** X20. [_address2str] prints an address in hexadecimal: given a loop budget
    of at least 20 iterations it returns, without panic, a string of 42
    characters, "0x" followed by 40 lower-case hexadecimal digits that read
    back as the 160-bit address. *)
Theorem _address2str_round_trip (gas : nat) (_addr : address) :
  (20 <= gas)%nat ->
  exists s,
    _address2str gas _addr = Done s /\
    length s = 42%nat /\ take 2 s = [48; 120] /\
    Forall is_hex_digit (drop 2 s) /\
    parse_hex (drop 2 s) = _addr mod 2 ^ 160.
Proof.
  intros Hgas.
  assert (_address2str gas _addr
            = write_nibbles gas (_addr mod 2 ^ 160) 0
                ([48; 120] ++ repeat 0 40%nat)) as -> by reflexivity.
  destruct (write_nibbles_spec gas (_addr mod 2 ^ 160) 0
              ([48; 120] ++ repeat 0 40%nat))
    as (hex & Hrun & Hlength & Hall & Hparse); try done; try lia.
  rewrite Hrun. eexists. split; [reflexivity|].
  change (take (2 + 2 * N.to_nat 0) ([48; 120] ++ repeat 0 40%nat))
    with [48; 120].
  cbn [app firstn skipn length]. split_and!; try done.
  - rewrite Hlength. reflexivity.
  - rewrite drop_0, Hparse. change (256 ^ (20 - 0)) with (2 ^ 160).
    apply N.Div0.mod_mod.
Qed.

Lemma _address2str_round_trip_witness :
  exists s,
    _address2str 20 Scenario.buyer = Done s /\
    length s = 42%nat /\ parse_hex (drop 2 s) = Scenario.buyer.
Proof.
  destruct (_address2str_round_trip 20 Scenario.buyer)
    as (s & Hrun & Hlength & _ & _ & Hparse).
  - lia.
  - exists s. split; [exact Hrun|]. split; [exact Hlength | exact Hparse].
Defined.

End MetadataStrings.

(** ** The bridge's allowance *)

Section BridgeFunds.

(** X21. The bridge is never given the means to pay. No entry point of the
    bridge approves the marketplace, while [executeIntent] has the
    marketplace draw the price from the bridge with [transferFrom]. So from
    deployment, through every sequence of transactions none of which is sent
    from the bridge's own address, the bridge's allowance to every spender
    is 0, every [executeIntent] and every [settleIntent] reverts, and no
    intent is ever marked executed or settled. *)
Theorem bridge_is_never_approved
    (deployer marketplaceAddress bridgeAddress : address)
    (txs : list (Env * Call)) :
  Forall (fun tx => msg_sender (fst tx) <> bridgeAddress) txs ->
  let w := run (deploy deployer marketplaceAddress bridgeAddress) txs in
  (forall spender, Currency.allowance (usdc w) bridgeAddress spender = 0) /\
  (forall id, CrossChainBridge.getIntentStatus (bridge w) id = (false, false)) /\
  (forall e id proofHash tok,
     reverts (exec e (ExecuteIntent id proofHash tok) w)) /\
  (forall e id proofHash, reverts (exec e (SettleIntent id proofHash) w)).
Proof.
  intros Hall.
  set (w0 := deploy deployer marketplaceAddress bridgeAddress).
  assert (CrossChainBridge.self (bridge (run w0 txs)) = bridgeAddress /\
          bridge_unapproved (run w0 txs) /\ none_executed (bridge (run w0 txs)))
    as (Hself & Hun & Hnone).
  { assert (CrossChainBridge.self (bridge w0) = bridgeAddress /\
            bridge_unapproved w0 /\ none_executed (bridge w0)) as Hinit.
    { split_and!; try done. }
    clearbody w0. revert w0 Hinit.
    induction Hall as [|tx txs Htx Hall IH]; intros w (Hs & Hu & Hn); simpl;
      [done|].
    apply IH.
    destruct (apply_call_cases w tx) as [->|[evs H]]; [done|].
    assert (msg_sender (fst tx) <> CrossChainBridge.self (bridge w)) as Hsend
      by congruence.
    destruct (exec_bridge_unapproved _ _ _ _ _ Hsend Hu Hn H)
      as (Hs' & Hu' & Hn').
    split_and!; try done. congruence. }
  clearbody w0. subst bridgeAddress. cbv zeta. split_and!.
  - intros spender. apply Hun.
  - exact Hnone.
  - intros e id proofHash tok. apply reverts_of_not_Ok.
    intros [w2 evs] Hok. exec_inv Hok.
    match goal with
    | Hx : CrossChainBridge.executeIntent _ _ _ _ _ _ _ _ = Ok _ |- _ =>
        apply executeIntent_purchase in Hx as [pevs Hx];
        apply executePurchase_allowances in Hx as [Hpos _]
    end.
    simpl in Hpos. rewrite Hun in Hpos. lia.
  - intros e id proofHash. apply reverts_of_not_Ok.
    intros [w2 evs] Hok. exec_inv Hok.
    match goal with
    | Hx : CrossChainBridge.settleIntent _ _ _ _ = Ok _ |- _ =>
        apply settleIntent_Ok in Hx as (_ & _ & Hdone & _)
    end.
    specialize (Hnone id). unfold CrossChainBridge.getIntentStatus in Hnone.
    congruence.
Qed.

Lemma bridge_is_never_approved_witness :
  let w := run (Scenario.ready 0) Scenario.intent_txs in
  Currency.allowance (usdc w) Scenario.bridgeAddress Scenario.marketplaceAddress
    = 0 /\
  reverts (exec (Scenario.at_block Scenario.deployer 3000 7)
                (ExecuteIntent Scenario.intent Scenario.proof "tokA") w).
Proof.
  intros w.
  assert (Forall (fun tx => msg_sender (fst tx) <> Scenario.bridgeAddress)
            (Scenario.setup 0 ++ Scenario.intent_txs)) as Hall
    by (repeat constructor; vm_compute; discriminate).
  destruct (bridge_is_never_approved Scenario.deployer
              Scenario.marketplaceAddress Scenario.bridgeAddress
              (Scenario.setup 0 ++ Scenario.intent_txs) Hall)
    as (Hallow & _ & Hexec & _).
  unfold run in Hallow, Hexec. rewrite fold_left_app in Hallow, Hexec.
  split; [apply Hallow | apply Hexec].
Defined.

End BridgeFunds.

